(** * CloudStorageFileReader: a shallow embedding and its specification

    The development follows
    [tensorlakehouse_openeo_driver/file_reader/cloud_storage_file_reader.py].
    Python values are a small inductive universe, dictionaries are
    insertion-ordered association lists (iteration order is observable in
    several methods), and a raised exception is a constructor of [result]. *)

From Stdlib Require Import ZArith List String Ascii Bool Lia.
From Stdlib Require Import Floats.SpecFloat.
Import ListNotations.

Set Warnings "-register-all".

Local Open Scope string_scope.
Local Open Scope Z_scope.

(** ** Exceptions and the error monad *)

Inductive exn : Type :=
| AssertionError
| KeyError
| IndexError
| TypeError
| AttributeError
| StopIteration
| ValueError
| ExternalError.

Inductive result (A : Type) : Type :=
| OK (a : A)
| Raise (e : exn).

Arguments OK {A} a.
Arguments Raise {A} e.

Definition bind {A B : Type} (c : result A) (k : A -> result B) : result B :=
  match c with
  | OK a => k a
  | Raise e => Raise e
  end.

Notation "x <- c ;; k" := (bind c (fun x => k))
  (at level 61, c at next level, right associativity).

(** [assert cond] of Python, with assertions enabled. *)
Notation "'assert!' b ;; k" := (if b then k else Raise AssertionError)
  (at level 61, b at next level, right associativity).

Definition succeeds {A : Type} (c : result A) : Prop := exists a, c = OK a.
Definition fails {A : Type} (c : result A) : Prop := exists e, c = Raise e.

(** ** Python values *)

Inductive pyval : Type :=
| PNone
| PBool (b : bool)
| PInt (n : Z)
| PFloat (f : spec_float)
| PStr (s : string)
| PList (l : list pyval)
| PTuple (l : list pyval)
| PDict (d : list (string * pyval))
| PParamRef (from_parameter : string)   (* openeo ParameterReference *)
| PDatetime (aware : bool) (instant : Z). (* datetime; [aware] = has tzinfo *)

(** A [dict] keeps its keys in insertion order. *)
Definition dict : Type := list (string * pyval).

Module Dict.

(** [d.get(k)]: [None] when the key is absent. *)
Fixpoint get (d : dict) (k : string) : pyval :=
  match d with
  | [] => PNone
  | (k', v) :: d' => if String.eqb k' k then v else get d' k
  end.

(** [d[k]]: [KeyError] when the key is absent. *)
Fixpoint getitem (d : dict) (k : string) : result pyval :=
  match d with
  | [] => Raise KeyError
  | (k', v) :: d' => if String.eqb k' k then OK v else getitem d' k
  end.

(** [d[k] = v]: an existing key keeps its position, a new key is appended. *)
Fixpoint set (d : dict) (k : string) (v : pyval) : dict :=
  match d with
  | [] => [(k, v)]
  | (k', v') :: d' =>
      if String.eqb k' k then (k', v) :: d' else (k', v') :: set d' k v
  end.

Definition values (d : dict) : list pyval := map snd d.

End Dict.

(** ** Builtins on values *)

Definition is_none (v : pyval) : bool :=
  match v with PNone => true | _ => false end.

Definition is_dict (v : pyval) : bool :=
  match v with PDict _ => true | _ => false end.

Definition is_datetime (v : pyval) : bool :=
  match v with PDatetime _ _ => true | _ => false end.

Definition is_param_ref (v : pyval) : bool :=
  match v with PParamRef _ => true | _ => false end.

(** [v == s] for a string [s]. *)
Definition eq_str (v : pyval) (s : string) : bool :=
  match v with PStr t => String.eqb t s | _ => false end.

(** [v[k]] for a string key [k]. *)
Definition getitem_str (v : pyval) (k : string) : result pyval :=
  match v with
  | PDict d => Dict.getitem d k
  | _ => Raise TypeError
  end.

(** [v.get(k)]: only a dict has the method. *)
Definition get_str (v : pyval) (k : string) : result pyval :=
  match v with
  | PDict d => OK (Dict.get d k)
  | _ => Raise AttributeError
  end.

(** [v.values()]. *)
Definition values_of (v : pyval) : result (list pyval) :=
  match v with
  | PDict d => OK (Dict.values d)
  | _ => Raise AttributeError
  end.

(** [v.items()]. *)
Definition items_of (v : pyval) : result dict :=
  match v with
  | PDict d => OK d
  | _ => Raise AttributeError
  end.

(** ** Dimension metadata of a STAC item *)

Section Dimensions.

(** [float(np.abs(v))]: NumPy's absolute value converted to a Python
    float.  NumPy is a collaborator of the module, not part of it. *)
Variable np_abs_float : pyval -> result pyval.

(** Body of the loop of [_get_epsg], from the current value of [epsg]. *)
Fixpoint epsg_loop (vals : list pyval) (epsg : pyval) : result pyval :=
  match vals with
  | [] => OK epsg
  | value :: vals' =>
      r <- get_str value "reference_system" ;;
      if negb (is_none r)
      then epsg_loop vals' r
      else epsg_loop vals' epsg
  end.

Definition _get_epsg (item : pyval) : result pyval :=
  item_prop <- getitem_str item "properties" ;;
  cube_dims <- getitem_str item_prop "cube:dimensions" ;;
  vals <- values_of cube_dims ;;
  epsg_loop vals PNone.

(** Body of the loop of [_get_resolution]. *)
Fixpoint resolution_loop (vals : list pyval) (resolution : pyval)
  : result pyval :=
  match vals with
  | [] => OK resolution
  | value :: vals' =>
      s <- get_str value "step" ;;
      if negb (is_none s)
      then r <- np_abs_float s ;; resolution_loop vals' r
      else resolution_loop vals' resolution
  end.

Definition _get_resolution (item : pyval) : result pyval :=
  item_prop <- getitem_str item "properties" ;;
  cube_dims <- getitem_str item_prop "cube:dimensions" ;;
  vals <- values_of cube_dims ;;
  resolution_loop vals PNone.

End Dimensions.

(** [_get_dimension_description]: the first key whose [axis] is the
    requested one.  The method receives a [pystac.Item] and reads its
    [properties] attribute, which is the argument [item_prop] here. *)
Fixpoint description_loop (dims : dict) (axis : string) : result pyval :=
  match dims with
  | [] => OK PNone
  | (key, value) :: dims' =>
      a <- get_str value "axis" ;;
      if negb (is_none a) && eq_str a axis
      then OK (PStr key)
      else description_loop dims' axis
  end.

Definition _get_dimension_description (item_prop : pyval) (axis : string)
  : result pyval :=
  cube_dims <- getitem_str item_prop "cube:dimensions" ;;
  dims <- items_of cube_dims ;;
  description_loop dims axis.

(** The [while i < len(dim_list) and not found] loop of
    [_get_dimension_name]; the recursion is on the part of [dim_list] from
    index [i] on, and both tests run in every iteration. *)
Fixpoint dimension_name_loop (dim_list : dict) (axis dim_type : option string)
  (found : bool) (dimension_name : pyval) : result pyval :=
  match dim_list with
  | [] => OK dimension_name
  | (k, v) :: rest =>
      if found then OK dimension_name
      else
        original_axis <- get_str v "axis" ;;
        let hit1 :=
          match axis with
          | Some ax => negb (is_none original_axis) && eq_str original_axis ax
          | None => false
          end in
        let dimension_name := if hit1 then PStr k else dimension_name in
        let found := if hit1 then true else found in
        hit2 <- match dim_type with
                | Some ty =>
                    t <- get_str v "type" ;;
                    OK (negb (is_none t) && eq_str t ty)
                | None => OK false
                end ;;
        let dimension_name := if hit2 then PStr k else dimension_name in
        let found := if hit2 then true else found in
        dimension_name_loop rest axis dim_type found dimension_name
  end.

Definition is_some {A : Type} (o : option A) : bool :=
  match o with Some _ => true | None => false end.

Definition _get_dimension_name (item : pyval) (axis dim_type : option string)
  : result pyval :=
  item_properties <- getitem_str item "properties" ;;
  cube_dims <- getitem_str item_properties "cube:dimensions" ;;
  assert! is_dict cube_dims ;;
  assert! is_some axis || is_some dim_type ;;
  dim_list <- items_of cube_dims ;;
  dimension_name_loop dim_list axis dim_type false PNone.

(** ** Strings

    A Python [str] is a [string] whose characters are the code points below
    256. *)

Module Str.

Definition code (c : ascii) : N := N_of_ascii c.

(** [c.lower()] on the Latin-1 range: [A]-[Z] and the accented capitals
    U+00C0-U+00DE (the multiplication sign U+00D7 apart) move by 32. *)
Definition lower_char (c : ascii) : ascii :=
  let n := code c in
  if ((65 <=? n) && (n <=? 90)
      || (192 <=? n) && (n <=? 222) && negb (n =? 215))%N
  then ascii_of_N (n + 32) else c.

Fixpoint lower (s : string) : string :=
  match s with
  | EmptyString => EmptyString
  | String c s' => String (lower_char c) (lower s')
  end.

Fixpoint drop (n : nat) (s : string) : string :=
  match n, s with
  | O, _ => s
  | S n', EmptyString => EmptyString
  | S n', String _ s' => drop n' s'
  end.

Fixpoint take (n : nat) (s : string) : string :=
  match n, s with
  | O, _ => EmptyString
  | S n', EmptyString => EmptyString
  | S n', String c s' => String c (take n' s')
  end.

(** A slice bound, clamped as Python does. *)
Definition clamp (i : Z) (s : string) : nat :=
  let len := Z.of_nat (String.length s) in
  Z.to_nat (if i <? 0 then Z.max 0 (i + len) else Z.min i len).

(** [s[a:b]] *)
Definition slice (s : string) (a b : Z) : string :=
  take (clamp b s - clamp a s) (drop (clamp a s) s).

(** [s[a:]] *)
Definition slice_from (s : string) (a : Z) : string :=
  drop (clamp a s) s.

(** [s.find(sub, start)] for [start >= 0]: the lowest index, or -1. *)
Definition find (s sub : string) (start : Z) : Z :=
  match String.index (Z.to_nat start) sub s with
  | Some i => Z.of_nat i
  | None => -1
  end.

(** [s.startswith(p)] *)
Definition startswith (s p : string) : bool := String.prefix p s.

(** [c in s] for a character [c]. *)
Fixpoint contains (c : ascii) (s : string) : bool :=
  match s with
  | EmptyString => false
  | String a s' => Ascii.eqb a c || contains c s'
  end.

(** [s.partition(c)]: text before the first [c], whether [c] was found,
    text after it. *)
Fixpoint partition (c : ascii) (s : string) : string * bool * string :=
  match s with
  | EmptyString => (EmptyString, false, EmptyString)
  | String a s' =>
      if Ascii.eqb a c then (EmptyString, true, s')
      else let '(b, f, r) := partition c s' in (String a b, f, r)
  end.

(** [s.rpartition(c)[2]]: the text after the last [c], all of [s] when
    there is none. *)
Fixpoint after_last (c : ascii) (s : string) : string :=
  match s with
  | EmptyString => EmptyString
  | String a s' =>
      if contains c s' then after_last c s'
      else if Ascii.eqb a c then s' else s
  end.

(** [s.rfind(c)] *)
Fixpoint rfind (c : ascii) (s : string) : option nat :=
  match s with
  | EmptyString => None
  | String a s' =>
      match rfind c s' with
      | Some i => Some (S i)
      | None => if Ascii.eqb a c then Some O else None
      end
  end.

(** [s.split(c)] *)
Fixpoint split (c : ascii) (s : string) : list string :=
  match s with
  | EmptyString => [EmptyString]
  | String a s' =>
      if Ascii.eqb a c then EmptyString :: split c s'
      else match split c s' with
           | [] => [String a EmptyString]
           | w :: ws => String a w :: ws
           end
  end.

(** [s.lstrip(chars)] for the set of characters satisfying [p]. *)
Fixpoint lstrip (p : ascii -> bool) (s : string) : string :=
  match s with
  | EmptyString => EmptyString
  | String a s' => if p a then lstrip p s' else s
  end.

(** Removal of every character satisfying [p]. *)
Fixpoint remove (p : ascii -> bool) (s : string) : string :=
  match s with
  | EmptyString => EmptyString
  | String a s' => if p a then remove p s' else String a (remove p s')
  end.

Fixpoint forallb (p : ascii -> bool) (s : string) : bool :=
  match s with
  | EmptyString => true
  | String a s' => p a && forallb p s'
  end.

(** The longest prefix free of characters satisfying [p], and the rest. *)
Fixpoint span_until (p : ascii -> bool) (s : string) : string * string :=
  match s with
  | EmptyString => (EmptyString, EmptyString)
  | String a s' =>
      if p a then (EmptyString, s)
      else let '(b, r) := span_until p s' in (String a b, r)
  end.

End Str.

(** ** [urllib.parse.urlparse]

    The standard library's parser, as of CPython 3.13, on the components
    the reader looks at.  [_checknetloc] only rejects a network location whose
    NFKC form gains one of [/?#@:], which no code point below 256 does, so
    it does not appear. *)

Module Urllib.

Record ParseResult : Type := mkParseResult {
  scheme : string;
  netloc : string;
  path : string;
  params : string;
  query : string;
  fragment : string
}.

Definition is_alpha (c : ascii) : bool :=
  let n := Str.code c in
  ((65 <=? n) && (n <=? 90) || (97 <=? n) && (n <=? 122))%N.

Definition is_digit (c : ascii) : bool :=
  let n := Str.code c in ((48 <=? n) && (n <=? 57))%N.

(** [scheme_chars]: letters, digits, [+], [-], [.] *)
Definition is_scheme_char (c : ascii) : bool :=
  is_alpha c || is_digit c
  || Ascii.eqb c "+" || Ascii.eqb c "-" || Ascii.eqb c ".".

(** [_WHATWG_C0_CONTROL_OR_SPACE] *)
Definition is_c0_or_space (c : ascii) : bool := (Str.code c <=? 32)%N.

(** [_UNSAFE_URL_BYTES_TO_REMOVE]: tab, carriage return, line feed *)
Definition is_unsafe (c : ascii) : bool :=
  let n := Str.code c in ((n =? 9) || (n =? 13) || (n =? 10))%N.

Definition is_netloc_delim (c : ascii) : bool :=
  Ascii.eqb c "/" || Ascii.eqb c "?" || Ascii.eqb c "#".

(** [uses_params] *)
Definition uses_params : list string :=
  [EmptyString; "ftp"; "hdl"; "prospero"; "http"; "imap"; "https"; "shttp";
   "rtsp"; "rtspu"; "sip"; "sips"; "mms"; "sftp"; "tel"].

Definition in_list (s : string) (l : list string) : bool :=
  existsb (String.eqb s) l.

Section Parse.

(** [_check_bracketed_host]: whether the text between brackets is an
    IPv6 or IPvFuture literal (decided by the [ipaddress] module). *)
Variable bracketed_host_ok : string -> bool.

Definition _check_bracketed_netloc (netloc : string) : result unit :=
  let hostname_and_port := Str.after_last "@" netloc in
  let '(before_bracket, have_open_br, bracketed) :=
    Str.partition "[" hostname_and_port in
  if have_open_br then
    if negb (String.eqb before_bracket EmptyString) then Raise ValueError
    else
      let '(hostname, _, port) := Str.partition "]" bracketed in
      if negb (String.eqb port EmptyString) && negb (Str.startswith port ":")
      then Raise ValueError
      else if bracketed_host_ok hostname then OK tt else Raise ValueError
  else
    let '(hostname, _, _) := Str.partition ":" hostname_and_port in
    if bracketed_host_ok hostname then OK tt else Raise ValueError.

(** The scheme part of [urlsplit]: the text before the first colon,
    lowered, when it starts with a letter and consists of scheme
    characters; the rest of the URL. *)
Definition split_scheme (url : string) : string * string :=
  let '(before, found, after) := Str.partition ":" url in
  if found && negb (String.eqb before EmptyString)
     && match before with
        | String c _ => is_alpha c
        | EmptyString => false
        end
     && Str.forallb is_scheme_char before
  then (Str.lower before, after)
  else (EmptyString, url).

(** The network location part of [urlsplit], with [_splitnetloc]. *)
Definition split_netloc (url : string) : result (string * string) :=
  if Str.startswith url "//" then
    let '(netloc, rest) :=
      Str.span_until is_netloc_delim (Str.drop 2 url) in
    let lb := Str.contains "[" netloc in
    let rb := Str.contains "]" netloc in
    if lb && negb rb || rb && negb lb then Raise ValueError
    else
      _ <- (if lb && rb then _check_bracketed_netloc netloc
            else OK tt) ;;
      OK (netloc, rest)
  else OK (EmptyString, url).

(** [urlsplit(url)]: scheme, netloc, path, query, fragment. *)
Definition urlsplit (url : string)
  : result (string * string * string * string * string) :=
  let url := Str.lstrip is_c0_or_space url in
  let url := Str.remove is_unsafe url in
  let '(scheme, url) := split_scheme url in
  r <- split_netloc url ;;
  let '(netloc, url) := r in
  let '(url, _, fragment) := Str.partition "#" url in
  let '(url, _, query) := Str.partition "?" url in
  OK (scheme, netloc, url, query, fragment).

Definition _splitparams (url : string) : string * string :=
  match Str.rfind "/" url with
  | Some j =>
      match String.index j ";" url with
      | Some i => (Str.take i url, Str.drop (S i) url)
      | None => (url, EmptyString)
      end
  | None =>
      match String.index 0 ";" url with
      | Some i => (Str.take i url, Str.drop (S i) url)
      | None => (Str.slice url 0 (-1), url)
      end
  end.

Definition urlparse (url : string) : result ParseResult :=
  r <- urlsplit url ;;
  let '(scheme, netloc, url, query, fragment) := r in
  let '(url, params) :=
    if in_list scheme uses_params && Str.contains ";" url
    then _splitparams url
    else (url, EmptyString) in
  OK (mkParseResult scheme netloc url params query fragment).

End Parse.

(** The [hostname] property: [None] when the network location names no
    host; the zone of a scoped IPv6 address keeps its case. *)
Definition hostname (r : ParseResult) : option string :=
  let hostinfo := Str.after_last "@" (netloc r) in
  let '(_, have_open_br, bracketed) := Str.partition "[" hostinfo in
  let hostname :=
    if have_open_br then fst (fst (Str.partition "]" bracketed))
    else fst (fst (Str.partition ":" hostinfo)) in
  if String.eqb hostname EmptyString then None
  else
    let '(host, percent, zone) := Str.partition "%" hostname in
    Some (Str.lower host ++ (if percent then "%" else EmptyString) ++ zone).

End Urllib.

(** ** Comparisons, lengths and subscripts *)

(** The exact value of a Python number: [m * 2^e], an infinity, or NaN. *)
Inductive xnum : Type :=
| XFin (m e : Z)
| XInf (negative : bool)
| XNaN.

Definition to_xnum (v : pyval) : option xnum :=
  match v with
  | PBool b => Some (XFin (if b then 1 else 0) 0)
  | PInt n => Some (XFin n 0)
  | PFloat (S754_zero _) => Some (XFin 0 0)
  | PFloat (S754_finite s m e) => Some (XFin (if s then Zneg m else Zpos m) e)
  | PFloat (S754_infinity s) => Some (XInf s)
  | PFloat S754_nan => Some XNaN
  | _ => None
  end.

Definition xnum_leb (a b : xnum) : bool :=
  match a, b with
  | XNaN, _ | _, XNaN => false
  | XInf true, _ => true
  | _, XInf false => true
  | XInf false, _ => false
  | _, XInf true => false
  | XFin m1 e1, XFin m2 e2 =>
      let e := Z.min e1 e2 in
      m1 * 2 ^ (e1 - e) <=? m2 * 2 ^ (e2 - e)
  end.

(** [a <= b] where one operand is known to be an [int] or a [float]:
    Python compares numbers exactly and raises [TypeError] otherwise. *)
Definition num_le (a b : pyval) : result bool :=
  match to_xnum a, to_xnum b with
  | Some x, Some y => OK (xnum_leb x y)
  | _, _ => Raise TypeError
  end.

(** [a <= b <= c <= d], evaluated left to right and cut short at the first
    false comparison. *)
Definition chain_le (a b c d : pyval) : result bool :=
  ab <- num_le a b ;;
  if ab then
    bc <- num_le b c ;;
    if bc then num_le c d else OK false
  else OK false.

(** [a <= b] for two datetimes: a naive and an aware one do not compare. *)
Definition datetime_le (a b : pyval) : result bool :=
  match a, b with
  | PDatetime aw1 t1, PDatetime aw2 t2 =>
      if Bool.eqb aw1 aw2 then OK (t1 <=? t2) else Raise TypeError
  | _, _ => Raise TypeError
  end.

(** [len(v)] *)
Definition py_len (v : pyval) : result Z :=
  match v with
  | PList l | PTuple l => OK (Z.of_nat (List.length l))
  | PDict d => OK (Z.of_nat (List.length d))
  | PStr s => OK (Z.of_nat (String.length s))
  | _ => Raise TypeError
  end.

(** [v[i]] for a constant index [i >= 0]. *)
Definition py_index (v : pyval) (i : nat) : result pyval :=
  match v with
  | PList l | PTuple l =>
      match nth_error l i with
      | Some x => OK x
      | None => Raise IndexError
      end
  | PStr s =>
      match String.get i s with
      | Some c => OK (PStr (String c EmptyString))
      | None => Raise IndexError
      end
  | PDict _ => Raise KeyError
  | _ => Raise TypeError
  end.

(** Truth value of an object. *)
Definition truthy (v : pyval) : bool :=
  match v with
  | PNone => false
  | PBool b => b
  | PInt n => negb (n =? 0)
  | PFloat (S754_zero _) => false
  | PFloat _ => true
  | PStr s => negb (String.eqb s EmptyString)
  | PList l | PTuple l => match l with [] => false | _ => true end
  | PDict d => match d with [] => false | _ => true end
  | PParamRef _ => true
  | PDatetime _ _ => true
  end.

(** ** The reader *)

Record CloudStorageFileReader : Type := mkReader {
  items : pyval;
  bbox : pyval;
  bands : pyval;
  temporal_extent : pyval;
  bucket : string;
  _endpoint : pyval;
  access_key_id : pyval;
  secret_access_key : pyval;
  region : pyval;
  properties : pyval
}.

(** Keyword arguments received by [s3fs.S3FileSystem]. *)
Record S3FileSystem : Type := mkS3FileSystem {
  anon : bool;
  endpoint_url : string;
  key : pyval;
  secret : pyval
}.

Section Reader.

(** [ipaddress]-based check behind [urlparse] (see [Urllib]). *)
Variable bracketed_host_ok : string -> bool.

(** [object_storage_util.get_credentials_by_bucket] and
    [object_storage_util.parse_region]. *)
Variable get_credentials_by_bucket : string -> result pyval.
Variable parse_region : string -> result pyval.

(** [xr.Dataset], and [dataset.sel({name: [value]})]. *)
Variable Dataset : Type.
Variable sel : Dataset -> string -> pyval -> result Dataset.

Definition _extract_bucket_name_from_url (url : string) : result string :=
  url_parsed <- Urllib.urlparse bracketed_host_ok url ;;
  match
    (if String.eqb (Str.lower (Urllib.scheme url_parsed)) "s3"
     then Urllib.hostname url_parsed else None)
  with
  | Some hostname => OK hostname
  | None =>
      let begin_bucket_name := 1 in
      let end_bucket_name :=
        Str.find (Urllib.path url_parsed) "/" begin_bucket_name in
      assert! (end_bucket_name >? begin_bucket_name) ;;
      OK (Str.slice (Urllib.path url_parsed) begin_bucket_name
            end_bucket_name)
  end.

Definition _get_object (url : string) : result string :=
  let begin_bucket_name := 1 in
  url_parsed <- Urllib.urlparse bracketed_host_ok url ;;
  let slash_index :=
    Str.find (Urllib.path url_parsed) "/" begin_bucket_name + 1 in
  assert! (slash_index >? begin_bucket_name) ;;
  OK (Str.slice_from (Urllib.path url_parsed) slash_index).

Definition _convert_https_to_s3 (url : string) : result string :=
  assert! Str.startswith (Str.lower url) "http" ;;
  bucket <- _extract_bucket_name_from_url url ;;
  object <- _get_object url ;;
  OK ("s3://" ++ bucket ++ "/" ++ object).

(** [_extract_bucket_name_from_url(url=href)] for an [href] of any type:
    [urlparse] decodes a non-string argument, which raises
    [AttributeError] for a true object and yields an empty bytes result,
    on which [path.find("/", 1)] raises [TypeError], for a false one. *)
Definition extract_bucket_of (href : pyval) : result string :=
  match href with
  | PStr url => _extract_bucket_name_from_url url
  | _ => if truthy href then Raise AttributeError else Raise TypeError
  end.

(** The [endpoint] property: [self._endpoint.lower()]. *)
Definition endpoint_of (_endpoint : pyval) : result string :=
  match _endpoint with
  | PStr s => OK (Str.lower s)
  | _ => Raise AttributeError
  end.

Definition endpoint (self : CloudStorageFileReader) : result string :=
  endpoint_of (_endpoint self).

(** The items checks of [__init__]. *)
Definition check_items (items : pyval) : result unit :=
  assert! (match items with PList _ => true | _ => false end) ;;
  n <- py_len items ;;
  assert! (n >? 0) ;;
  OK tt.

(** The bbox checks of [__init__]. *)
Definition check_bbox (bbox : pyval) : result unit :=
  assert! (match bbox with PTuple _ => true | _ => false end) ;;
  n <- py_len bbox ;;
  assert! (n =? 4) ;;
  west <- py_index bbox 0 ;;
  south <- py_index bbox 1 ;;
  east <- py_index bbox 2 ;;
  north <- py_index bbox 3 ;;
  lon <- chain_le (PInt (-180)) west east (PInt 180) ;;
  assert! lon ;;
  lat <- chain_le (PInt (-90)) south north (PInt 90) ;;
  assert! lat ;;
  OK tt.

(** The temporal extent checks of [__init__]. *)
Definition check_temporal_extent (temporal_extent : pyval) : result unit :=
  if negb (is_none temporal_extent) then
    n <- py_len temporal_extent ;;
    if n >? 0 then
      t0 <- py_index temporal_extent 0 ;;
      assert! is_datetime t0 ;;
      t1 <- py_index temporal_extent 1 ;;
      if negb (is_none t1) then
        assert! is_datetime t1 ;;
        ordered <- datetime_le t0 t1 ;;
        assert! ordered ;;
        OK tt
      else OK tt
    else OK tt
  else OK tt.

(** [next(iter(l))] *)
Definition next_iter (l : list pyval) : result pyval :=
  match l with
  | x :: _ => OK x
  | [] => Raise StopIteration
  end.

(** What [__init__] derives from the first asset of the first item: the
    bucket, the credentials of the bucket, and the region. *)
Record storage : Type := mkStorage {
  st_bucket : string;
  st_endpoint : pyval;
  st_access_key_id : pyval;
  st_secret_access_key : pyval;
  st_region : pyval
}.

Definition resolve_storage (items : pyval) : result storage :=
  item0 <- py_index items 0 ;;
  assets <- getitem_str item0 "assets" ;;
  vals <- values_of assets ;;
  asset_values <- next_iter vals ;;
  href <- getitem_str asset_values "href" ;;
  bucket <- extract_bucket_of href ;;
  credentials <- get_credentials_by_bucket bucket ;;
  _endpoint <- getitem_str credentials "endpoint" ;;
  access_key_id <- getitem_str credentials "access_key_id" ;;
  secret_access_key <- getitem_str credentials "secret_access_key" ;;
  endpoint <- endpoint_of _endpoint ;;
  region <- parse_region endpoint ;;
  OK (mkStorage bucket _endpoint access_key_id secret_access_key region).

Definition __init__ (items bands bbox temporal_extent properties : pyval)
  : result CloudStorageFileReader :=
  _ <- check_items items ;;
  _ <- check_bbox bbox ;;
  _ <- check_temporal_extent temporal_extent ;;
  st <- resolve_storage items ;;
  OK (mkReader items bbox bands temporal_extent (st_bucket st)
        (st_endpoint st) (st_access_key_id st) (st_secret_access_key st)
        (st_region st) properties).

(** [fields[1]] after [assert len(fields) >= 2]. *)
Definition dimension_name_of (property_name : string) : result string :=
  let fields := Str.split "." property_name in
  assert! (Z.of_nat (List.length fields) >=? 2) ;;
  match nth_error fields 1 with
  | Some f => OK f
  | None => Raise IndexError
  end.

(** [process_id in ["eq", "="]] *)
Definition is_eq_process (process_id : pyval) : bool :=
  eq_str process_id "eq" || eq_str process_id "=".

(** One iteration over [process_graph.values()]: the process id and the
    filter value of a node. *)
Definition node_filter (process_graph_values : pyval)
  : result (pyval * pyval) :=
  process_id <- getitem_str process_graph_values "process_id" ;;
  arguments <- getitem_str process_graph_values "arguments" ;;
  x <- getitem_str arguments "x" ;;
  value <- (if is_param_ref x then getitem_str arguments "y"
            else getitem_str arguments "x") ;;
  OK (process_id, value).

(** The loop over the nodes of one property, threading the state [st]
    that the [apply] step updates. *)
Fixpoint nodes_loop {S : Type} (apply : S -> pyval -> result S)
  (nodes : list pyval) (st : S) : result S :=
  match nodes with
  | [] => OK st
  | process_graph_values :: nodes' =>
      pv <- node_filter process_graph_values ;;
      let '(process_id, value) := pv in
      st' <- (if is_eq_process process_id then apply st value else OK st) ;;
      nodes_loop apply nodes' st'
  end.

(** The loop over [self.properties.items()], shared by
    [get_extra_dimensions_filter] and [_filter_by_extra_dimensions]. *)
Fixpoint properties_loop {S : Type} (apply : string -> S -> pyval -> result S)
  (props : dict) (st : S) : result S :=
  match props with
  | [] => OK st
  | (property_name, property_values) :: props' =>
      st' <- (if Str.startswith property_name "cube:dimensions" then
                dimension_name <- dimension_name_of property_name ;;
                process_graph <- getitem_str property_values "process_graph" ;;
                assert! is_dict process_graph ;;
                nodes <- values_of process_graph ;;
                nodes_loop (apply dimension_name) nodes st
              else OK st) ;;
      properties_loop apply props' st'
  end.

Definition get_extra_dimensions_filter (self : CloudStorageFileReader)
  : result dict :=
  let extra_dim_filter : dict := [] in
  match properties self with
  | PDict props =>
      properties_loop
        (fun dimension_name extra_dim_filter value =>
           OK (Dict.set extra_dim_filter dimension_name value))
        props extra_dim_filter
  | _ => OK extra_dim_filter
  end.

Definition _filter_by_extra_dimensions (self : CloudStorageFileReader)
  (dataset : Dataset) : result Dataset :=
  match properties self with
  | PDict props =>
      properties_loop
        (fun dimension_name dataset value => sel dataset dimension_name value)
        props dataset
  | _ => OK dataset
  end.

Definition create_s3filesystem (self : CloudStorageFileReader)
  : result S3FileSystem :=
  e <- endpoint self ;;
  let endpoint_url :=
    if Str.startswith e "https://" then e else "https://" ++ e in
  OK (mkS3FileSystem false endpoint_url (access_key_id self)
        (secret_access_key self)).

End Reader.

(** ** Vocabulary of the statements *)

(** The [cube:dimensions] entry of an item's properties. *)
Definition cube_dimensions (item : pyval) : result pyval :=
  item_prop <- getitem_str item "properties" ;;
  getitem_str item_prop "cube:dimensions".

(** The field [f] of a dimension entry, [None] when it has none. *)
Definition field (f : string) (v : pyval) : pyval :=
  match v with
  | PDict d => Dict.get d f
  | _ => PNone
  end.

(** An entry carries the field [f] when [v.get(f)] is not [None]. *)
Definition carries (f : string) (v : pyval) : bool :=
  is_dict v && negb (is_none (field f v)).

(** An entry answers a request for [axis] or for [dim_type]. *)
Definition matches_dimension (axis dim_type : option string) (v : pyval)
  : bool :=
  is_dict v
  && (match axis with
      | Some ax => eq_str (field "axis" v) ax
      | None => false
      end
      || match dim_type with
         | Some ty => eq_str (field "type" v) ty
         | None => false
         end).

Definition entry_is_dict (kv : string * pyval) : Prop :=
  is_dict (snd kv) = true.

(** A function for the examples that agrees with [float(np.abs(v))] on
    floats and on integers of magnitude at most 2^53, which convert
    without rounding.  Elsewhere it raises and stands for nothing: the
    theorems quantify over every function in its place. *)
Definition np_abs_float_exact (v : pyval) : result pyval :=
  match v with
  | PFloat f => OK (PFloat (SFabs f))
  | PInt n =>
      if Z.abs n <=? 2 ^ 53
      then OK (PFloat (binary_normalize 53 1024 (Z.abs n) 0 false))
      else Raise ExternalError
  | _ => Raise TypeError
  end.

(** The item of the example: [{"x": {"axis": "x"}, "time": {"type":
    "temporal"}}] as [cube:dimensions]. *)
Definition item_x_time : pyval :=
  PDict [("properties",
          PDict [("cube:dimensions",
                  PDict [("x", PDict [("axis", PStr "x")]);
                         ("time", PDict [("type", PStr "temporal")])])])].

(** *** Property filters, as the specification words them *)

(** [k in v] for a mapping [v]. *)
Definition has (k : string) (v : pyval) : bool :=
  match getitem_str v k with
  | OK _ => true
  | Raise _ => false
  end.

(** The filter value of a node: [y] when [x] is a parameter reference,
    [x] otherwise. *)
Definition node_value (node : pyval) : pyval :=
  let arguments := field "arguments" node in
  if is_param_ref (field "x" arguments)
  then field "y" arguments
  else field "x" arguments.

(** A node binds the dimension only when its process is [eq] or [=]. *)
Definition node_bindings (dimension_name : string) (node : pyval)
  : list (string * pyval) :=
  if is_eq_process (field "process_id" node)
  then [(dimension_name, node_value node)]
  else [].

(** The second dot-separated segment of a key. *)
Definition second_segment (key : string) : string :=
  nth 1 (Str.split "." key) EmptyString.

(** The nodes of the process graph of a property value. *)
Definition graph_nodes (value : pyval) : list pyval :=
  match field "process_graph" value with
  | PDict nodes => Dict.values nodes
  | _ => []
  end.

(** Only the keys that start with [cube:dimensions] contribute. *)
Definition property_bindings (kv : string * pyval) : list (string * pyval) :=
  if Str.startswith (fst kv) "cube:dimensions"
  then flat_map (node_bindings (second_segment (fst kv))) (graph_nodes (snd kv))
  else [].

Definition bindings (props : dict) : list (string * pyval) :=
  flat_map property_bindings props.

(** The mapping that records the bindings one after the other. *)
Definition record_all (bs : list (string * pyval)) (d : dict) : dict :=
  fold_left (fun d kv => Dict.set d (fst kv) (snd kv)) bs d.

(** A node has a process id and arguments with an [x], and a [y] when [x]
    is a parameter reference. *)
Definition wf_node (node : pyval) : bool :=
  let arguments := field "arguments" node in
  has "process_id" node && has "arguments" node && has "x" arguments
  && implb (is_param_ref (field "x" arguments)) (has "y" arguments).

(** A [cube:dimensions] property names a dimension and holds a process
    graph of well-formed nodes; other properties are unconstrained. *)
Definition wf_property (kv : string * pyval) : bool :=
  if Str.startswith (fst kv) "cube:dimensions"
  then (2 <=? List.length (Str.split "." (fst kv)))%nat
       && has "process_graph" (snd kv)
       && is_dict (field "process_graph" (snd kv))
       && forallb wf_node (graph_nodes (snd kv))
  else true.

(** *** Order on numbers, as the bounding box claims use it *)

Definition xnum_ltb (a b : xnum) : bool :=
  match a, b with
  | XNaN, _ | _, XNaN => false
  | _, XInf true => false
  | XInf true, _ => true
  | XInf false, _ => false
  | _, XInf false => true
  | XFin m1 e1, XFin m2 e2 =>
      let e := Z.min e1 e2 in
      m1 * 2 ^ (e1 - e) <? m2 * 2 ^ (e2 - e)
  end.

Definition is_number (v : pyval) : bool :=
  match to_xnum v with Some _ => true | None => false end.

(** [a <= b] holds in Python. *)
Definition le (a b : pyval) : Prop := num_le a b = OK true.

(** [a] and [b] are numbers and [a] is strictly below [b]. *)
Definition lt (a b : pyval) : Prop :=
  exists x y, to_xnum a = Some x /\ to_xnum b = Some y /\ xnum_ltb x y = true.

(** West, south, east, north in order and within the longitude and
    latitude ranges. *)
Definition valid_bbox (w s e n : pyval) : Prop :=
  le (PInt (-180)) w /\ le w e /\ le e (PInt 180)
  /\ le (PInt (-90)) s /\ le s n /\ le n (PInt 90).

(** One of the constraints on the bounding box is violated. *)
Definition bbox_violation (w s e n : pyval) : Prop :=
  lt e w \/ lt n s
  \/ lt w (PInt (-180)) \/ lt (PInt 180) e
  \/ lt s (PInt (-90)) \/ lt (PInt 90) n.

(** The endpoint names no scheme: [://] does not occur in it. *)
Definition no_scheme (endpoint : string) : bool :=
  match String.index 0 "://" endpoint with
  | Some _ => false
  | None => true
  end.

(** What [urlparse] first does to its argument. *)
Definition cleaned (url : string) : string :=
  Str.remove Urllib.is_unsafe (Str.lstrip Urllib.is_c0_or_space url).

(** *** Collaborators and a reader for the examples *)

(** The examples contain no bracketed host, so this instance of the
    [ipaddress] check is never consulted. *)
Definition no_bracketed_host (_ : string) : bool := false.

Definition example_credentials (_ : string) : result pyval :=
  OK (PDict [("endpoint", PStr "S3.EU-DE.Cloud-Object-Storage.example");
             ("access_key_id", PStr "AKIDEXAMPLE");
             ("secret_access_key", PStr "wJalrEXAMPLEKEY")]).

Definition example_region (_ : string) : result pyval := OK (PStr "eu-de").

Definition example_items : pyval :=
  PList [PDict [("assets",
                 PDict [("data",
                         PDict [("href",
                                 PStr "https://host/bucket2/path/obj.tif")])]);
                ("properties", PDict [])]].

Definition example_bbox : pyval :=
  PTuple [PInt 0; PInt 0; PInt 10; PInt 10].

(** [{"cube:dimensions.level.process_graph": {"process_graph": {"eq1":
    {"process_id": "eq", "arguments": {"x": ParameterReference, "y":
    100}}}}}] *)
Definition level_properties : pyval :=
  PDict [("cube:dimensions.level.process_graph",
          PDict [("process_graph",
                  PDict [("eq1",
                          PDict [("process_id", PStr "eq");
                                 ("arguments",
                                  PDict [("x", PParamRef "value");
                                         ("y", PInt 100)])])])])].

Definition example_reader (temporal_extent properties : pyval)
  : CloudStorageFileReader :=
  mkReader example_items example_bbox (PList [PStr "B02"]) temporal_extent
    "bucket2" (PStr "S3.EU-DE.Cloud-Object-Storage.example")
    (PStr "AKIDEXAMPLE") (PStr "wJalrEXAMPLEKEY") (PStr "eu-de") properties.

(** The float 0.5. *)
Definition half : pyval := PFloat (S754_finite false 4503599627370496 (-53)).

(** An item with two dimensions that both carry a step and a reference
    system, and a third that carries neither; the step of [y] is the
    float -10.0. *)
Definition item_two_steps : pyval :=
  PDict [("properties",
          PDict [("cube:dimensions",
                  PDict [("x", PDict [("axis", PStr "x");
                                      ("step", PInt 20);
                                      ("reference_system", PInt 4326)]);
                         ("y", PDict [("axis", PStr "y");
                                      ("step",
                                       PFloat (S754_finite true
                                                 5629499534213120 (-49)));
                                      ("reference_system", PInt 32633)]);
                         ("time", PDict [("type", PStr "temporal")])])])].

(** ** Accessors, polygon and session *)

(** The elements that iterating over [v] yields: the keys of a dict, the
    characters of a string, the (name, value) pairs of a parameter
    reference. *)
Definition iterate (v : pyval) : result (list pyval) :=
  match v with
  | PList l | PTuple l => OK l
  | PStr s =>
      OK (map (fun c => PStr (String c EmptyString)) (list_ascii_of_string s))
  | PDict d => OK (map (fun kv => PStr (fst kv)) d)
  | PParamRef name => OK [PTuple [PStr "from_parameter"; PStr name]]
  | _ => Raise TypeError
  end.

(** [a, b, c, d = v] *)
Definition unpack4 (v : pyval) : result (pyval * pyval * pyval * pyval) :=
  l <- iterate v ;;
  match l with
  | [a; b; c; d] => OK (a, b, c, d)
  | _ => Raise ValueError
  end.

(** The coordinate sequence handed to [shapely]'s [Polygon]. *)
Record Polygon : Type := mkPolygon {
  shell : list (list pyval)
}.

Definition get_polygon (self : CloudStorageFileReader) : result Polygon :=
  b <- unpack4 (bbox self) ;;
  let '(xmin, ymin, xmax, ymax) := b in
  OK (mkPolygon [[xmin; ymin]; [xmin; ymax]; [xmax; ymax]; [xmax; ymin]]).

(** The [start_datetime] and [end_datetime] properties. *)
Definition start_datetime (self : CloudStorageFileReader) : result pyval :=
  py_index (temporal_extent self) 0.

Definition end_datetime (self : CloudStorageFileReader) : result pyval :=
  py_index (temporal_extent self) 1.

(** Keyword arguments received by [boto3.session.Session]. *)
Record Session : Type := mkSession {
  aws_access_key_id : pyval;
  aws_secret_access_key : pyval;
  region_name : pyval
}.

Definition _create_boto3_session (self : CloudStorageFileReader) : Session :=
  mkSession (access_key_id self) (secret_access_key self) (region self).

(** *** More vocabulary *)

(** [dataset.sel] applied to one binding after the other. *)
Fixpoint sel_all {Dataset : Type}
  (sel : Dataset -> string -> pyval -> result Dataset)
  (bs : list (string * pyval)) (dataset : Dataset) : result Dataset :=
  match bs with
  | [] => OK dataset
  | (dimension_name, value) :: bs' =>
      dataset' <- sel dataset dimension_name value ;;
      sel_all sel bs' dataset'
  end.

(** The value of the last binding of [dimension_name], [None] without
    one. *)
Definition last_binding (dimension_name : string)
  (bs : list (string * pyval)) : pyval :=
  fold_left (fun acc kv =>
               if String.eqb (fst kv) dimension_name then snd kv else acc)
            bs PNone.

(** Two results fail alike or succeed alike. *)
Definition same_outcome {A B : Type} (a : result A) (b : result B) : Prop :=
  match a, b with
  | OK _, OK _ => True
  | Raise e1, Raise e2 => e1 = e2
  | _, _ => False
  end.

(** The characters of a bucket name: lower-case letters, digits, dots and
    hyphens. *)
Definition is_bucket_char (c : ascii) : bool :=
  let n := Str.code c in
  ((97 <=? n) && (n <=? 122) || (48 <=? n) && (n <=? 57)
   || (n =? 46) || (n =? 45))%N.

(** The characters of an object key that the URL parser leaves alone:
    anything printable or not, except the delimiters [?] and [#] and the
    tab, carriage return and line feed that it removes. *)
Definition is_key_char (c : ascii) : bool :=
  negb (Ascii.eqb c "?") && negb (Ascii.eqb c "#")
  && negb (Urllib.is_unsafe c).

(** The temporal extent that a constructed reader may hold. *)
Definition ordered_extent (extent : pyval) : Prop :=
  extent = PNone
  \/ py_len extent = OK 0
  \/ exists aware t0 t1,
       py_index extent 0 = OK (PDatetime aware t0)
       /\ (py_index extent 1 = OK PNone
           \/ py_index extent 1 = OK (PDatetime aware t1) /\ t0 <= t1).

(** Two [eq] nodes on the dimension [level], 100 then 200, and one [gt]
    node that binds nothing. *)
Definition level_twice : pyval :=
  PDict [("cube:dimensions.level.values",
          PDict [("process_graph",
                  PDict [("eq1",
                          PDict [("process_id", PStr "eq");
                                 ("arguments",
                                  PDict [("x", PParamRef "value");
                                         ("y", PInt 100)])]);
                         ("gt1",
                          PDict [("process_id", PStr "gt");
                                 ("arguments",
                                  PDict [("x", PParamRef "value");
                                         ("y", PInt 150)])]);
                         ("eq2",
                          PDict [("process_id", PStr "=");
                                 ("arguments",
                                  PDict [("x", PInt 200);
                                         ("y", PParamRef "value")])])])]);
         ("eo:cloud_cover", PInt 5)].

(** The path that [urlparse] reports for the text [rest] that follows the
    network location of a URL with the scheme [scheme]: without fragment
    and query, and without parameters where the scheme has them. *)
Definition path_of (scheme rest : string) : string :=
  let '(url, _, _) := Str.partition "#" rest in
  let '(url, _, _) := Str.partition "?" url in
  if Urllib.in_list scheme Urllib.uses_params && Str.contains ";" url
  then fst (Urllib._splitparams url)
  else url.

(** The characters of a network location that the parser takes as they
    are: no delimiter, no bracket, none of the removed characters. *)
Definition is_host_char (c : ascii) : bool :=
  negb (Urllib.is_netloc_delim c)
  && negb (Ascii.eqb c "[") && negb (Ascii.eqb c "]")
  && negb (Urllib.is_unsafe c).

(** The characters of a key of an http URL: those of [is_key_char], the
    semicolon apart. *)
Definition is_plain_char (c : ascii) : bool :=
  is_key_char c && negb (Ascii.eqb c ";").

(** The characters of a path segment: plain, and no slash. *)
Definition is_segment_char (c : ascii) : bool :=
  is_plain_char c && negb (Ascii.eqb c "/").

(** ** Dimension metadata: last entry wins, first match wins *)

Section DimensionFacts.

Variable np_abs_float : pyval -> result pyval.

Lemma get_str_dict (v : pyval) (f : string) :
  is_dict v = true -> get_str v f = OK (field f v).
Proof. destruct v; simpl; intros H; try discriminate; reflexivity. Qed.

Lemma carries_false_dict (f : string) (v : pyval) :
  is_dict v = true -> carries f v = false -> is_none (field f v) = true.
Proof.
  unfold carries. intros -> H. simpl in H.
  destruct (is_none (field f v)); [reflexivity | discriminate].
Qed.

Lemma carries_true (f : string) (v : pyval) :
  carries f v = true -> is_dict v = true /\ is_none (field f v) = false.
Proof.
  unfold carries. intros H. apply andb_true_iff in H as [Hd Hn].
  split; [assumption |]. now destruct (is_none (field f v)).
Qed.

(** Entries without a reference system leave [epsg] as it is. *)
Lemma epsg_loop_skip (vals : list pyval) (epsg : pyval) :
  Forall (fun v => is_dict v = true) vals ->
  Forall (fun v => carries "reference_system" v = false) vals ->
  epsg_loop vals epsg = OK epsg.
Proof.
  induction vals as [| v vals IH]; intros Hd Hc; [reflexivity |].
  inversion Hd; inversion Hc; subst. simpl.
  rewrite get_str_dict by assumption. simpl.
  rewrite carries_false_dict by assumption. simpl. now apply IH.
Qed.

Lemma epsg_loop_last (pre post : list pyval) (v epsg : pyval) :
  Forall (fun v => is_dict v = true) (pre ++ v :: post)%list ->
  carries "reference_system" v = true ->
  Forall (fun v => carries "reference_system" v = false) post ->
  epsg_loop (pre ++ v :: post)%list epsg = OK (field "reference_system" v).
Proof.
  revert epsg. induction pre as [| u pre IH]; intros epsg Hd Hv Hpost.
  - simpl in *. inversion Hd; subst.
    apply carries_true in Hv as [Hdv Hn].
    rewrite get_str_dict by assumption. simpl. rewrite Hn. simpl.
    now apply epsg_loop_skip.
  - simpl in *. inversion Hd; subst.
    rewrite get_str_dict by assumption. simpl.
    destruct (negb (is_none (field "reference_system" u))); now apply IH.
Qed.

Lemma resolution_loop_skip (vals : list pyval) (resolution : pyval) :
  Forall (fun v => is_dict v = true) vals ->
  Forall (fun v => carries "step" v = false) vals ->
  resolution_loop np_abs_float vals resolution = OK resolution.
Proof.
  induction vals as [| v vals IH]; intros Hd Hc; [reflexivity |].
  inversion Hd; inversion Hc; subst. simpl.
  rewrite get_str_dict by assumption. simpl.
  rewrite carries_false_dict by assumption. simpl. now apply IH.
Qed.

Lemma resolution_loop_last (pre post : list pyval) (v resolution : pyval) :
  Forall (fun v => is_dict v = true) (pre ++ v :: post)%list ->
  Forall (fun u => carries "step" u = true ->
                   succeeds (np_abs_float (field "step" u))) pre ->
  carries "step" v = true ->
  Forall (fun v => carries "step" v = false) post ->
  resolution_loop np_abs_float (pre ++ v :: post)%list resolution
  = (r <- np_abs_float (field "step" v) ;; OK r).
Proof.
  revert resolution.
  induction pre as [| u pre IH]; intros resolution Hd Hpre Hv Hpost.
  - simpl in *. inversion Hd; subst.
    apply carries_true in Hv as [Hdv Hn].
    rewrite get_str_dict by assumption. simpl. rewrite Hn. simpl.
    destruct (np_abs_float (field "step" v)); simpl; [| reflexivity].
    now apply resolution_loop_skip.
  - simpl in *. inversion Hd; inversion Hpre; subst.
    rewrite get_str_dict by assumption. simpl.
    destruct (is_none (field "step" u)) eqn:Hn; simpl.
    + now apply IH.
    + destruct H5 as [r Hr].
      { unfold carries. now rewrite H1, Hn. }
      rewrite Hr. simpl. now apply IH.
Qed.

Lemma bind_ret {A : Type} (c : result A) : (r <- c ;; OK r) = c.
Proof. now destruct c. Qed.

Lemma Forall_values (P : pyval -> Prop) (dims : dict) :
  Forall (fun kv => P (snd kv)) dims -> Forall P (Dict.values dims).
Proof.
  unfold Dict.values. induction 1; simpl; constructor; assumption.
Qed.

Lemma values_app (pre post : dict) (k : string) (v : pyval) :
  Dict.values (pre ++ (k, v) :: post)%list
  = (Dict.values pre ++ v :: Dict.values post)%list.
Proof. unfold Dict.values. now rewrite map_app. Qed.

Lemma get_epsg_unfold (item : pyval) (dims : dict) :
  cube_dimensions item = OK (PDict dims) ->
  _get_epsg item = epsg_loop (Dict.values dims) PNone.
Proof.
  unfold cube_dimensions, _get_epsg. intros H.
  destruct (getitem_str item "properties") as [p |]; simpl in *;
    [| discriminate].
  rewrite H. reflexivity.
Qed.

Lemma get_resolution_unfold (item : pyval) (dims : dict) :
  cube_dimensions item = OK (PDict dims) ->
  _get_resolution np_abs_float item
  = resolution_loop np_abs_float (Dict.values dims) PNone.
Proof.
  unfold cube_dimensions, _get_resolution. intros H.
  destruct (getitem_str item "properties") as [p |]; simpl in *;
    [| discriminate].
  rewrite H. reflexivity.
Qed.

(** C1. For an item whose [cube:dimensions] is a mapping of dimension
    entries, [_get_epsg] returns the [reference_system] of the last entry,
    in insertion order, that carries one, and [_get_resolution] returns
    [float(np.abs(step))] for the [step] of the last entry that carries
    one (earlier steps being convertible); entries without the field are
    skipped, and [None] is returned when no entry carries the field. *)
Theorem get_epsg_resolution_last_wins (item : pyval) (dims : dict) :
  cube_dimensions item = OK (PDict dims) ->
  Forall entry_is_dict dims ->
  (forall pre k v post,
      dims = (pre ++ (k, v) :: post)%list ->
      carries "reference_system" v = true ->
      Forall (fun kv => carries "reference_system" (snd kv) = false) post ->
      _get_epsg item = OK (field "reference_system" v))
  /\ (Forall (fun kv => carries "reference_system" (snd kv) = false) dims ->
      _get_epsg item = OK PNone)
  /\ (forall pre k v post,
         dims = (pre ++ (k, v) :: post)%list ->
         carries "step" v = true ->
         Forall (fun kv => carries "step" (snd kv) = false) post ->
         Forall (fun kv => carries "step" (snd kv) = true ->
                           succeeds (np_abs_float (field "step" (snd kv))))
                pre ->
         _get_resolution np_abs_float item
         = np_abs_float (field "step" v))
  /\ (Forall (fun kv => carries "step" (snd kv) = false) dims ->
      _get_resolution np_abs_float item = OK PNone).
Proof.
  intros Hdims Hwf.
  pose proof (Forall_values (fun v => is_dict v = true) dims Hwf) as Hvals.
  rewrite (get_epsg_unfold item dims Hdims).
  rewrite (get_resolution_unfold item dims Hdims).
  repeat split.
  - intros pre k v post -> Hv Hpost. rewrite values_app in *.
    apply epsg_loop_last; [assumption | assumption |].
    now apply Forall_values with (P := fun v => carries _ v = false).
  - intros Hnone. apply epsg_loop_skip; [assumption |].
    now apply Forall_values with (P := fun v => carries _ v = false).
  - intros pre k v post -> Hv Hpost Hpre. rewrite values_app in *.
    rewrite <- (bind_ret (np_abs_float (field "step" v))).
    apply resolution_loop_last; [assumption | | assumption |].
    + now apply Forall_values
        with (P := fun u => carries "step" u = true -> succeeds _).
    + now apply Forall_values with (P := fun v => carries _ v = false).
  - intros Hnone. apply resolution_loop_skip; [assumption |].
    now apply Forall_values with (P := fun v => carries _ v = false).
Qed.

(** When NumPy's absolute value of the float [f] is the float [SFabs f],
    a last step [f] gives the resolution [SFabs f]. *)
Corollary get_resolution_float_step (item : pyval) (pre post : dict)
  (k : string) (v : pyval) (f : spec_float) :
  cube_dimensions item = OK (PDict (pre ++ (k, v) :: post)%list) ->
  Forall entry_is_dict (pre ++ (k, v) :: post)%list ->
  Forall (fun kv => carries "step" (snd kv) = true ->
                    succeeds (np_abs_float (field "step" (snd kv)))) pre ->
  field "step" v = PFloat f ->
  Forall (fun kv => carries "step" (snd kv) = false) post ->
  np_abs_float (PFloat f) = OK (PFloat (SFabs f)) ->
  _get_resolution np_abs_float item = OK (PFloat (SFabs f)).
Proof.
  intros Hdims Hwf Hpre Hstep Hpost Habs.
  rewrite (get_resolution_unfold item _ Hdims), values_app.
  pose proof (Forall_values (fun v => is_dict v = true) _ Hwf) as Hvals.
  rewrite values_app in Hvals.
  rewrite resolution_loop_last.
  - now rewrite Hstep, Habs.
  - exact Hvals.
  - now apply Forall_values
      with (P := fun u => carries "step" u = true -> succeeds _).
  - unfold carries. rewrite Hstep.
    apply Forall_app in Hvals as [_ Hv]. inversion Hv as [| ? ? Hd _].
    now rewrite Hd.
  - now apply Forall_values with (P := fun v => carries _ v = false).
Qed.

End DimensionFacts.

Lemma eq_str_not_none (a : pyval) (s : string) :
  negb (is_none a) && eq_str a s = eq_str a s.
Proof. now destruct a. Qed.

(** One iteration of the search on an entry that is a mapping. *)
Lemma dimension_name_loop_step (k : string) (v : pyval) (rest : dict)
  (axis dim_type : option string) (name : pyval) :
  is_dict v = true ->
  dimension_name_loop ((k, v) :: rest) axis dim_type false name
  = if matches_dimension axis dim_type v
    then dimension_name_loop rest axis dim_type true (PStr k)
    else dimension_name_loop rest axis dim_type false name.
Proof.
  intros Hd. unfold matches_dimension. rewrite Hd. simpl.
  rewrite get_str_dict by assumption. simpl.
  destruct axis as [ax |], dim_type as [ty |]; simpl;
    rewrite ?get_str_dict by assumption; simpl;
    rewrite ?eq_str_not_none;
    try destruct (eq_str (field "axis" v) ax);
    try destruct (eq_str (field "type" v) ty); reflexivity.
Qed.

Lemma dimension_name_loop_found (l : dict) (axis dim_type : option string)
  (name : pyval) :
  dimension_name_loop l axis dim_type true name = OK name.
Proof. destruct l as [| [k v] l]; reflexivity. Qed.

Lemma dimension_name_loop_none (l : dict) (axis dim_type : option string)
  (name : pyval) :
  Forall entry_is_dict l ->
  Forall (fun kv => matches_dimension axis dim_type (snd kv) = false) l ->
  dimension_name_loop l axis dim_type false name = OK name.
Proof.
  induction l as [| [k v] l IH]; intros Hd Hm; [reflexivity |].
  inversion Hd as [| ? ? Hd1 Hd2]; inversion Hm as [| ? ? Hm1 Hm2]; subst.
  rewrite dimension_name_loop_step by exact Hd1.
  simpl in Hm1. rewrite Hm1. now apply IH.
Qed.

Lemma dimension_name_loop_first (pre post : dict) (k : string) (v : pyval)
  (axis dim_type : option string) (name : pyval) :
  Forall entry_is_dict pre ->
  Forall (fun kv => matches_dimension axis dim_type (snd kv) = false) pre ->
  matches_dimension axis dim_type v = true ->
  dimension_name_loop (pre ++ (k, v) :: post)%list axis dim_type false name
  = OK (PStr k).
Proof.
  induction pre as [| [k' v'] pre IH]; intros Hd Hm Hv.
  - simpl app. rewrite dimension_name_loop_step.
    + rewrite Hv. apply dimension_name_loop_found.
    + unfold matches_dimension in Hv. now destruct (is_dict v).
  - inversion Hd as [| ? ? Hd1 Hd2]; inversion Hm as [| ? ? Hm1 Hm2]; subst.
    simpl app. rewrite dimension_name_loop_step by exact Hd1.
    simpl in Hm1. rewrite Hm1. now apply IH.
Qed.

Lemma get_dimension_name_unfold (item : pyval) (dims : dict)
  (axis dim_type : option string) :
  cube_dimensions item = OK (PDict dims) ->
  _get_dimension_name item axis dim_type
  = if is_some axis || is_some dim_type
    then dimension_name_loop dims axis dim_type false PNone
    else Raise AssertionError.
Proof.
  unfold cube_dimensions, _get_dimension_name. intros H.
  destruct (getitem_str item "properties") as [p |]; simpl in *;
    [| discriminate].
  rewrite H. reflexivity.
Qed.

(** C5. For an item whose [cube:dimensions] is a mapping,
    [_get_dimension_name] returns the first key, in insertion order, whose
    entry has the requested [axis] or the requested [type]; it returns
    [None] when no entry matches, and it raises when neither criterion is
    given.  On [{"x": {"axis": "x"}, "time": {"type": "temporal"}}] the
    axis ["x"] gives ["x"] and the type ["temporal"] gives ["time"]. *)
Theorem get_dimension_name_first_match :
  (forall (item : pyval) (dims : dict) (axis dim_type : option string),
      cube_dimensions item = OK (PDict dims) ->
      (axis = None -> dim_type = None ->
       _get_dimension_name item axis dim_type = Raise AssertionError)
      /\ (axis <> None \/ dim_type <> None ->
          (forall pre k v post,
              dims = (pre ++ (k, v) :: post)%list ->
              Forall entry_is_dict pre ->
              Forall (fun kv =>
                        matches_dimension axis dim_type (snd kv) = false) pre ->
              matches_dimension axis dim_type v = true ->
              _get_dimension_name item axis dim_type = OK (PStr k))
          /\ (Forall entry_is_dict dims ->
              Forall (fun kv =>
                        matches_dimension axis dim_type (snd kv) = false)
                     dims ->
              _get_dimension_name item axis dim_type = OK PNone)))
  /\ _get_dimension_name item_x_time (Some "x") None = OK (PStr "x")
  /\ _get_dimension_name item_x_time None (Some "temporal") = OK (PStr "time").
Proof.
  split; [| split; reflexivity].
  intros item dims axis dim_type Hdims.
  rewrite (get_dimension_name_unfold item dims axis dim_type Hdims).
  split.
  - intros -> ->. reflexivity.
  - intros Hsome.
    assert (is_some axis || is_some dim_type = true) as ->.
    { destruct axis, dim_type; simpl; try reflexivity.
      destruct Hsome as [H | H]; now elim H. }
    split.
    + intros pre k v post -> Hd Hm Hv.
      now apply dimension_name_loop_first.
    + intros Hd Hm. now apply dimension_name_loop_none.
Qed.

(** ** Property filters *)

Lemma getitem_get (d : dict) (k : string) (x : pyval) :
  Dict.getitem d k = OK x -> Dict.get d k = x.
Proof.
  induction d as [| [k' v] d IH]; simpl; [discriminate |].
  destruct (String.eqb k' k); [now intros [= ->] | exact IH].
Qed.

Lemma has_getitem (k : string) (v : pyval) :
  has k v = true -> getitem_str v k = OK (field k v).
Proof.
  unfold has. destruct (getitem_str v k) as [x |] eqn:H; [| discriminate].
  intros _. destruct v; simpl in *; try discriminate.
  now rewrite (getitem_get _ _ _ H).
Qed.

Lemma node_filter_wf (node : pyval) :
  wf_node node = true ->
  node_filter node = OK (field "process_id" node, node_value node).
Proof.
  unfold wf_node, node_filter, node_value. intros H.
  apply andb_true_iff in H as [H Hy]. apply andb_true_iff in H as [H Hx].
  apply andb_true_iff in H as [Hp Ha].
  rewrite (has_getitem _ _ Hp). simpl. rewrite (has_getitem _ _ Ha). simpl.
  rewrite (has_getitem _ _ Hx). simpl.
  destruct (is_param_ref (field "x" (field "arguments" node))); simpl in *.
  - now rewrite (has_getitem _ _ Hy).
  - reflexivity.
Qed.

Section Recording.

Variable dimension_name : string.

Let record : dict -> pyval -> result dict :=
  fun extra_dim_filter value =>
    OK (Dict.set extra_dim_filter dimension_name value).

Lemma nodes_loop_record (nodes : list pyval) (d : dict) :
  forallb wf_node nodes = true ->
  nodes_loop record nodes d
  = OK (record_all (flat_map (node_bindings dimension_name) nodes) d).
Proof.
  revert d. induction nodes as [| node nodes IH]; intros d Hwf;
    [reflexivity |].
  simpl in Hwf. apply andb_true_iff in Hwf as [Hn Hwf].
  simpl. rewrite (node_filter_wf _ Hn). simpl.
  unfold record_all. rewrite fold_left_app. fold (record_all).
  unfold node_bindings at 2.
  destruct (is_eq_process (field "process_id" node)); simpl;
    now rewrite IH.
Qed.

End Recording.

Lemma dimension_name_of_second (key : string) :
  (2 <=? List.length (Str.split "." key))%nat = true ->
  dimension_name_of key = OK (second_segment key).
Proof.
  unfold dimension_name_of, second_segment. intros H.
  apply Nat.leb_le in H.
  destruct (Str.split "." key) as [| a [| b l]]; simpl in H; try lia.
  assert ((Z.of_nat (List.length (a :: b :: l)) >=? 2) = true) as ->
    by (apply Z.geb_le; simpl List.length; lia).
  reflexivity.
Qed.

Lemma properties_loop_record (props : dict) (d : dict) :
  forallb wf_property props = true ->
  properties_loop
    (fun dimension_name extra_dim_filter value =>
       OK (Dict.set extra_dim_filter dimension_name value)) props d
  = OK (record_all (bindings props) d).
Proof.
  revert d. induction props as [| [key value] props IH]; intros d Hwf;
    [reflexivity |].
  simpl in Hwf. apply andb_true_iff in Hwf as [Hp Hwf].
  unfold bindings. simpl flat_map. unfold record_all.
  rewrite fold_left_app. fold record_all. fold (bindings props).
  unfold wf_property, property_bindings in *. simpl fst in *. simpl snd in *.
  simpl properties_loop.
  destruct (Str.startswith key "cube:dimensions").
  - apply andb_true_iff in Hp as [Hp Hnodes].
    apply andb_true_iff in Hp as [Hp Hdict].
    apply andb_true_iff in Hp as [Hlen Hpg].
    rewrite (dimension_name_of_second _ Hlen). simpl.
    rewrite (has_getitem _ _ Hpg). simpl. rewrite Hdict.
    unfold graph_nodes in *.
    destruct (field "process_graph" value) as [| | | | | | | nodes | |];
      try discriminate.
    simpl values_of. simpl bind at 2.
    rewrite (nodes_loop_record (second_segment key) _ d Hnodes). simpl.
    now apply IH.
  - simpl. now apply IH.
Qed.

(** C3. [get_extra_dimensions_filter] takes into account exactly the keys
    that start with [cube:dimensions], names the dimension by the second
    dot-separated segment of the key, and for each node of the process
    graph binds the dimension only when the process id is [eq] or [=], to
    [y] when [x] is a parameter reference and to [x] otherwise.  The
    properties [{"cube:dimensions.level.process_graph": ...}] with one [eq]
    node on a parameter reference and 100 yield [{"level": 100}]. *)
Theorem get_extra_dimensions_filter_bindings :
  (forall (self : CloudStorageFileReader) (props : dict),
      properties self = PDict props ->
      forallb wf_property props = true ->
      get_extra_dimensions_filter self = OK (record_all (bindings props) []))
  /\ get_extra_dimensions_filter (example_reader PNone level_properties)
     = OK [("level", PInt 100)].
Proof.
  split; [| reflexivity].
  intros self props Hprops Hwf. unfold get_extra_dimensions_filter.
  rewrite Hprops. now apply properties_loop_record.
Qed.

(** C10. When the reader's properties are [None], or anything but a
    mapping, [get_extra_dimensions_filter] returns the empty mapping and
    [_filter_by_extra_dimensions] returns the dataset it was given. *)
Theorem no_properties_no_filter (Dataset : Type)
  (sel : Dataset -> string -> pyval -> result Dataset)
  (self : CloudStorageFileReader) :
  is_dict (properties self) = false ->
  get_extra_dimensions_filter self = OK []
  /\ forall dataset : Dataset,
      _filter_by_extra_dimensions Dataset sel self dataset = OK dataset.
Proof.
  intros H. unfold get_extra_dimensions_filter, _filter_by_extra_dimensions.
  destruct (properties self); try discriminate; split; reflexivity.
Qed.

(** ** Strings: searching and slicing *)

Lemma length_append (s t : string) :
  String.length (s ++ t) = (String.length s + String.length t)%nat.
Proof. induction s as [| c s IH]; simpl; [reflexivity | now rewrite IH]. Qed.

Lemma take_append (s t : string) : Str.take (String.length s) (s ++ t) = s.
Proof. induction s as [| c s IH]; simpl; [now destruct t | now rewrite IH]. Qed.

Lemma drop_append (s t : string) : Str.drop (String.length s) (s ++ t) = t.
Proof. induction s as [| c s IH]; simpl; [reflexivity | exact IH]. Qed.

Lemma index_succ (n : nat) (sub : string) (c : ascii) (s : string) :
  String.index (S n) sub (String c s) = option_map S (String.index n sub s).
Proof. simpl. now destruct (String.index n sub s). Qed.

Lemma prefix_slash (c : ascii) (s : string) :
  String.prefix "/" (String c s) = Ascii.eqb c "/".
Proof.
  change (String.prefix "/" (String c s))
    with (match ascii_dec "/" c with
          | left _ => String.prefix EmptyString s
          | right _ => false
          end).
  destruct (ascii_dec "/" c) as [<- | Hne].
  - now destruct s.
  - symmetry. apply Ascii.eqb_neq. congruence.
Qed.

(** No slash in [s]: the search finds nothing. *)
Lemma index_slash_none (s : string) :
  Str.contains "/" s = false -> String.index 0 "/" s = None.
Proof.
  induction s as [| c s IH]; [reflexivity |].
  intros H. simpl Str.contains in H. apply orb_false_iff in H as [Hc Hs].
  change (String.index 0 "/" (String c s))
    with (if String.prefix "/" (String c s) then Some O
          else match String.index 0 "/" s with
               | Some n => Some (S n)
               | None => None
               end).
  now rewrite prefix_slash, Hc, IH.
Qed.

(** A slash in [s]: the search finds one. *)
Lemma index_slash_some (s : string) :
  Str.contains "/" s = true -> exists i, String.index 0 "/" s = Some i.
Proof.
  induction s as [| c s IH]; [discriminate |].
  intros H. simpl Str.contains in H.
  change (String.index 0 "/" (String c s))
    with (if String.prefix "/" (String c s) then Some O
          else match String.index 0 "/" s with
               | Some n => Some (S n)
               | None => None
               end).
  rewrite prefix_slash. destruct (Ascii.eqb c "/"); [now exists O |].
  simpl in H. destruct (IH H) as [i ->]. now exists (S i).
Qed.

(** The first slash after a segment without slashes. *)
Lemma index_slash_segment (b rest : string) :
  Str.contains "/" b = false ->
  String.index 0 "/" (b ++ String "/" rest) = Some (String.length b).
Proof.
  induction b as [| c b IH]; intros H.
  - simpl append. now destruct rest.
  - simpl Str.contains in H. apply orb_false_iff in H as [Hc Hb].
    simpl append.
    change (String.index 0 "/" (String c (b ++ String "/" rest)))
      with (if String.prefix "/" (String c (b ++ String "/" rest))
            then Some O
            else match String.index 0 "/" (b ++ String "/" rest) with
                 | Some n => Some (S n)
                 | None => None
                 end).
    now rewrite prefix_slash, Hc, IH.
Qed.

(** [path.find("/", 1)] when nothing follows the first character but a
    text without slashes. *)
Lemma find_slash_none (path : string) :
  Str.contains "/" (Str.drop 1 path) = false -> Str.find path "/" 1 = -1.
Proof.
  unfold Str.find. change (Z.to_nat 1) with 1%nat.
  destruct path as [| c s]; [reflexivity |].
  simpl Str.drop. intros H. rewrite index_succ, index_slash_none by exact H.
  reflexivity.
Qed.

Lemma find_slash_some (path : string) :
  Str.contains "/" (Str.drop 1 path) = true -> 1 <= Str.find path "/" 1.
Proof.
  unfold Str.find. change (Z.to_nat 1) with 1%nat.
  destruct path as [| c s]; [discriminate |].
  simpl Str.drop. intros H. rewrite index_succ.
  destruct (index_slash_some s H) as [i ->]. simpl. lia.
Qed.

(** [path.find("/", 1)] on [c b / rest], a first character followed by a
    segment without slashes. *)
Lemma find_slash_segment (c : ascii) (b rest : string) :
  Str.contains "/" b = false ->
  Str.find (String c (b ++ String "/" rest)) "/" 1
  = Z.of_nat (S (String.length b)).
Proof.
  intros H. unfold Str.find. change (Z.to_nat 1) with 1%nat.
  now rewrite index_succ, index_slash_segment.
Qed.

Lemma clamp_inside (i : nat) (s : string) :
  (i <= String.length s)%nat -> Str.clamp (Z.of_nat i) s = i.
Proof.
  intros H. unfold Str.clamp.
  destruct (Z.of_nat i <? 0) eqn:Hneg; [apply Z.ltb_lt in Hneg; lia |].
  rewrite Z.min_l by lia. apply Nat2Z.id.
Qed.

(** [path[1:end]] is the segment. *)
Lemma slice_segment (c : ascii) (b rest : string) :
  Str.slice (String c (b ++ String "/" rest)) 1
    (Z.of_nat (S (String.length b))) = b.
Proof.
  unfold Str.slice.
  rewrite (clamp_inside (S (String.length b)))
    by (simpl; rewrite length_append; simpl; lia).
  change 1 with (Z.of_nat 1).
  rewrite (clamp_inside 1) by (simpl; lia).
  simpl. rewrite Nat.sub_0_r. apply take_append.
Qed.

Lemma drop_segment (b rest : string) :
  Str.drop (S (String.length b)) (b ++ String "/" rest) = rest.
Proof. induction b as [| a b IH]; [reflexivity | exact IH]. Qed.

(** [path[end + 1:]] is what follows the segment's slash. *)
Lemma slice_from_segment (c : ascii) (b rest : string) :
  Str.slice_from (String c (b ++ String "/" rest))
    (Z.of_nat (S (String.length b)) + 1) = rest.
Proof.
  unfold Str.slice_from.
  replace (Z.of_nat (S (String.length b)) + 1)
    with (Z.of_nat (S (S (String.length b)))) by lia.
  rewrite clamp_inside by (simpl; rewrite length_append; simpl; lia).
  apply drop_segment.
Qed.

(** ** URLs: bucket and object *)

Lemma lower_char_idempotent (c : ascii) :
  Str.lower_char (Str.lower_char c) = Str.lower_char c.
Proof. destruct c as [[] [] [] [] [] [] [] []]; vm_compute; reflexivity. Qed.

Lemma lower_idempotent (s : string) : Str.lower (Str.lower s) = Str.lower s.
Proof.
  induction s as [| c s IH]; simpl; [reflexivity |].
  now rewrite lower_char_idempotent, IH.
Qed.

Lemma split_scheme_lower (url : string) :
  Str.lower (fst (Urllib.split_scheme url)) = fst (Urllib.split_scheme url).
Proof.
  unfold Urllib.split_scheme.
  destruct (Str.partition ":" url) as [[before found] after].
  match goal with |- context [if ?b then _ else _] => destruct b end; simpl;
    [apply lower_idempotent | reflexivity].
Qed.

Section UrlFacts.

Variable bracketed_host_ok : string -> bool.

Let urlparse := Urllib.urlparse bracketed_host_ok.
Let extract_bucket := _extract_bucket_name_from_url bracketed_host_ok.
Let get_object := _get_object bracketed_host_ok.

Lemma urlparse_scheme (url : string) (p : Urllib.ParseResult) :
  urlparse url = OK p ->
  Urllib.scheme p = fst (Urllib.split_scheme (cleaned url)).
Proof.
  unfold urlparse, Urllib.urlparse, Urllib.urlsplit. fold (cleaned url).
  destruct (Urllib.split_scheme (cleaned url)) as [sch u].
  destruct (Urllib.split_netloc bracketed_host_ok u) as [[n r] |];
    simpl; [| discriminate].
  destruct (Str.partition "#" r) as [[u1 f1] fr].
  destruct (Str.partition "?" u1) as [[u2 f2] q]. simpl.
  match goal with
  | |- context [if ?c then _ else _] => destruct c
  end; [destruct (Urllib._splitparams u2) |]; intros [= ?]; now subst p.
Qed.

(** The scheme that [urlparse] reports is in lower case. *)
Lemma urlparse_scheme_lower (url : string) (p : Urllib.ParseResult) :
  urlparse url = OK p -> Str.lower (Urllib.scheme p) = Urllib.scheme p.
Proof.
  intros H. rewrite (urlparse_scheme url p H). apply split_scheme_lower.
Qed.

Lemma extract_bucket_parsed (url : string) (p : Urllib.ParseResult) :
  urlparse url = OK p ->
  extract_bucket url
  = match (if String.eqb (Urllib.scheme p) "s3"
           then Urllib.hostname p else None) with
    | Some hostname => OK hostname
    | None =>
        assert! (Str.find (Urllib.path p) "/" 1 >? 1) ;;
        OK (Str.slice (Urllib.path p) 1 (Str.find (Urllib.path p) "/" 1))
    end.
Proof.
  intros H. unfold extract_bucket, _extract_bucket_name_from_url.
  fold urlparse. rewrite H. simpl bind.
  now rewrite (urlparse_scheme_lower url p H).
Qed.

Lemma get_object_parsed (url : string) (p : Urllib.ParseResult) :
  urlparse url = OK p ->
  get_object url
  = assert! (Str.find (Urllib.path p) "/" 1 + 1 >? 1) ;;
    OK (Str.slice_from (Urllib.path p) (Str.find (Urllib.path p) "/" 1 + 1)).
Proof.
  intros H. unfold get_object, _get_object. fold urlparse. now rewrite H.
Qed.

(** The path branch of the bucket extraction. *)
Lemma extract_bucket_path_branch (url : string) (p : Urllib.ParseResult) :
  urlparse url = OK p ->
  Urllib.scheme p <> "s3" \/ Urllib.hostname p = None ->
  extract_bucket url
  = assert! (Str.find (Urllib.path p) "/" 1 >? 1) ;;
    OK (Str.slice (Urllib.path p) 1 (Str.find (Urllib.path p) "/" 1)).
Proof.
  intros H Hbranch. rewrite (extract_bucket_parsed url p H).
  destruct Hbranch as [Hs | Hh].
  - apply String.eqb_neq in Hs. now rewrite Hs.
  - rewrite Hh. now destruct (String.eqb (Urllib.scheme p) "s3").
Qed.

Lemma gtb_succ_length (b : string) :
  b <> EmptyString -> (Z.of_nat (S (String.length b)) >? 1) = true.
Proof.
  intros Hb. destruct b as [| c b]; [now elim Hb |].
  apply Z.gtb_lt. simpl String.length. lia.
Qed.

Lemma extract_bucket_segment (url : string) (p : Urllib.ParseResult)
  (b rest : string) :
  urlparse url = OK p ->
  Urllib.scheme p <> "s3" \/ Urllib.hostname p = None ->
  Urllib.path p = "/" ++ b ++ "/" ++ rest ->
  b <> EmptyString ->
  Str.contains "/" b = false ->
  extract_bucket url = OK b.
Proof.
  intros H Hbranch Hpath Hb Hslash.
  rewrite (extract_bucket_path_branch url p H Hbranch), Hpath.
  change ("/" ++ b ++ "/" ++ rest) with (String "/" (b ++ String "/" rest)).
  rewrite find_slash_segment by exact Hslash.
  rewrite gtb_succ_length by exact Hb. now rewrite slice_segment.
Qed.

Lemma get_object_segment (url : string) (p : Urllib.ParseResult)
  (c : ascii) (b rest : string) :
  urlparse url = OK p ->
  Urllib.path p = String c (b ++ "/" ++ rest) ->
  Str.contains "/" b = false ->
  get_object url = OK rest.
Proof.
  intros H Hpath Hslash. rewrite (get_object_parsed url p H), Hpath.
  change (b ++ "/" ++ rest) with (b ++ String "/" rest).
  rewrite find_slash_segment by exact Hslash.
  rewrite slice_from_segment.
  assert ((Z.of_nat (S (String.length b)) + 1 >? 1) = true) as ->
    by (apply Z.gtb_lt; lia).
  reflexivity.
Qed.

(** A URL that starts with [http], in any case, has not the scheme
    [s3]. *)
Lemma lower_char_h (c : ascii) :
  Str.lower_char c = "h"%char ->
  Urllib.is_c0_or_space c = false /\ Urllib.is_unsafe c = false
  /\ Ascii.eqb c ":" = false.
Proof.
  destruct c as [[] [] [] [] [] [] [] []]; vm_compute;
    intros H; try discriminate H; repeat split.
Qed.

Lemma prefix_head (a : ascii) (s : string) (c : ascii) (t : string) :
  String.prefix (String a s) (String c t) = true -> a = c.
Proof.
  change (String.prefix (String a s) (String c t))
    with (match ascii_dec a c with
          | left _ => String.prefix s t
          | right _ => false
          end).
  now destruct (ascii_dec a c).
Qed.

Lemma http_scheme_not_s3 (url : string) (p : Urllib.ParseResult) :
  Str.startswith (Str.lower url) "http" = true ->
  urlparse url = OK p ->
  Urllib.scheme p <> "s3".
Proof.
  intros Hhttp H. rewrite (urlparse_scheme url p H).
  destruct url as [| c rest]; [discriminate |].
  unfold Str.startswith in Hhttp. simpl Str.lower in Hhttp.
  apply prefix_head in Hhttp. symmetry in Hhttp.
  destruct (lower_char_h c Hhttp) as (Hc0 & Hun & Hcolon).
  unfold cleaned. simpl Str.lstrip. rewrite Hc0. simpl Str.remove.
  rewrite Hun. unfold Urllib.split_scheme. simpl Str.partition.
  rewrite Hcolon.
  destruct (Str.partition ":" (Str.remove Urllib.is_unsafe rest))
    as [[before found] after].
  match goal with |- context [if ?b then _ else _] => destruct b end;
    simpl; [rewrite Hhttp |]; discriminate.
Qed.

End UrlFacts.

(** A text with a slash splits at its first slash. *)
Lemma slash_splits (t : string) :
  Str.contains "/" t = true ->
  exists b rest, t = b ++ "/" ++ rest /\ Str.contains "/" b = false.
Proof.
  induction t as [| c t IH]; [discriminate |].
  simpl Str.contains. destruct (Ascii.eqb c "/") eqn:Hc.
  - intros _. apply Ascii.eqb_eq in Hc. subst c.
    now exists EmptyString, t.
  - simpl. intros Ht. destruct (IH Ht) as (b & rest & -> & Hb).
    exists (String c b), rest. simpl. now rewrite Hc, Hb.
Qed.

(** Every path has one of three shapes: no slash after its first
    character, a slash right after it, or a non-empty slash-free segment
    between the first character and the next slash. *)
Lemma path_shapes (path : string) :
  Str.contains "/" (Str.drop 1 path) = false
  \/ (exists c rest, path = String c (String "/" rest))
  \/ (exists c b rest,
         path = String c (b ++ "/" ++ rest)
         /\ b <> EmptyString /\ Str.contains "/" b = false).
Proof.
  destruct path as [| c t]; [now left |].
  simpl Str.drop. destruct (Str.contains "/" t) eqn:Ht; [| now left].
  right. destruct (slash_splits t Ht) as (b & rest & -> & Hb).
  destruct b as [| a b].
  - left. now exists c, rest.
  - right. exists c, (String a b), rest.
    repeat split; [discriminate | exact Hb].
Qed.

(** C4, as amended.  When [urlparse] rejects the URL,
    [_extract_bucket_name_from_url] raises the same exception.  Otherwise
    it returns the hostname when the scheme is [s3] and the URL has a
    hostname; in every other case, an [s3] URL without hostname included,
    it reads the parsed path: it returns the text between the first
    character of the path (the leading slash of an http URL) and the next
    slash when that text is not empty, and it raises [AssertionError] when
    no slash follows the first character and when a slash follows it at
    once.  These three shapes cover every path.  The two URLs of the
    specification give [bucket1] and [bucket2]. *)
Theorem extract_bucket_name_cases :
  (forall (ok : string -> bool) (url : string) (p : Urllib.ParseResult),
      Urllib.urlparse ok url = OK p ->
      (forall h,
          Urllib.scheme p = "s3" ->
          Urllib.hostname p = Some h ->
          _extract_bucket_name_from_url ok url = OK h)
      /\ (Urllib.scheme p <> "s3" \/ Urllib.hostname p = None ->
          (Str.contains "/" (Str.drop 1 (Urllib.path p)) = false ->
           _extract_bucket_name_from_url ok url = Raise AssertionError)
          /\ (forall c rest,
                 Urllib.path p = String c (String "/" rest) ->
                 _extract_bucket_name_from_url ok url = Raise AssertionError)
          /\ (forall c b rest,
                 Urllib.path p = String c (b ++ "/" ++ rest) ->
                 b <> EmptyString ->
                 Str.contains "/" b = false ->
                 _extract_bucket_name_from_url ok url = OK b)))
  /\ (forall (ok : string -> bool) (url : string) (e : exn),
         Urllib.urlparse ok url = Raise e ->
         _extract_bucket_name_from_url ok url = Raise e)
  /\ (forall path : string,
         Str.contains "/" (Str.drop 1 path) = false
         \/ (exists c rest, path = String c (String "/" rest))
         \/ (exists c b rest,
                path = String c (b ++ "/" ++ rest)
                /\ b <> EmptyString /\ Str.contains "/" b = false))
  /\ (forall ok : string -> bool,
         _extract_bucket_name_from_url ok "s3://bucket1/path/to/obj"
         = OK "bucket1"
         /\ _extract_bucket_name_from_url ok "https://host/bucket2/obj"
            = OK "bucket2").
Proof.
  split; [| split; [| split; [exact path_shapes |
                              intros ok; split; reflexivity]]].
  - intros ok url p H. split.
    + intros h Hs Hh. rewrite (extract_bucket_parsed ok url p H), Hs, Hh.
      reflexivity.
    + intros Hbranch.
      rewrite (extract_bucket_path_branch ok url p H Hbranch).
      split; [| split].
      * intros Hnone. now rewrite (find_slash_none _ Hnone).
      * intros c rest ->.
        change (String c (String "/" rest))
          with (String c (EmptyString ++ String "/" rest)).
        now rewrite find_slash_segment.
      * intros c b rest -> Hb Hslash.
        change (b ++ "/" ++ rest) with (b ++ String "/" rest).
        rewrite find_slash_segment by exact Hslash.
        rewrite gtb_succ_length by exact Hb. now rewrite slice_segment.
  - intros ok url e H. unfold _extract_bucket_name_from_url. now rewrite H.
Qed.

Lemma extract_bucket_name_cases_witness :
  _extract_bucket_name_from_url no_bracketed_host "https://host/bucket2/obj"
  = OK "bucket2"
  /\ _extract_bucket_name_from_url no_bracketed_host "https://host//obj"
     = Raise AssertionError
  /\ _extract_bucket_name_from_url no_bracketed_host "https://host/bucket2"
     = Raise AssertionError
  /\ _extract_bucket_name_from_url no_bracketed_host "http:abc/def" = OK "bc"
  /\ _extract_bucket_name_from_url no_bracketed_host "s3://[bucket/obj"
     = Raise ValueError.
Proof.
  destruct extract_bucket_name_cases as (Hparsed & Hrejected & _ & _).
  split; [| split; [| split; [| split]]].
  - destruct (Hparsed no_bracketed_host "https://host/bucket2/obj" _ eq_refl)
      as [_ Hpath].
    destruct Hpath as (_ & _ & Hseg); [left; discriminate |].
    apply (Hseg "/"%char "bucket2" "obj");
      [reflexivity | discriminate | reflexivity].
  - destruct (Hparsed no_bracketed_host "https://host//obj" _ eq_refl)
      as [_ Hpath].
    destruct Hpath as (_ & Hempty & _); [left; discriminate |].
    apply (Hempty "/"%char "obj"). reflexivity.
  - destruct (Hparsed no_bracketed_host "https://host/bucket2" _ eq_refl)
      as [_ Hpath].
    destruct Hpath as (Hnone & _ & _); [left; discriminate |].
    apply Hnone. reflexivity.
  - destruct (Hparsed no_bracketed_host "http:abc/def" _ eq_refl)
      as [_ Hpath].
    destruct Hpath as (_ & _ & Hseg); [left; discriminate |].
    apply (Hseg "a"%char "bc" "def");
      [reflexivity | discriminate | reflexivity].
  - apply Hrejected. reflexivity.
Defined.

(** The claim C4 as worded fails on an [s3] URL without hostname:
    [s3:///a/b] has the scheme [s3] and no hostname, and the bucket comes
    from its path. *)
Lemma extract_bucket_s3_without_hostname :
  ~ (forall (ok : string -> bool) (url : string) (p : Urllib.ParseResult),
        Urllib.urlparse ok url = OK p ->
        Urllib.scheme p = "s3" ->
        exists h, Urllib.hostname p = Some h
                  /\ _extract_bucket_name_from_url ok url = OK h).
Proof.
  intros claim.
  destruct (claim no_bracketed_host "s3:///a/b" _ eq_refl eq_refl)
    as [h [Hh _]].
  discriminate Hh.
Qed.

Example extract_bucket_s3_path_fallback :
  _extract_bucket_name_from_url no_bracketed_host "s3:///a/b" = OK "a".
Proof. reflexivity. Qed.

(** C7. For a URL that starts with [http] and whose path is
    [/bucket/object], [_convert_https_to_s3] returns
    [s3://bucket/object]; the URL of the specification becomes
    [s3://bucket2/path/obj.tif]. *)
Theorem convert_https_to_s3_rebuilds :
  (forall (ok : string -> bool) (url : string) (p : Urllib.ParseResult)
          (bucket object : string),
      Str.startswith (Str.lower url) "http" = true ->
      Urllib.urlparse ok url = OK p ->
      Urllib.path p = "/" ++ bucket ++ "/" ++ object ->
      bucket <> EmptyString ->
      Str.contains "/" bucket = false ->
      _convert_https_to_s3 ok url = OK ("s3://" ++ bucket ++ "/" ++ object))
  /\ (forall ok : string -> bool,
         _convert_https_to_s3 ok "https://host/bucket2/path/obj.tif"
         = OK "s3://bucket2/path/obj.tif").
Proof.
  split; [| reflexivity].
  intros ok url p bucket object Hhttp H Hpath Hb Hslash.
  unfold _convert_https_to_s3. rewrite Hhttp.
  pose proof (http_scheme_not_s3 ok url p Hhttp H) as Hscheme.
  rewrite (extract_bucket_segment ok url p bucket object H (or_introl Hscheme)
             Hpath Hb Hslash).
  simpl bind.
  change ("/" ++ bucket ++ "/" ++ object)
    with (String "/" (bucket ++ "/" ++ object)) in Hpath.
  now rewrite (get_object_segment ok url p "/" bucket object H Hpath Hslash).
Qed.

Lemma convert_https_to_s3_rebuilds_witness :
  _convert_https_to_s3 no_bracketed_host "HTTP://host:9000/b/k/o.nc?versionId=3"
  = OK "s3://b/k/o.nc".
Proof.
  destruct convert_https_to_s3_rebuilds as [H _].
  apply (H no_bracketed_host "HTTP://host:9000/b/k/o.nc?versionId=3"
           (Urllib.mkParseResult "http" "host:9000" "/b/k/o.nc" EmptyString
              "versionId=3" EmptyString) "b" "k/o.nc");
    [reflexivity | reflexivity | reflexivity | discriminate | reflexivity].
Defined.

(** What [_get_object] computes on a URL that [urlparse] accepts, on the
    path alone and whatever the scheme: it raises exactly when no slash
    follows the first character of the path, and otherwise returns
    everything after the first such slash.  On the path branch of
    [_extract_bucket_name_from_url] a failure of [_get_object] is a
    failure of the bucket extraction too. *)
Theorem get_object_remainder (ok : string -> bool) (url : string)
  (p : Urllib.ParseResult) :
  Urllib.urlparse ok url = OK p ->
  (Str.contains "/" (Str.drop 1 (Urllib.path p)) = false ->
   _get_object ok url = Raise AssertionError)
  /\ (Str.contains "/" (Str.drop 1 (Urllib.path p)) = true ->
      succeeds (_get_object ok url))
  /\ (forall c segment rest,
         Urllib.path p = String c (segment ++ "/" ++ rest) ->
         Str.contains "/" segment = false ->
         _get_object ok url = OK rest)
  /\ (Urllib.scheme p <> "s3" \/ Urllib.hostname p = None ->
      fails (_get_object ok url) ->
      fails (_extract_bucket_name_from_url ok url))
  /\ (forall h,
         Urllib.scheme p = "s3" ->
         Urllib.hostname p = Some h ->
         succeeds (_extract_bucket_name_from_url ok url)).
Proof.
  intros H. repeat split.
  - intros Hnone. rewrite (get_object_parsed ok url p H).
    now rewrite (find_slash_none _ Hnone).
  - intros Hsome. rewrite (get_object_parsed ok url p H).
    pose proof (find_slash_some _ Hsome) as Hfind.
    assert ((Str.find (Urllib.path p) "/" 1 + 1 >? 1) = true) as ->
      by (apply Z.gtb_lt; lia).
    eexists; reflexivity.
  - intros c segment rest Hpath Hslash.
    exact (get_object_segment ok url p c segment rest H Hpath Hslash).
  - intros Hbranch [e He].
    rewrite (get_object_parsed ok url p H) in He.
    rewrite (extract_bucket_path_branch ok url p H Hbranch).
    destruct (Str.find (Urllib.path p) "/" 1 + 1 >? 1) eqn:Hgt;
      [discriminate |].
    assert ((Str.find (Urllib.path p) "/" 1 >? 1) = false) as ->.
    { destruct (Str.find (Urllib.path p) "/" 1 >? 1) eqn:Hgt'; [| reflexivity].
      apply Z.gtb_lt in Hgt'.
      assert ((Str.find (Urllib.path p) "/" 1 + 1 >? 1) = true)
        by (apply Z.gtb_lt; lia).
      congruence. }
    eexists; reflexivity.
  - intros h Hs Hh. rewrite (extract_bucket_parsed ok url p H), Hs, Hh.
    eexists; reflexivity.
Qed.

Lemma get_object_remainder_witness :
  _get_object no_bracketed_host "https://host/bucket2/path/obj.tif"
  = OK "path/obj.tif".
Proof.
  destruct (get_object_remainder no_bracketed_host
              "https://host/bucket2/path/obj.tif" _ eq_refl)
    as (_ & _ & Hseg & _).
  apply (Hseg "/"%char "bucket2" "path/obj.tif"); reflexivity.
Defined.

(** The two functions do not fail on the same URLs. *)
Lemma get_object_fails_where_bucket_is_found :
  ~ (forall (ok : string -> bool) (url : string),
        fails (_get_object ok url)
        <-> fails (_extract_bucket_name_from_url ok url)).
Proof.
  intros claim.
  destruct (claim no_bracketed_host "s3://bucket1/obj") as [Himp _].
  destruct Himp as [e He]; [exists AssertionError; reflexivity |].
  discriminate He.
Qed.

(** C8.  The claim has [_get_object] return the path remainder after the
    bucket segment and fail where [_extract_bucket_name_from_url] fails.
    The code does not on an [s3] URL: [s3://bucket1/obj] parses to the
    hostname [bucket1] and the path [/obj], the bucket extraction returns
    [bucket1], and [_get_object], which has no [s3] branch, looks for a
    second slash in [/obj] and raises instead of returning [obj].  The two
    asserts also differ on an empty bucket segment: on [https://host//obj]
    the bucket extraction raises and [_get_object] returns [obj]. *)
Theorem get_object_raises_on_s3_url (ok : string -> bool) :
  (Urllib.urlparse ok "s3://bucket1/obj"
   = OK (Urllib.mkParseResult "s3" "bucket1" "/obj" EmptyString EmptyString
           EmptyString)
   /\ _extract_bucket_name_from_url ok "s3://bucket1/obj" = OK "bucket1"
   /\ _get_object ok "s3://bucket1/obj" = Raise AssertionError)
  /\ (_extract_bucket_name_from_url ok "https://host//obj"
      = Raise AssertionError
      /\ _get_object ok "https://host//obj" = OK "obj").
Proof. repeat split. Qed.

(** ** Construction: validation of the arguments *)

Lemma xnum_ltb_not_leb (x y : xnum) :
  xnum_ltb y x = true -> xnum_leb x y = false.
Proof.
  destruct x as [m1 e1 | [] |], y as [m2 e2 | [] |]; simpl;
    try discriminate; try reflexivity.
  intros H. apply Z.ltb_lt in H. apply Z.leb_gt.
  now rewrite (Z.min_comm e1 e2).
Qed.

Lemma lt_not_le (a b : pyval) : lt b a -> num_le a b = OK false.
Proof.
  intros (y & x & Hb & Ha & Hlt). unfold num_le. rewrite Ha, Hb.
  now rewrite (xnum_ltb_not_leb x y Hlt).
Qed.

Lemma num_le_number (a b : pyval) :
  is_number a = true -> is_number b = true ->
  exists r, num_le a b = OK r.
Proof.
  unfold is_number, num_le.
  destruct (to_xnum a), (to_xnum b); try discriminate. intros _ _.
  eexists; reflexivity.
Qed.

Lemma check_bbox_tuple (w s e n : pyval) :
  check_bbox (PTuple [w; s; e; n])
  = (lon <- chain_le (PInt (-180)) w e (PInt 180) ;;
     assert! lon ;;
     lat <- chain_le (PInt (-90)) s n (PInt 90) ;;
     assert! lat ;;
     OK tt).
Proof. reflexivity. Qed.

Lemma check_bbox_valid (w s e n : pyval) :
  valid_bbox w s e n -> check_bbox (PTuple [w; s; e; n]) = OK tt.
Proof.
  unfold valid_bbox, le. intros (H1 & H2 & H3 & H4 & H5 & H6).
  rewrite check_bbox_tuple. unfold chain_le.
  now rewrite H1, H2, H3, H4, H5, H6.
Qed.

Lemma check_bbox_violation (w s e n : pyval) :
  is_number w = true -> is_number s = true ->
  is_number e = true -> is_number n = true ->
  bbox_violation w s e n ->
  check_bbox (PTuple [w; s; e; n]) = Raise AssertionError.
Proof.
  intros Hw Hs He Hn Hviol. rewrite check_bbox_tuple. unfold chain_le.
  destruct (num_le_number (PInt (-180)) w eq_refl Hw) as [r1 H1].
  destruct (num_le_number w e Hw He) as [r2 H2].
  destruct (num_le_number e (PInt 180) He eq_refl) as [r3 H3].
  destruct (num_le_number (PInt (-90)) s eq_refl Hs) as [r4 H4].
  destruct (num_le_number s n Hs Hn) as [r5 H5].
  destruct (num_le_number n (PInt 90) Hn eq_refl) as [r6 H6].
  assert (r1 && r2 && r3 && r4 && r5 && r6 = false) as Hfalse.
  { destruct Hviol as [V | [V | [V | [V | [V | V]]]]];
      apply lt_not_le in V;
      [ rewrite V in H2 | rewrite V in H5 | rewrite V in H1
      | rewrite V in H3 | rewrite V in H4 | rewrite V in H6 ];
      match goal with H : OK false = OK _ |- _ => injection H as <- end;
      repeat match goal with b : bool |- _ => destruct b end;
      reflexivity. }
  rewrite H1, H2, H3, H4, H5, H6. simpl.
  destruct r1, r2, r3, r4, r5, r6; try reflexivity; discriminate Hfalse.
Qed.

Lemma check_bbox_not_tuple4 (bbox : pyval) :
  (forall w s e n, bbox <> PTuple [w; s; e; n]) ->
  check_bbox bbox = Raise AssertionError.
Proof.
  intros Hshape. destruct bbox as [| | | | | | l | | |]; try reflexivity.
  destruct l as [| a [| b [| c [| d [| x l]]]]]; try reflexivity.
  - now elim (Hshape a b c d).
  - assert ((Z.of_nat (List.length (a :: b :: c :: d :: x :: l)) =? 4) = false)
      as Hlen by (apply Z.eqb_neq; simpl List.length; lia).
    unfold check_bbox, py_len, bind. cbv beta iota. now rewrite Hlen.
Qed.

Lemma check_items_nonempty (x : pyval) (l : list pyval) :
  check_items (PList (x :: l)) = OK tt.
Proof.
  assert ((Z.of_nat (List.length (x :: l)) >? 0) = true) as Hlen
    by (apply Z.gtb_lt; simpl List.length; lia).
  unfold check_items, py_len, bind. cbv beta iota. now rewrite Hlen.
Qed.

Lemma check_items_otherwise (items : pyval) :
  (forall x l, items <> PList (x :: l)) ->
  check_items items = Raise AssertionError.
Proof.
  intros Hshape. destruct items as [| | | | | [| x l] | | | |];
    try reflexivity.
  now elim (Hshape x l).
Qed.

Lemma check_items_cases (items : pyval) :
  check_items items = OK tt \/ check_items items = Raise AssertionError.
Proof.
  destruct items as [| | | | | [| x l] | | | |];
    try (right; reflexivity).
  left. apply check_items_nonempty.
Qed.

Section Construction.

Variable bracketed_host_ok : string -> bool.
Variable get_credentials_by_bucket : string -> result pyval.
Variable parse_region : string -> result pyval.

Let init := __init__ bracketed_host_ok get_credentials_by_bucket parse_region.
Let resolve :=
  resolve_storage bracketed_host_ok get_credentials_by_bucket parse_region.

Lemma init_bbox_rejected (items bands bbox temporal_extent properties : pyval) :
  check_bbox bbox = Raise AssertionError ->
  init items bands bbox temporal_extent properties = Raise AssertionError.
Proof.
  intros Hb. unfold init, __init__.
  destruct (check_items_cases items) as [-> | ->]; [| reflexivity].
  simpl bind. now rewrite Hb.
Qed.

Lemma init_checks_pass (its bnds box extent props : pyval) :
  check_items its = OK tt ->
  check_bbox box = OK tt ->
  check_temporal_extent extent = OK tt ->
  succeeds (resolve its) ->
  exists self,
    init its bnds box extent props = OK self
    /\ bbox self = box
    /\ temporal_extent self = extent.
Proof.
  intros Hi Hb Ht [st Hst]. unfold init, __init__.
  rewrite Hi, Hb, Ht. simpl bind. fold resolve. rewrite Hst. simpl bind.
  eexists; repeat split.
Qed.

Lemma init_succeeds_checks (items bands bbox temporal_extent properties : pyval)
  (self : CloudStorageFileReader) :
  init items bands bbox temporal_extent properties = OK self ->
  check_items items = OK tt /\ check_bbox bbox = OK tt
  /\ check_temporal_extent temporal_extent = OK tt.
Proof.
  unfold init, __init__.
  destruct (check_items items) as [[] |]; [| discriminate].
  destruct (check_bbox bbox) as [[] |]; [| discriminate].
  destruct (check_temporal_extent temporal_extent) as [[] |];
    [| discriminate].
  intros _. repeat split.
Qed.

Lemma init_temporal_rejected
  (items bands bbox temporal_extent properties : pyval) (e : exn) :
  check_temporal_extent temporal_extent = Raise e ->
  fails (init items bands bbox temporal_extent properties).
Proof.
  intros Ht. unfold init, __init__.
  destruct (check_items items) as [[] |]; [| eexists; reflexivity].
  destruct (check_bbox bbox) as [[] |]; [| eexists; reflexivity].
  simpl bind. rewrite Ht. eexists; reflexivity.
Qed.

End Construction.

Lemma get_epsg_resolution_last_wins_witness :
  _get_epsg item_two_steps = OK (PInt 32633)
  /\ _get_resolution np_abs_float_exact item_two_steps
     = OK (PFloat (S754_finite false 5629499534213120 (-49))).
Proof.
  destruct (get_epsg_resolution_last_wins np_abs_float_exact item_two_steps
              _ eq_refl) as (Hepsg & _ & Hres & _).
  { repeat constructor. }
  split.
  - apply (Hepsg [("x", _)] "y" _ [("time", _)] eq_refl eq_refl).
    repeat constructor.
  - apply (Hres [("x", _)] "y" _ [("time", _)] eq_refl eq_refl).
    + repeat constructor.
    + constructor; [| constructor]. intros _. eexists; reflexivity.
Defined.

Lemma get_dimension_name_first_match_witness :
  _get_dimension_name item_two_steps None (Some "temporal") = OK (PStr "time")
  /\ _get_dimension_name item_two_steps (Some "z") None = OK PNone
  /\ _get_dimension_name item_two_steps None None = Raise AssertionError.
Proof.
  destruct get_dimension_name_first_match as [H _].
  split; [| split].
  - destruct (H item_two_steps _ None (Some "temporal") eq_refl)
      as [_ Hfound].
    destruct Hfound as [Hfirst _]; [right; discriminate |].
    apply (Hfirst [("x", _); ("y", _)] "time" _ [] eq_refl);
      [repeat constructor | repeat constructor | reflexivity].
  - destruct (H item_two_steps _ (Some "z") None eq_refl) as [_ Hfound].
    destruct Hfound as [_ Hnone]; [left; discriminate |].
    apply Hnone; repeat constructor.
  - destruct (H item_two_steps _ None None eq_refl) as [Hneither _].
    now apply Hneither.
Defined.

Lemma get_extra_dimensions_filter_bindings_witness :
  get_extra_dimensions_filter (example_reader PNone level_properties)
  = OK [("level", PInt 100)].
Proof.
  destruct get_extra_dimensions_filter_bindings as [H _].
  exact (H (example_reader PNone level_properties) _ eq_refl eq_refl).
Defined.

Lemma no_properties_no_filter_witness :
  get_extra_dimensions_filter (example_reader PNone PNone) = OK []
  /\ _filter_by_extra_dimensions nat (fun _ _ _ => Raise KeyError)
       (example_reader PNone (PStr "level")) 7%nat = OK 7%nat.
Proof.
  split.
  - exact (proj1 (no_properties_no_filter nat (fun _ _ _ => Raise KeyError)
                    (example_reader PNone PNone) eq_refl)).
  - exact (proj2 (no_properties_no_filter nat (fun _ _ _ => Raise KeyError)
                    (example_reader PNone (PStr "level")) eq_refl) 7%nat).
Defined.

(** ** Construction: the bounding box *)

(** C2. With items and a temporal extent that pass their own checks and
    a first asset from which the storage is resolved, the construction
    succeeds for every bounding box [(w, s, e, n)] with
    [-180 <= w <= e <= 180] and [-90 <= s <= n <= 90], and the reader keeps
    that box.  The construction raises [AssertionError] whenever the box is
    not a 4-tuple, and whenever its coordinates are numbers with [w > e],
    [s > n], or a coordinate outside the longitude or latitude range. *)
Theorem bbox_validation (ok : string -> bool)
  (get_credentials_by_bucket parse_region : string -> result pyval)
  (its bnds extent props : pyval) :
  (forall w s e n,
      valid_bbox w s e n ->
      check_items its = OK tt ->
      check_temporal_extent extent = OK tt ->
      succeeds (resolve_storage ok get_credentials_by_bucket parse_region
                  its) ->
      exists self,
        __init__ ok get_credentials_by_bucket parse_region its bnds
          (PTuple [w; s; e; n]) extent props = OK self
        /\ bbox self = PTuple [w; s; e; n])
  /\ (forall box,
         (forall w s e n, box <> PTuple [w; s; e; n]) ->
         __init__ ok get_credentials_by_bucket parse_region its bnds box
           extent props = Raise AssertionError)
  /\ (forall w s e n,
         is_number w = true -> is_number s = true ->
         is_number e = true -> is_number n = true ->
         bbox_violation w s e n ->
         __init__ ok get_credentials_by_bucket parse_region its bnds
           (PTuple [w; s; e; n]) extent props = Raise AssertionError).
Proof.
  repeat split.
  - intros w s e n Hvalid Hitems Hextent Hstorage.
    destruct (init_checks_pass ok get_credentials_by_bucket parse_region
                its bnds (PTuple [w; s; e; n]) extent props Hitems
                (check_bbox_valid w s e n Hvalid) Hextent Hstorage)
      as (self & Hself & Hbox & _).
    now exists self.
  - intros box Hshape. apply init_bbox_rejected.
    now apply check_bbox_not_tuple4.
  - intros w s e n Hw Hs He Hn Hviol. apply init_bbox_rejected.
    now apply check_bbox_violation.
Qed.

Lemma bbox_validation_witness :
  (exists self,
      __init__ no_bracketed_host example_credentials example_region
        example_items (PList [PStr "B02"])
        (PTuple [PInt (-180); half; PInt 10; PInt 90]) PNone PNone = OK self
      /\ bbox self = PTuple [PInt (-180); half; PInt 10; PInt 90])
  /\ __init__ no_bracketed_host example_credentials example_region
       example_items (PList [PStr "B02"])
       (PTuple [PInt 10; PInt 0; half; PInt 10]) PNone PNone
     = Raise AssertionError.
Proof.
  destruct (bbox_validation no_bracketed_host example_credentials
              example_region example_items (PList [PStr "B02"]) PNone PNone)
    as (Hvalid & _ & Hviol).
  split.
  - apply Hvalid; [repeat split | reflexivity | reflexivity |].
    eexists; reflexivity.
  - apply Hviol; try reflexivity.
    left. exists (XFin 4503599627370496 (-53)), (XFin 10 0).
    repeat split.
Defined.

(** ** Construction: items and temporal extent *)

Lemma len_not_none (v : pyval) (n : Z) : py_len v = OK n -> is_none v = false.
Proof. destruct v; simpl; intros H; try discriminate H; reflexivity. Qed.

(** The temporal extent check on an extent of positive length. *)
Lemma check_temporal_extent_nonempty (extent : pyval) (n : Z) :
  py_len extent = OK n ->
  0 < n ->
  check_temporal_extent extent
  = (t0 <- py_index extent 0 ;;
     assert! is_datetime t0 ;;
     t1 <- py_index extent 1 ;;
     if negb (is_none t1) then
       assert! is_datetime t1 ;;
       ordered <- datetime_le t0 t1 ;;
       assert! ordered ;;
       OK tt
     else OK tt).
Proof.
  intros Hlen Hpos. unfold check_temporal_extent.
  rewrite (len_not_none extent n Hlen), Hlen.
  assert ((n >? 0) = true) as Hgt by (apply Z.gtb_lt; lia).
  unfold bind at 1. cbv beta iota. now rewrite Hgt.
Qed.

Lemma check_temporal_extent_start (extent start : pyval) (n : Z) :
  py_len extent = OK n ->
  0 < n ->
  py_index extent 0 = OK start ->
  is_datetime start = false ->
  check_temporal_extent extent = Raise AssertionError.
Proof.
  intros Hlen Hpos Hstart Hdt.
  rewrite (check_temporal_extent_nonempty extent n Hlen Hpos), Hstart.
  simpl bind. now rewrite Hdt.
Qed.

Lemma check_temporal_extent_order (extent : pyval) (n : Z) (aware : bool)
  (t0 t1 : Z) :
  py_len extent = OK n ->
  0 < n ->
  py_index extent 0 = OK (PDatetime aware t0) ->
  py_index extent 1 = OK (PDatetime aware t1) ->
  t1 < t0 ->
  check_temporal_extent extent = Raise AssertionError.
Proof.
  intros Hlen Hpos Hstart Hend Hlt.
  rewrite (check_temporal_extent_nonempty extent n Hlen Hpos), Hstart.
  simpl bind. rewrite Hend. simpl. rewrite Bool.eqb_reflx. simpl.
  assert ((t0 <=? t1) = false) as -> by (apply Z.leb_gt; lia).
  reflexivity.
Qed.

Lemma check_temporal_extent_requires_start (extent : pyval) (n : Z) :
  check_temporal_extent extent = OK tt ->
  py_len extent = OK n ->
  0 < n ->
  exists start, py_index extent 0 = OK start /\ is_datetime start = true.
Proof.
  intros Hcheck Hlen Hpos.
  rewrite (check_temporal_extent_nonempty extent n Hlen Hpos) in Hcheck.
  destruct (py_index extent 0) as [start |]; [| discriminate Hcheck].
  simpl bind in Hcheck. exists start. split; [reflexivity |].
  destruct (is_datetime start); [reflexivity | discriminate Hcheck].
Qed.

(** C6, as amended.  The construction raises [AssertionError] whenever the
    items are not a non-empty list.  On a temporal extent of positive
    length it fails whenever the first element is not a datetime, and
    whenever start and end are datetimes and the end precedes the start;
    the failing check raises [AssertionError].  Hence a start is required
    in every temporal extent that is not empty; [None] and the empty tuple
    pass without one. *)
Theorem items_and_temporal_extent_validation (ok : string -> bool)
  (get_credentials_by_bucket parse_region : string -> result pyval)
  (its bnds box extent props : pyval) :
  ((forall x l, its <> PList (x :: l)) ->
   __init__ ok get_credentials_by_bucket parse_region its bnds box extent
     props = Raise AssertionError)
  /\ (forall n start,
         py_len extent = OK n -> 0 < n ->
         py_index extent 0 = OK start ->
         is_datetime start = false ->
         check_temporal_extent extent = Raise AssertionError
         /\ fails (__init__ ok get_credentials_by_bucket parse_region its
                     bnds box extent props))
  /\ (forall n aware t0 t1,
         py_len extent = OK n -> 0 < n ->
         py_index extent 0 = OK (PDatetime aware t0) ->
         py_index extent 1 = OK (PDatetime aware t1) ->
         t1 < t0 ->
         check_temporal_extent extent = Raise AssertionError
         /\ fails (__init__ ok get_credentials_by_bucket parse_region its
                     bnds box extent props))
  /\ (forall self n,
         __init__ ok get_credentials_by_bucket parse_region its bnds box
           extent props = OK self ->
         py_len extent = OK n -> 0 < n ->
         exists start,
           py_index extent 0 = OK start /\ is_datetime start = true).
Proof.
  split; [| split; [| split]].
  - intros Hshape. unfold __init__.
    now rewrite (check_items_otherwise its Hshape).
  - intros n start Hlen Hpos Hstart Hdt.
    pose proof (check_temporal_extent_start extent start n Hlen Hpos Hstart
                  Hdt) as Hcheck.
    split; [exact Hcheck |].
    exact (init_temporal_rejected ok get_credentials_by_bucket parse_region
             its bnds box extent props _ Hcheck).
  - intros n aware t0 t1 Hlen Hpos Hstart Hend Hlt.
    pose proof (check_temporal_extent_order extent n aware t0 t1 Hlen Hpos
                  Hstart Hend Hlt) as Hcheck.
    split; [exact Hcheck |].
    exact (init_temporal_rejected ok get_credentials_by_bucket parse_region
             its bnds box extent props _ Hcheck).
  - intros self n Hinit Hlen Hpos.
    destruct (init_succeeds_checks ok get_credentials_by_bucket parse_region
                its bnds box extent props self Hinit) as (_ & _ & Hcheck).
    exact (check_temporal_extent_requires_start extent n Hcheck Hlen Hpos).
Qed.

Lemma items_and_temporal_extent_validation_witness :
  __init__ no_bracketed_host example_credentials example_region (PList [])
    (PList [PStr "B02"]) example_bbox PNone PNone = Raise AssertionError
  /\ fails (__init__ no_bracketed_host example_credentials example_region
              example_items (PList [PStr "B02"]) example_bbox
              (PTuple [PNone; PDatetime true 1700000000]) PNone)
  /\ fails (__init__ no_bracketed_host example_credentials example_region
              example_items (PList [PStr "B02"]) example_bbox
              (PTuple [PDatetime true 1700000000; PDatetime true 1600000000])
              PNone).
Proof.
  split; [| split].
  - apply (items_and_temporal_extent_validation no_bracketed_host
             example_credentials example_region (PList [])
             (PList [PStr "B02"]) example_bbox PNone PNone).
    intros x l H. discriminate H.
  - destruct (items_and_temporal_extent_validation no_bracketed_host
                example_credentials example_region example_items
                (PList [PStr "B02"]) example_bbox
                (PTuple [PNone; PDatetime true 1700000000]) PNone)
      as (_ & Hstart & _).
    apply (Hstart 2 PNone); [reflexivity | lia | reflexivity | reflexivity].
  - destruct (items_and_temporal_extent_validation no_bracketed_host
                example_credentials example_region example_items
                (PList [PStr "B02"]) example_bbox
                (PTuple [PDatetime true 1700000000;
                         PDatetime true 1600000000]) PNone)
      as (_ & _ & Horder & _).
    apply (Horder 2 true 1700000000 1600000000);
      [reflexivity | lia | reflexivity | reflexivity | lia].
Defined.

(** The claim C6 as worded requires a start in every temporal extent; the
    empty tuple is accepted by the constructor, which then builds a reader
    without a start. *)
Lemma empty_temporal_extent_accepted :
  ~ (forall (ok : string -> bool)
            (get_credentials_by_bucket parse_region : string -> result pyval)
            (its bnds box extent props : pyval) (self : CloudStorageFileReader),
        __init__ ok get_credentials_by_bucket parse_region its bnds box
          extent props = OK self ->
        exists start,
          py_index extent 0 = OK start /\ is_datetime start = true).
Proof.
  intros claim.
  destruct (claim no_bracketed_host example_credentials example_region
              example_items (PList [PStr "B02"]) example_bbox (PTuple [])
              PNone (example_reader (PTuple []) PNone) eq_refl)
    as [start [Hstart _]].
  discriminate Hstart.
Qed.

Example init_example_reader :
  __init__ no_bracketed_host example_credentials example_region example_items
    (PList [PStr "B02"]) example_bbox PNone level_properties
  = OK (example_reader PNone level_properties).
Proof. reflexivity. Qed.

(** ** The filesystem handle *)

Lemma prefix_cons (a : ascii) (s : string) (c : ascii) (t : string) :
  String.prefix (String a s) (String c t) = true ->
  a = c /\ String.prefix s t = true.
Proof.
  change (String.prefix (String a s) (String c t))
    with (match ascii_dec a c with
          | left _ => String.prefix s t
          | right _ => false
          end).
  destruct (ascii_dec a c); [now split | discriminate].
Qed.

(** An endpoint without [://] does not start with [https://]. *)
Lemma no_scheme_not_https (endpoint : string) :
  no_scheme endpoint = true -> Str.startswith endpoint "https://" = false.
Proof.
  unfold no_scheme, Str.startswith. intros Hnone.
  destruct (String.index 0 "://" endpoint) eqn:Hindex; [discriminate |].
  destruct (String.prefix "https://" endpoint) eqn:Hprefix; [| reflexivity].
  exfalso.
  apply (index_correct3 0 5 "://" endpoint Hindex);
    [discriminate | lia |].
  repeat (destruct endpoint as [| ? endpoint]; [discriminate Hprefix |];
          apply prefix_cons in Hprefix as [<- Hprefix]).
  simpl. now destruct endpoint.
Qed.

(** C9, as amended.  [create_s3filesystem] builds the handle with anonymous
    access disabled and the stored key and secret, against the stored
    endpoint in lower case: unchanged when it starts with [https://], and
    prefixed with [https://] when it names no scheme. *)
Theorem create_s3filesystem_endpoint (self : CloudStorageFileReader)
  (stored : string) :
  _endpoint self = PStr stored ->
  exists url,
    create_s3filesystem self
    = OK (mkS3FileSystem false url (access_key_id self)
            (secret_access_key self))
    /\ (Str.startswith (Str.lower stored) "https://" = true ->
        url = Str.lower stored)
    /\ (no_scheme (Str.lower stored) = true ->
        url = "https://" ++ Str.lower stored).
Proof.
  intros Hstored. unfold create_s3filesystem, endpoint. rewrite Hstored.
  simpl bind. eexists. split; [reflexivity |]. split.
  - now intros ->.
  - intros Hnone. now rewrite (no_scheme_not_https _ Hnone).
Qed.

Lemma create_s3filesystem_endpoint_witness :
  create_s3filesystem (example_reader PNone PNone)
  = OK (mkS3FileSystem false "https://s3.eu-de.cloud-object-storage.example"
          (PStr "AKIDEXAMPLE") (PStr "wJalrEXAMPLEKEY")).
Proof.
  destruct (create_s3filesystem_endpoint (example_reader PNone PNone) _ eq_refl)
    as (url & Hfs & _ & Hprefixed).
  rewrite Hfs, (Hprefixed eq_refl). reflexivity.
Defined.

(** The claim C9 as worded has the endpoint URL equal to the stored
    endpoint, prefixed when it names no scheme; the reader lowers the
    stored endpoint first. *)
Lemma endpoint_url_is_lowered :
  ~ (forall (self : CloudStorageFileReader) (stored : string),
        _endpoint self = PStr stored ->
        exists fs,
          create_s3filesystem self = OK fs
          /\ endpoint_url fs
             = if no_scheme stored then "https://" ++ stored else stored).
Proof.
  intros claim.
  destruct (claim (example_reader PNone PNone) _ eq_refl) as [fs [Hfs Hurl]].
  injection Hfs as <-. discriminate Hurl.
Qed.

Example endpoint_url_other_scheme :
  create_s3filesystem
    (mkReader example_items example_bbox (PList []) PNone "bucket2"
       (PStr "http://minio:9000") PNone PNone PNone PNone)
  = OK (mkS3FileSystem false "https://http://minio:9000" PNone PNone).
Proof. reflexivity. Qed.

(** ** Dimension metadata: agreement and failures of the lookups *)

Lemma dimension_name_loop_axis_only (dims : dict) (axis : string) :
  dimension_name_loop dims (Some axis) None false PNone
  = description_loop dims axis.
Proof.
  induction dims as [| [k v] dims IH]; [reflexivity |].
  simpl. destruct (get_str v "axis") as [a |]; simpl; [| reflexivity].
  destruct (negb (is_none a) && eq_str a axis).
  - apply dimension_name_loop_found.
  - exact IH.
Qed.

(** [_get_dimension_description] is [_get_dimension_name] asked for an axis
    alone: on properties whose [cube:dimensions] is a mapping both return
    the same key, the same [None], or raise the same exception; when it is
    not a mapping the first raises [AttributeError] and the second
    [AssertionError]. *)
Theorem dimension_description_is_name_by_axis (item props cube_dims : pyval)
  (axis : string) :
  getitem_str item "properties" = OK props ->
  getitem_str props "cube:dimensions" = OK cube_dims ->
  (forall dims,
      cube_dims = PDict dims ->
      _get_dimension_description props axis
      = _get_dimension_name item (Some axis) None)
  /\ (is_dict cube_dims = false ->
      _get_dimension_description props axis = Raise AttributeError
      /\ _get_dimension_name item (Some axis) None = Raise AssertionError).
Proof.
  intros Hprops Hdims.
  unfold _get_dimension_description, _get_dimension_name.
  rewrite Hprops. simpl bind. rewrite Hdims. simpl bind. split.
  - intros dims ->. simpl. symmetry. apply dimension_name_loop_axis_only.
  - intros Hnot. rewrite Hnot. now destruct cube_dims.
Qed.

Lemma dimension_description_is_name_by_axis_witness :
  _get_dimension_description
    (PDict [("cube:dimensions",
             PDict [("lat", PDict [("axis", PStr "y")]);
                    ("lon", PDict [("axis", PStr "x")])])]) "x"
  = OK (PStr "lon")
  /\ _get_dimension_name
       (PDict [("properties",
                PDict [("cube:dimensions",
                        PDict [("lat", PDict [("axis", PStr "y")]);
                               ("lon", PDict [("axis", PStr "x")])])])])
       (Some "x") None
     = OK (PStr "lon").
Proof.
  split; [reflexivity |].
  rewrite <- (proj1 (dimension_description_is_name_by_axis
                       (PDict [("properties",
                                PDict [("cube:dimensions",
                                        PDict [("lat",
                                                PDict [("axis", PStr "y")]);
                                               ("lon",
                                                PDict [("axis",
                                                        PStr "x")])])])])
                       (PDict [("cube:dimensions",
                                PDict [("lat", PDict [("axis", PStr "y")]);
                                       ("lon", PDict [("axis", PStr "x")])])])
                       (PDict [("lat", PDict [("axis", PStr "y")]);
                               ("lon", PDict [("axis", PStr "x")])])
                       "x" eq_refl eq_refl)
                    _ eq_refl).
  reflexivity.
Defined.

Lemma dimension_name_loop_result (dims : dict) (axis dim_type : option string)
  (found : bool) (name r : pyval) :
  dimension_name_loop dims axis dim_type found name = OK r ->
  r = name \/ exists k v, In (k, v) dims /\ r = PStr k.
Proof.
  revert found name. induction dims as [| [k v] dims IH]; intros found name.
  - simpl. intros [= <-]. now left.
  - simpl. destruct found; [intros [= <-]; now left |].
    destruct (get_str v "axis") as [a |]; simpl; [| discriminate].
    destruct (match dim_type with
              | Some ty => t <- get_str v "type" ;;
                           OK (negb (is_none t) && eq_str t ty)
              | None => OK false
              end) as [hit2 |]; simpl; [| discriminate].
    intros H. apply IH in H. destruct H as [-> | (k' & v' & Hin & ->)].
    + destruct hit2;
        [right; exists k, v; split; [now left | reflexivity] |].
      destruct (match axis with
                | Some ax => negb (is_none a) && eq_str a ax
                | None => false
                end);
        [right; exists k, v; split; [now left | reflexivity] | now left].
    + right. exists k', v'. split; [now right | reflexivity].
Qed.

(** Whatever the entries are, [_get_dimension_name] returns [None] or the
    name of one of the dimensions of the item, never another value. *)
Theorem get_dimension_name_is_a_key (item : pyval) (dims : dict)
  (axis dim_type : option string) (r : pyval) :
  cube_dimensions item = OK (PDict dims) ->
  _get_dimension_name item axis dim_type = OK r ->
  r = PNone \/ exists k v, In (k, v) dims /\ r = PStr k.
Proof.
  intros Hdims.
  rewrite (get_dimension_name_unfold item dims axis dim_type Hdims).
  destruct (is_some axis || is_some dim_type); [| discriminate].
  apply dimension_name_loop_result.
Qed.

Lemma get_dimension_name_is_a_key_witness :
  _get_dimension_name item_two_steps (Some "y") None = OK (PStr "y")
  /\ exists k v,
      In (k, v)
        [("x", PDict [("axis", PStr "x"); ("step", PInt 20);
                      ("reference_system", PInt 4326)]);
         ("y", PDict [("axis", PStr "y");
                      ("step",
                       PFloat (S754_finite true 5629499534213120 (-49)));
                      ("reference_system", PInt 32633)]);
         ("time", PDict [("type", PStr "temporal")])]
      /\ PStr "y" = PStr k.
Proof.
  split; [reflexivity |].
  destruct (get_dimension_name_is_a_key item_two_steps _ (Some "y") None
              (PStr "y") eq_refl eq_refl) as [H | H].
  - discriminate H.
  - exact H.
Defined.

Section LookupFailures.

Variable np_abs_float : pyval -> result pyval.

Lemma getitem_raises_key_error (d : dict) (k : string) (e : exn) :
  Dict.getitem d k = Raise e -> e = KeyError.
Proof.
  induction d as [| [k' v] d IH]; simpl; [now intros [= <-] |].
  destruct (String.eqb k' k); [discriminate | exact IH].
Qed.

(** An item that is a mapping without [properties], or whose properties
    are a mapping without [cube:dimensions], makes the three lookups raise
    [KeyError]. *)
Theorem lookups_need_cube_dimensions (item : pyval)
  (axis dim_type : option string) :
  is_dict item = true ->
  has "properties" item = false
  \/ is_dict (field "properties" item) = true
     /\ has "cube:dimensions" (field "properties" item) = false ->
  _get_epsg item = Raise KeyError
  /\ _get_resolution np_abs_float item = Raise KeyError
  /\ _get_dimension_name item axis dim_type = Raise KeyError.
Proof.
  intros Hitem Hmissing.
  assert (cube_dimensions item = Raise KeyError) as Hcube.
  { unfold cube_dimensions. destruct item as [| | | | | | | d | |];
      try discriminate Hitem.
    destruct Hmissing as [Hnone | [Hprops Hnone]].
    - unfold has in Hnone. simpl in *.
      destruct (Dict.getitem d "properties") eqn:Hget; [discriminate |].
      now rewrite (getitem_raises_key_error _ _ _ Hget).
    - simpl in Hprops. simpl getitem_str at 1.
      destruct (Dict.getitem d "properties") as [p |] eqn:Hget.
      + apply getitem_get in Hget. simpl in Hnone. rewrite Hget in *.
        simpl bind. unfold has in Hnone.
        destruct p as [| | | | | | | dp | |]; try discriminate Hprops.
        simpl in *.
        destruct (Dict.getitem dp "cube:dimensions") eqn:Hget';
          [discriminate |].
        now rewrite (getitem_raises_key_error _ _ _ Hget').
      + now rewrite (getitem_raises_key_error _ _ _ Hget). }
  unfold cube_dimensions in Hcube.
  unfold _get_epsg, _get_resolution, _get_dimension_name.
  destruct (getitem_str item "properties") as [p |]; simpl in *.
  - rewrite Hcube. now repeat split.
  - injection Hcube as ->. now repeat split.
Qed.

Lemma resolution_loop_pass (pre rest : list pyval) (resolution : pyval) :
  Forall (fun v => is_dict v = true) pre ->
  Forall (fun u => carries "step" u = true ->
                   succeeds (np_abs_float (field "step" u))) pre ->
  exists resolution',
    resolution_loop np_abs_float (pre ++ rest)%list resolution
    = resolution_loop np_abs_float rest resolution'.
Proof.
  revert resolution.
  induction pre as [| u pre IH]; intros resolution Hd Hok.
  - now exists resolution.
  - inversion Hd as [| ? ? Hu Hd']; inversion Hok as [| ? ? Hconv Hok'];
      subst. simpl.
    rewrite get_str_dict by exact Hu. simpl.
    destruct (is_none (field "step" u)) eqn:Hn; simpl.
    + now apply IH.
    + destruct Hconv as [r Hr]; [unfold carries; now rewrite Hu, Hn |].
      rewrite Hr. simpl. now apply IH.
Qed.

(** A step that NumPy does not convert makes [_get_resolution] raise, even
    when a later entry carries a step that would replace it; an entry that
    is not a mapping makes it raise [AttributeError] wherever it sits. *)
Theorem get_resolution_fails_on_any_entry (item : pyval) (pre post : dict)
  (k : string) (v : pyval) :
  cube_dimensions item = OK (PDict (pre ++ (k, v) :: post)%list) ->
  Forall entry_is_dict pre ->
  Forall (fun kv => carries "step" (snd kv) = true ->
                    succeeds (np_abs_float (field "step" (snd kv)))) pre ->
  (forall e,
      carries "step" v = true ->
      np_abs_float (field "step" v) = Raise e ->
      _get_resolution np_abs_float item = Raise e)
  /\ (is_dict v = false ->
      _get_resolution np_abs_float item = Raise AttributeError).
Proof.
  intros Hdims Hd Hok.
  rewrite (get_resolution_unfold np_abs_float item _ Hdims), values_app.
  destruct (resolution_loop_pass (Dict.values pre)
              (v :: Dict.values post) PNone) as [r ->].
  - now apply Forall_values with (P := fun v => is_dict v = true).
  - now apply Forall_values
      with (P := fun u => carries "step" u = true -> succeeds _).
  - split.
    + intros e Hv He. apply carries_true in Hv as [Hdv Hn]. simpl.
      rewrite get_str_dict by exact Hdv. simpl. rewrite Hn. simpl.
      now rewrite He.
    + intros Hnot. simpl. now destruct v.
Qed.

End LookupFailures.

Lemma lookups_need_cube_dimensions_witness :
  _get_epsg (PDict [("properties", PDict [("datetime", PNone)])])
  = Raise KeyError
  /\ _get_dimension_name (PDict [("assets", PDict [])]) (Some "x") None
     = Raise KeyError.
Proof.
  split.
  - apply (lookups_need_cube_dimensions np_abs_float_exact
             (PDict [("properties", PDict [("datetime", PNone)])]) None None
             eq_refl).
    right. split; reflexivity.
  - apply (lookups_need_cube_dimensions np_abs_float_exact
             (PDict [("assets", PDict [])]) (Some "x") None eq_refl).
    left. reflexivity.
Defined.

Lemma get_resolution_fails_on_any_entry_witness :
  _get_resolution np_abs_float_exact
    (PDict [("properties",
             PDict [("cube:dimensions",
                     PDict [("x", PDict [("step", PStr "10m")]);
                            ("y", PDict [("step", PInt 10)])])])])
  = Raise TypeError.
Proof.
  destruct (get_resolution_fails_on_any_entry np_abs_float_exact
              (PDict [("properties",
                       PDict [("cube:dimensions",
                               PDict [("x", PDict [("step", PStr "10m")]);
                                      ("y", PDict [("step", PInt 10)])])])])
              [] [("y", PDict [("step", PInt 10)])] "x"
              (PDict [("step", PStr "10m")]) eq_refl)
    as [Hstep _]; [constructor | constructor |].
  apply Hstep; reflexivity.
Defined.

(** ** What a constructed reader holds *)

Lemma chain_le_true (a b c d : pyval) :
  chain_le a b c d = OK true -> le a b /\ le b c /\ le c d.
Proof.
  unfold chain_le, le.
  destruct (num_le a b) as [[] |]; simpl; try discriminate.
  destruct (num_le b c) as [[] |]; simpl; try discriminate.
  intros ->. now repeat split.
Qed.

Lemma check_bbox_accepts (box : pyval) :
  check_bbox box = OK tt ->
  exists w s e n, box = PTuple [w; s; e; n] /\ valid_bbox w s e n.
Proof.
  intros Hcheck.
  destruct box as [| | | | | | l | | |]; try discriminate Hcheck.
  destruct l as [| w [| s [| e [| n [| x l]]]]]; try discriminate Hcheck.
  - exists w, s, e, n. split; [reflexivity |].
    rewrite check_bbox_tuple in Hcheck.
    destruct (chain_le (PInt (-180)) w e (PInt 180)) as [[] |] eqn:Hlon;
      try discriminate Hcheck.
    simpl bind in Hcheck.
    destruct (chain_le (PInt (-90)) s n (PInt 90)) as [[] |] eqn:Hlat;
      try discriminate Hcheck.
    apply chain_le_true in Hlon as (H1 & H2 & H3).
    apply chain_le_true in Hlat as (H4 & H5 & H6).
    now repeat split.
  - rewrite check_bbox_not_tuple4 in Hcheck; [discriminate Hcheck |].
    intros w' s' e' n' H. discriminate H.
Qed.

Lemma check_items_accepts (its : pyval) :
  check_items its = OK tt -> exists x l, its = PList (x :: l).
Proof.
  intros Hcheck. destruct its as [| | | | | [| x l] | | | |];
    try discriminate Hcheck.
  now exists x, l.
Qed.

Lemma check_temporal_extent_accepts (extent : pyval) :
  check_temporal_extent extent = OK tt -> ordered_extent extent.
Proof.
  intros Hcheck. unfold ordered_extent.
  destruct (is_none extent) eqn:Hnone;
    [left; now destruct extent |].
  right. unfold check_temporal_extent in Hcheck. rewrite Hnone in Hcheck.
  simpl negb in Hcheck. cbv iota in Hcheck.
  destruct (py_len extent) as [n |] eqn:Hlen; [| discriminate Hcheck].
  simpl bind in Hcheck.
  destruct (n >? 0) eqn:Hpos.
  - right.
    destruct (py_index extent 0) as [t0 |]; [| discriminate Hcheck].
    simpl bind in Hcheck.
    destruct t0 as [| | | | | | | | | aware t0]; try discriminate Hcheck.
    simpl in Hcheck.
    destruct (py_index extent 1) as [t1 |]; [| discriminate Hcheck].
    simpl bind in Hcheck.
    destruct t1 as [| | | | | | | | | aware1 t1]; try discriminate Hcheck.
    + exists aware, t0, 0. split; [reflexivity | now left].
    + simpl in Hcheck.
      destruct (Bool.eqb aware aware1) eqn:Haware; [| discriminate Hcheck].
      apply Bool.eqb_prop in Haware. subst aware1. simpl in Hcheck.
      destruct (t0 <=? t1) eqn:Hle; [| discriminate Hcheck].
      apply Z.leb_le in Hle.
      exists aware, t0, t1. split; [reflexivity | right; now split].
  - left. f_equal.
    destruct extent; simpl in Hlen; try discriminate Hlen;
      injection Hlen as <-; rewrite Z.gtb_ltb in Hpos;
      apply Z.ltb_ge in Hpos; lia.
Qed.

Section ConstructedReader.

Variable bracketed_host_ok : string -> bool.
Variable get_credentials_by_bucket : string -> result pyval.
Variable parse_region : string -> result pyval.

Let init := __init__ bracketed_host_ok get_credentials_by_bucket parse_region.
Let resolve :=
  resolve_storage bracketed_host_ok get_credentials_by_bucket parse_region.

Lemma init_unfold (its bnds box extent props : pyval)
  (self : CloudStorageFileReader) :
  init its bnds box extent props = OK self ->
  check_items its = OK tt /\ check_bbox box = OK tt
  /\ check_temporal_extent extent = OK tt
  /\ exists st,
      resolve its = OK st
      /\ self = mkReader its box bnds extent (st_bucket st) (st_endpoint st)
                  (st_access_key_id st) (st_secret_access_key st)
                  (st_region st) props.
Proof.
  unfold init, __init__. fold resolve.
  destruct (check_items its) as [[] |]; [| discriminate].
  destruct (check_bbox box) as [[] |]; [| discriminate].
  destruct (check_temporal_extent extent) as [[] |]; [| discriminate].
  simpl bind. destruct (resolve its) as [st |]; [| discriminate].
  simpl bind. intros [= <-]. repeat split. now exists st.
Qed.

Lemma endpoint_of_str (v : pyval) (e : string) :
  endpoint_of v = OK e ->
  exists stored, v = PStr stored /\ e = Str.lower stored.
Proof.
  destruct v; simpl; try discriminate. intros [= <-]. now eexists.
Qed.

Lemma values_of_dict (v : pyval) (vals : list pyval) :
  values_of v = OK vals -> exists d, v = PDict d /\ vals = Dict.values d.
Proof.
  destruct v; simpl; try discriminate. intros [= <-]. now eexists.
Qed.

(** What [resolve_storage] went through when it succeeds. *)
Lemma resolve_inv (its : pyval) (st : storage) :
  resolve its = OK st ->
  exists item0 assets asset_values href credentials stored,
    py_index its 0 = OK item0
    /\ getitem_str item0 "assets" = OK (PDict assets)
    /\ next_iter (Dict.values assets) = OK asset_values
    /\ getitem_str asset_values "href" = OK href
    /\ extract_bucket_of bracketed_host_ok href = OK (st_bucket st)
    /\ get_credentials_by_bucket (st_bucket st) = OK credentials
    /\ getitem_str credentials "endpoint" = OK (PStr stored)
    /\ st_endpoint st = PStr stored
    /\ getitem_str credentials "access_key_id" = OK (st_access_key_id st)
    /\ getitem_str credentials "secret_access_key"
       = OK (st_secret_access_key st)
    /\ parse_region (Str.lower stored) = OK (st_region st).
Proof.
  unfold resolve, resolve_storage.
  destruct (py_index its 0) as [item0 |] eqn:H0; simpl bind;
    [| discriminate].
  destruct (getitem_str item0 "assets") as [a |] eqn:H1; simpl bind;
    [| discriminate].
  destruct (values_of a) as [vals |] eqn:H2; simpl bind; [| discriminate].
  apply values_of_dict in H2 as (assets & -> & ->).
  destruct (next_iter (Dict.values assets)) as [asset_values |] eqn:H3;
    simpl bind; [| discriminate].
  destruct (getitem_str asset_values "href") as [href |] eqn:H4; simpl bind;
    [| discriminate].
  destruct (extract_bucket_of bracketed_host_ok href) as [b |] eqn:H5;
    simpl bind; [| discriminate].
  destruct (get_credentials_by_bucket b) as [credentials |] eqn:H6;
    simpl bind; [| discriminate].
  destruct (getitem_str credentials "endpoint") as [ep |] eqn:H7;
    simpl bind; [| discriminate].
  destruct (getitem_str credentials "access_key_id") as [ak |] eqn:H8;
    simpl bind; [| discriminate].
  destruct (getitem_str credentials "secret_access_key") as [sk |] eqn:H9;
    simpl bind; [| discriminate].
  destruct (endpoint_of ep) as [e |] eqn:H10; simpl bind; [| discriminate].
  apply endpoint_of_str in H10 as (stored & -> & ->).
  destruct (parse_region (Str.lower stored)) as [r |] eqn:H11; simpl bind;
    [| discriminate].
  intros [= <-]. simpl.
  exists item0, assets, asset_values, href, credentials, stored.
  now repeat split.
Qed.

(** Construction stores its arguments as they are, and what passed the
    checks stays true of the reader: the items are a non-empty list, the
    bounding box is a 4-tuple in order and in range, and the temporal
    extent is [None], empty, or a datetime start with no end or with a
    datetime end that is not earlier. *)
Theorem constructed_reader_invariant (its bnds box extent props : pyval)
  (self : CloudStorageFileReader) :
  init its bnds box extent props = OK self ->
  (items self = its /\ bands self = bnds /\ bbox self = box
   /\ temporal_extent self = extent /\ properties self = props)
  /\ (exists x l, items self = PList (x :: l))
  /\ (exists w s e n, bbox self = PTuple [w; s; e; n] /\ valid_bbox w s e n)
  /\ ordered_extent (temporal_extent self).
Proof.
  intros Hinit.
  destruct (init_unfold its bnds box extent props self Hinit)
    as (Hitems & Hbox & Hextent & st & _ & ->).
  simpl. split; [now repeat split |]. split; [| split].
  - now apply check_items_accepts.
  - now apply check_bbox_accepts.
  - now apply check_temporal_extent_accepts.
Qed.

(** The polygon of a constructed reader has the four corners of its box,
    (west, south), (west, north), (east, north), (east, south) in this
    order, with west not above east and south not above north. *)
Theorem constructed_reader_polygon (its bnds box extent props : pyval)
  (self : CloudStorageFileReader) :
  init its bnds box extent props = OK self ->
  exists w s e n,
    box = PTuple [w; s; e; n]
    /\ le w e /\ le s n
    /\ get_polygon self = OK (mkPolygon [[w; s]; [w; n]; [e; n]; [e; s]]).
Proof.
  intros Hinit.
  destruct (init_unfold its bnds box extent props self Hinit)
    as (_ & Hbox & _ & st & _ & ->).
  destruct (check_bbox_accepts box Hbox)
    as (w & s & e & n & -> & _ & Hwe & _ & _ & Hsn & _).
  exists w, s, e, n. now repeat split.
Qed.

(** On a constructed reader with a temporal extent that is not empty,
    [start_datetime] is a datetime and [end_datetime] is [None] or a
    datetime that is not earlier.  A reader constructed with [None] raises
    [TypeError] from both accessors, and one constructed with an empty
    extent makes both fail. *)
Theorem constructed_reader_datetimes (its bnds box extent props : pyval)
  (self : CloudStorageFileReader) :
  init its bnds box extent props = OK self ->
  (forall n,
      py_len extent = OK n -> 0 < n ->
      exists aware t0,
        start_datetime self = OK (PDatetime aware t0)
        /\ (end_datetime self = OK PNone
            \/ exists t1,
                end_datetime self = OK (PDatetime aware t1) /\ t0 <= t1))
  /\ (extent = PNone ->
      start_datetime self = Raise TypeError
      /\ end_datetime self = Raise TypeError)
  /\ (py_len extent = OK 0 ->
      fails (start_datetime self) /\ fails (end_datetime self)).
Proof.
  intros Hinit.
  destruct (init_unfold its bnds box extent props self Hinit)
    as (_ & _ & Hextent & st & _ & ->).
  unfold start_datetime, end_datetime. simpl temporal_extent.
  split; [| split].
  - intros n Hlen Hpos.
    destruct (check_temporal_extent_accepts extent Hextent)
      as [-> | [Hzero | (aware & t0 & t1 & Hstart & Hend)]].
    + discriminate Hlen.
    + rewrite Hzero in Hlen. injection Hlen as <-. lia.
    + exists aware, t0. split; [exact Hstart |].
      destruct Hend as [Hend | [Hend Hle]]; [now left |].
      right. now exists t1.
  - intros ->. now split.
  - intros Hzero.
    destruct extent as [| | | | s | l | l | d | |]; try discriminate Hzero;
      simpl in Hzero; injection Hzero as Hzero.
    + destruct s; [| discriminate Hzero].
      split; eexists; reflexivity.
    + destruct l; [| discriminate Hzero]. split; eexists; reflexivity.
    + destruct l; [| discriminate Hzero]. split; eexists; reflexivity.
    + split; eexists; reflexivity.
Qed.

Lemma prefix_https (e : string) :
  Str.startswith ("https://" ++ e) "https://" = true.
Proof. unfold Str.startswith. now destruct e. Qed.

(** On a constructed reader [create_s3filesystem] succeeds; the endpoint
    URL of the handle starts with [https://], anonymous access is off, and
    key and secret are the ones the credential provider returned for the
    bucket of the reader, which the boto3 session receives too. *)
Theorem constructed_reader_filesystem (its bnds box extent props : pyval)
  (self : CloudStorageFileReader) :
  init its bnds box extent props = OK self ->
  exists fs credentials,
    create_s3filesystem self = OK fs
    /\ Str.startswith (endpoint_url fs) "https://" = true
    /\ anon fs = false
    /\ get_credentials_by_bucket (bucket self) = OK credentials
    /\ getitem_str credentials "access_key_id" = OK (key fs)
    /\ getitem_str credentials "secret_access_key" = OK (secret fs)
    /\ aws_access_key_id (_create_boto3_session self) = key fs
    /\ aws_secret_access_key (_create_boto3_session self) = secret fs.
Proof.
  intros Hinit.
  destruct (init_unfold its bnds box extent props self Hinit)
    as (_ & _ & _ & st & Hst & ->).
  destruct (resolve_inv its st Hst)
    as (item0 & assets & asset_values & href & credentials & stored
        & _ & _ & _ & _ & _ & Hcred & _ & Hep & Hak & Hsk & _).
  unfold create_s3filesystem, endpoint. simpl _endpoint. rewrite Hep.
  simpl bind. eexists. exists credentials.
  split; [reflexivity |]. simpl.
  split; [| now repeat split].
  destruct (Str.startswith (Str.lower stored) "https://") eqn:Hprefix;
    [exact Hprefix | apply prefix_https].
Qed.

End ConstructedReader.



Lemma constructed_reader_invariant_witness :
  exists w s e n,
    bbox (example_reader PNone level_properties) = PTuple [w; s; e; n]
    /\ valid_bbox w s e n.
Proof.
  exact (proj1 (proj2 (proj2
    (constructed_reader_invariant no_bracketed_host example_credentials
       example_region example_items (PList [PStr "B02"]) example_bbox PNone
       level_properties (example_reader PNone level_properties) eq_refl)))).
Defined.

Lemma constructed_reader_polygon_witness :
  get_polygon (example_reader PNone PNone)
  = OK (mkPolygon [[PInt 0; PInt 0]; [PInt 0; PInt 10];
                   [PInt 10; PInt 10]; [PInt 10; PInt 0]]).
Proof.
  destruct (constructed_reader_polygon no_bracketed_host example_credentials
              example_region example_items (PList [PStr "B02"]) example_bbox
              PNone PNone (example_reader PNone PNone) eq_refl)
    as (w & s & e & n & Hbox & _ & _ & Hpoly).
  injection Hbox as <- <- <- <-. exact Hpoly.
Defined.

Lemma constructed_reader_datetimes_witness :
  (exists aware t0,
      start_datetime
        (example_reader (PTuple [PDatetime true 1600000000; PNone]) PNone)
      = OK (PDatetime aware t0))
  /\ start_datetime (example_reader PNone PNone) = Raise TypeError
  /\ fails (start_datetime (example_reader (PTuple []) PNone)).
Proof.
  split; [| split].
  - destruct (proj1 (constructed_reader_datetimes no_bracketed_host
                       example_credentials example_region example_items
                       (PList [PStr "B02"]) example_bbox
                       (PTuple [PDatetime true 1600000000; PNone]) PNone
                       (example_reader
                          (PTuple [PDatetime true 1600000000; PNone]) PNone)
                       eq_refl) 2 eq_refl)
      as (aware & t0 & Hstart & _); [lia |].
    now exists aware, t0.
  - exact (proj1 (proj1 (proj2 (constructed_reader_datetimes
             no_bracketed_host example_credentials example_region
             example_items (PList [PStr "B02"]) example_bbox PNone PNone
             (example_reader PNone PNone) eq_refl)) eq_refl)).
  - exact (proj1 (proj2 (proj2 (constructed_reader_datetimes
             no_bracketed_host example_credentials example_region
             example_items (PList [PStr "B02"]) example_bbox (PTuple []) PNone
             (example_reader (PTuple []) PNone) eq_refl)) eq_refl)).
Defined.

Lemma constructed_reader_filesystem_witness :
  exists fs,
    create_s3filesystem (example_reader PNone PNone) = OK fs
    /\ Str.startswith (endpoint_url fs) "https://" = true
    /\ key fs = PStr "AKIDEXAMPLE".
Proof.
  destruct (constructed_reader_filesystem no_bracketed_host
              example_credentials example_region example_items
              (PList [PStr "B02"]) example_bbox PNone PNone
              (example_reader PNone PNone) eq_refl)
    as (fs & credentials & Hfs & Hurl & _ & Hcred & Hkey & _).
  exists fs. split; [exact Hfs |]. split; [exact Hurl |].
  injection Hcred as <-. now injection Hkey as <-.
Defined.

(** ** Property filters: selection, last binding, failures *)

Lemma properties_loop_app {S : Type}
  (apply : string -> S -> pyval -> result S) (pre rest : dict) (st : S) :
  properties_loop apply (pre ++ rest)%list st
  = (st' <- properties_loop apply pre st ;; properties_loop apply rest st').
Proof.
  revert st. induction pre as [| [k v] pre IH]; intros st; [reflexivity |].
  simpl.
  match goal with
  | |- bind ?c _ = bind (bind ?c _) _ => destruct c; simpl; [apply IH |]
  end.
  reflexivity.
Qed.

Section Selection.

Variable Dataset : Type.
Variable sel : Dataset -> string -> pyval -> result Dataset.

Let select (dimension_name : string) (dataset : Dataset) (value : pyval) :=
  sel dataset dimension_name value.

Lemma sel_all_app (l1 l2 : list (string * pyval)) (dataset : Dataset) :
  sel_all sel (l1 ++ l2)%list dataset
  = (dataset' <- sel_all sel l1 dataset ;; sel_all sel l2 dataset').
Proof.
  revert dataset. induction l1 as [| [k v] l1 IH]; intros dataset;
    [reflexivity |].
  simpl. destruct (sel dataset k v); simpl; [apply IH | reflexivity].
Qed.

Lemma nodes_loop_select (dimension_name : string) (nodes : list pyval)
  (dataset : Dataset) :
  forallb wf_node nodes = true ->
  nodes_loop (select dimension_name) nodes dataset
  = sel_all sel (flat_map (node_bindings dimension_name) nodes) dataset.
Proof.
  revert dataset. induction nodes as [| node nodes IH]; intros dataset Hwf;
    [reflexivity |].
  simpl in Hwf. apply andb_true_iff in Hwf as [Hn Hwf].
  simpl. rewrite (node_filter_wf _ Hn). simpl. rewrite sel_all_app.
  unfold node_bindings at 1.
  destruct (is_eq_process (field "process_id" node)); simpl.
  - unfold select at 1.
    destruct (sel dataset dimension_name (node_value node)); simpl;
      [now apply IH | reflexivity].
  - now apply IH.
Qed.

Lemma properties_loop_select (props : dict) (dataset : Dataset) :
  forallb wf_property props = true ->
  properties_loop select props dataset = sel_all sel (bindings props) dataset.
Proof.
  revert dataset. induction props as [| [key value] props IH];
    intros dataset Hwf; [reflexivity |].
  simpl in Hwf. apply andb_true_iff in Hwf as [Hp Hwf].
  unfold bindings. simpl flat_map. rewrite sel_all_app. fold (bindings props).
  unfold wf_property, property_bindings in *. simpl fst in *. simpl snd in *.
  simpl properties_loop.
  destruct (Str.startswith key "cube:dimensions").
  - apply andb_true_iff in Hp as [Hp Hnodes].
    apply andb_true_iff in Hp as [Hp Hdict].
    apply andb_true_iff in Hp as [Hlen Hpg].
    rewrite (dimension_name_of_second _ Hlen). simpl.
    rewrite (has_getitem _ _ Hpg). simpl. rewrite Hdict.
    unfold graph_nodes in *.
    destruct (field "process_graph" value) as [| | | | | | | nodes | |];
      try discriminate.
    simpl values_of. simpl bind at 2.
    rewrite (nodes_loop_select (second_segment key) _ dataset Hnodes).
    destruct (sel_all sel
                (flat_map (node_bindings (second_segment key))
                   (Dict.values nodes)) dataset); simpl;
      [now apply IH | reflexivity].
  - simpl. now apply IH.
Qed.

(** On well-formed properties [_filter_by_extra_dimensions] selects on the
    dataset once for every binding, in the order of the properties and of
    their nodes: a dimension bound twice is selected twice, and the first
    selection that raises ends the call. *)
Theorem filter_selects_every_binding (self : CloudStorageFileReader)
  (props : dict) (dataset : Dataset) :
  properties self = PDict props ->
  forallb wf_property props = true ->
  _filter_by_extra_dimensions Dataset sel self dataset
  = sel_all sel (bindings props) dataset.
Proof.
  intros Hprops Hwf. unfold _filter_by_extra_dimensions. rewrite Hprops.
  now apply properties_loop_select.
Qed.

End Selection.

Section SameOutcome.

Variables S T : Type.
Variable f : string -> S -> pyval -> result S.
Variable g : string -> T -> pyval -> result T.
Hypothesis f_total : forall k s v, succeeds (f k s v).
Hypothesis g_total : forall k t v, succeeds (g k t v).

Lemma nodes_loop_same_outcome (k : string) (nodes : list pyval) (s : S)
  (t : T) :
  same_outcome (nodes_loop (f k) nodes s) (nodes_loop (g k) nodes t).
Proof.
  revert s t. induction nodes as [| node nodes IH]; intros s t; [exact I |].
  simpl. destruct (node_filter node) as [[process_id value] |]; simpl;
    [| reflexivity].
  destruct (is_eq_process process_id); simpl; [| apply IH].
  destruct (f_total k s value) as [s' ->].
  destruct (g_total k t value) as [t' ->]. simpl. apply IH.
Qed.

Lemma properties_loop_same_outcome (props : dict) (s : S) (t : T) :
  same_outcome (properties_loop f props s) (properties_loop g props t).
Proof.
  revert s t. induction props as [| [key value] props IH]; intros s t;
    [exact I |].
  simpl. destruct (Str.startswith key "cube:dimensions"); simpl;
    [| apply IH].
  destruct (dimension_name_of key) as [name |]; simpl; [| reflexivity].
  destruct (getitem_str value "process_graph") as [pg |]; simpl;
    [| reflexivity].
  destruct (is_dict pg); simpl; [| reflexivity].
  destruct (values_of pg) as [nodes |]; simpl; [| reflexivity].
  pose proof (nodes_loop_same_outcome name nodes s t) as Hnodes.
  destruct (nodes_loop (f name) nodes s) as [s' |],
           (nodes_loop (g name) nodes t) as [t' |]; simpl in *;
    try contradiction.
  - apply IH.
  - exact Hnodes.
Qed.

End SameOutcome.

(** When the selection on the dataset never raises, the two methods fail
    alike: [_filter_by_extra_dimensions] raises exactly when
    [get_extra_dimensions_filter] raises, and the same exception. *)
Theorem filter_fails_like_extra_dimensions (Dataset : Type)
  (sel : Dataset -> string -> pyval -> result Dataset)
  (self : CloudStorageFileReader) (dataset : Dataset) :
  (forall d k v, succeeds (sel d k v)) ->
  same_outcome (get_extra_dimensions_filter self)
    (_filter_by_extra_dimensions Dataset sel self dataset).
Proof.
  intros Htotal.
  unfold get_extra_dimensions_filter, _filter_by_extra_dimensions.
  destruct (properties self); try exact I.
  apply properties_loop_same_outcome.
  - intros k s v. eexists; reflexivity.
  - intros k t v. apply Htotal.
Qed.

Lemma filter_fails_like_extra_dimensions_witness :
  same_outcome
    (get_extra_dimensions_filter
       (example_reader PNone
          (PDict [("cube:dimensions.level", PDict [("values", PInt 100)])])))
    (_filter_by_extra_dimensions nat (fun d _ _ => OK d)
       (example_reader PNone
          (PDict [("cube:dimensions.level", PDict [("values", PInt 100)])]))
       7%nat)
  /\ get_extra_dimensions_filter
       (example_reader PNone
          (PDict [("cube:dimensions.level", PDict [("values", PInt 100)])]))
     = Raise KeyError.
Proof.
  split; [| reflexivity].
  apply (filter_fails_like_extra_dimensions nat (fun d _ _ => OK d)).
  intros d k v. eexists; reflexivity.
Defined.

Lemma filter_selects_every_binding_witness :
  _filter_by_extra_dimensions (list (string * pyval))
    (fun d k v => OK ((k, v) :: d))
    (example_reader PNone level_properties) []
  = OK [("level", PInt 100)].
Proof.
  rewrite (filter_selects_every_binding (list (string * pyval))
             (fun d k v => OK ((k, v) :: d))
             (example_reader PNone level_properties) _ [] eq_refl eq_refl).
  reflexivity.
Defined.

Lemma get_set_eq (d : dict) (k : string) (v : pyval) :
  Dict.get (Dict.set d k v) k = v.
Proof.
  induction d as [| [k' v'] d IH]; simpl.
  - now rewrite String.eqb_refl.
  - destruct (String.eqb k' k) eqn:Hk; simpl; now rewrite Hk.
Qed.

Lemma get_set_neq (d : dict) (k k' : string) (v : pyval) :
  String.eqb k k' = false ->
  Dict.get (Dict.set d k v) k' = Dict.get d k'.
Proof.
  intros Hne. induction d as [| [k0 v0] d IH]; simpl.
  - now rewrite Hne.
  - destruct (String.eqb k0 k) eqn:Hk; simpl.
    + apply String.eqb_eq in Hk. subst k0. now rewrite Hne.
    + now rewrite IH.
Qed.

Lemma keys_set (d : dict) (k k' : string) (v : pyval) :
  In k' (map fst (Dict.set d k v)) <-> k' = k \/ In k' (map fst d).
Proof.
  induction d as [| [k0 v0] d IH]; simpl.
  - intuition.
  - destruct (String.eqb k0 k) eqn:Hk; simpl.
    + apply String.eqb_eq in Hk. subst k0. intuition.
    + rewrite IH. intuition.
Qed.

Lemma nodup_set (d : dict) (k : string) (v : pyval) :
  NoDup (map fst d) -> NoDup (map fst (Dict.set d k v)).
Proof.
  induction d as [| [k0 v0] d IH]; simpl; intros Hnd.
  - constructor; [intros [] | constructor].
  - inversion Hnd as [| ? ? Hnotin Hnd']; subst.
    destruct (String.eqb k0 k) eqn:Hk; simpl.
    + now constructor.
    + constructor; [| now apply IH].
      rewrite keys_set. intros [-> | Hin]; [| contradiction].
      now rewrite String.eqb_refl in Hk.
Qed.

Lemma record_all_get (bs : list (string * pyval)) (d : dict) (dim : string) :
  Dict.get (record_all bs d) dim
  = fold_left (fun acc kv =>
                 if String.eqb (fst kv) dim then snd kv else acc)
              bs (Dict.get d dim).
Proof.
  revert d. induction bs as [| [k v] bs IH]; intros d; [reflexivity |].
  simpl. rewrite IH. f_equal.
  destruct (String.eqb k dim) eqn:Hk.
  - apply String.eqb_eq in Hk. subst k. apply get_set_eq.
  - now apply get_set_neq.
Qed.

Lemma record_all_nodup (bs : list (string * pyval)) (d : dict) :
  NoDup (map fst d) -> NoDup (map fst (record_all bs d)).
Proof.
  revert d. induction bs as [| [k v] bs IH]; intros d Hnd; [exact Hnd |].
  simpl. apply IH. now apply nodup_set.
Qed.

Lemma record_all_keys (bs : list (string * pyval)) (d : dict) (dim : string) :
  In dim (map fst (record_all bs d))
  <-> In dim (map fst bs) \/ In dim (map fst d).
Proof.
  revert d. induction bs as [| [k v] bs IH]; intros d; simpl.
  - intuition.
  - rewrite IH, keys_set. intuition.
Qed.

(** On well-formed properties the filter that
    [get_extra_dimensions_filter] returns has one entry per bound
    dimension, no dimension twice, and gives each dimension the value of
    its last binding in the order of the properties and of their nodes. *)
Theorem extra_dimensions_filter_last_binding (self : CloudStorageFileReader)
  (props : dict) :
  properties self = PDict props ->
  forallb wf_property props = true ->
  exists extra_dim_filter,
    get_extra_dimensions_filter self = OK extra_dim_filter
    /\ NoDup (map fst extra_dim_filter)
    /\ (forall dim,
           In dim (map fst extra_dim_filter)
           <-> In dim (map fst (bindings props)))
    /\ (forall dim,
           Dict.get extra_dim_filter dim = last_binding dim (bindings props)).
Proof.
  intros Hprops Hwf. exists (record_all (bindings props) []).
  split; [| split; [| split]].
  - unfold get_extra_dimensions_filter. rewrite Hprops.
    now apply properties_loop_record.
  - apply record_all_nodup. constructor.
  - intros dim. rewrite record_all_keys. simpl. intuition.
  - intros dim. apply record_all_get.
Qed.

Lemma extra_dimensions_filter_last_binding_witness :
  get_extra_dimensions_filter (example_reader PNone level_twice)
  = OK [("level", PInt 200)]
  /\ last_binding "level"
       (bindings
          [("cube:dimensions.level.values",
            PDict [("process_graph",
                    PDict [("eq1",
                            PDict [("process_id", PStr "eq");
                                   ("arguments",
                                    PDict [("x", PParamRef "value");
                                           ("y", PInt 100)])]);
                           ("gt1",
                            PDict [("process_id", PStr "gt");
                                   ("arguments",
                                    PDict [("x", PParamRef "value");
                                           ("y", PInt 150)])]);
                           ("eq2",
                            PDict [("process_id", PStr "=");
                                   ("arguments",
                                    PDict [("x", PInt 200);
                                           ("y", PParamRef "value")])])])]);
           ("eo:cloud_cover", PInt 5)])
     = PInt 200.
Proof.
  destruct (extra_dimensions_filter_last_binding
              (example_reader PNone level_twice) _ eq_refl eq_refl)
    as (d & Hd & _ & _ & Hlast).
  split; [reflexivity |].
  rewrite <- (Hlast "level").
  assert (d = [("level", PInt 200)]) as -> by (now injection Hd as <-).
  reflexivity.
Defined.

Lemma split_without_separator (c : ascii) (s : string) :
  Str.contains c s = false -> Str.split c s = [s].
Proof.
  induction s as [| a s IH]; [reflexivity |].
  simpl. intros H. apply orb_false_iff in H as [Ha Hs].
  now rewrite Ha, IH.
Qed.

Lemma dimension_name_of_undotted (key : string) :
  Str.contains "." key = false ->
  dimension_name_of key = Raise AssertionError.
Proof.
  intros H. unfold dimension_name_of.
  now rewrite (split_without_separator "." key H).
Qed.

(** A property whose key starts with [cube:dimensions] and contains no
    dot, such as [cube:dimensions] itself, makes
    [get_extra_dimensions_filter] raise [AssertionError] whatever its
    value is, and [_filter_by_extra_dimensions] too once the selections of
    the properties before it went through. *)
Theorem undotted_dimension_key_rejected (Dataset : Type)
  (sel : Dataset -> string -> pyval -> result Dataset)
  (self : CloudStorageFileReader) (pre post : dict) (key : string)
  (value : pyval) :
  properties self = PDict (pre ++ (key, value) :: post)%list ->
  forallb wf_property pre = true ->
  Str.startswith key "cube:dimensions" = true ->
  Str.contains "." key = false ->
  get_extra_dimensions_filter self = Raise AssertionError
  /\ (forall dataset,
         succeeds (sel_all sel (bindings pre) dataset) ->
         _filter_by_extra_dimensions Dataset sel self dataset
         = Raise AssertionError).
Proof.
  intros Hprops Hwf Hprefix Hdot.
  unfold get_extra_dimensions_filter, _filter_by_extra_dimensions.
  rewrite Hprops. split.
  - rewrite properties_loop_app, (properties_loop_record pre [] Hwf).
    simpl. now rewrite Hprefix, (dimension_name_of_undotted key Hdot).
  - intros dataset [dataset' Hsel].
    rewrite properties_loop_app.
    rewrite (properties_loop_select Dataset sel pre dataset Hwf), Hsel.
    simpl. now rewrite Hprefix, (dimension_name_of_undotted key Hdot).
Qed.

Lemma undotted_dimension_key_rejected_witness :
  get_extra_dimensions_filter
    (example_reader PNone
       (PDict [("eo:cloud_cover", PInt 5);
               ("cube:dimensions", PDict [("process_graph", PDict [])])]))
  = Raise AssertionError.
Proof.
  apply (undotted_dimension_key_rejected nat (fun d _ _ => OK d)
           (example_reader PNone
              (PDict [("eo:cloud_cover", PInt 5);
                      ("cube:dimensions",
                       PDict [("process_graph", PDict [])])]))
           [("eo:cloud_cover", PInt 5)] [] "cube:dimensions"
           (PDict [("process_graph", PDict [])]));
    reflexivity.
Defined.

(** ** URLs: what the bucket and the object are made of *)

Lemma index_zero_cons (c : ascii) (s : string) :
  String.index 0 "/" (String c s)
  = if Ascii.eqb c "/" then Some O
    else option_map S (String.index 0 "/" s).
Proof.
  change (String.index 0 "/" (String c s))
    with (if String.prefix "/" (String c s) then Some O
          else match String.index 0 "/" s with
               | Some n => Some (S n)
               | None => None
               end).
  rewrite prefix_slash.
  destruct (Ascii.eqb c "/"); [reflexivity |].
  now destruct (String.index 0 "/" s).
Qed.

(** Where the first slash is found, the text splits into a slash-free
    segment, the slash and the rest. *)
Lemma index_slash_split (s : string) (i : nat) :
  String.index 0 "/" s = Some i ->
  exists b rest,
    s = b ++ String "/" rest /\ Str.contains "/" b = false
    /\ String.length b = i.
Proof.
  revert i. induction s as [| c s IH]; intros i; [discriminate |].
  rewrite index_zero_cons. destruct (Ascii.eqb c "/") eqn:Hc.
  - intros [= <-]. apply Ascii.eqb_eq in Hc. subst c.
    now exists EmptyString, s.
  - destruct (String.index 0 "/" s) as [j |]; [| discriminate].
    intros [= <-]. destruct (IH j eq_refl) as (b & rest & -> & Hb & Hlen).
    exists (String c b), rest. simpl. rewrite Hc, Hb, Hlen. now repeat split.
Qed.

(** The shape of a path in which [find("/", 1)] finds a slash. *)
Lemma path_with_slash (path : string) :
  1 <= Str.find path "/" 1 ->
  exists c b rest,
    path = String c (b ++ String "/" rest)
    /\ Str.contains "/" b = false
    /\ Str.find path "/" 1 = Z.of_nat (S (String.length b)).
Proof.
  unfold Str.find. change (Z.to_nat 1) with 1%nat.
  destruct path as [| c t]; [simpl; lia |].
  rewrite index_succ.
  destruct (String.index 0 "/" t) as [j |] eqn:Hj; [| simpl; lia].
  intros _. destruct (index_slash_split t j Hj) as (b & rest & -> & Hb & <-).
  exists c, b, rest. now repeat split.
Qed.

Section BucketFacts.

Variable bracketed_host_ok : string -> bool.

Let urlparse := Urllib.urlparse bracketed_host_ok.
Let extract_bucket := _extract_bucket_name_from_url bracketed_host_ok.
Let get_object := _get_object bracketed_host_ok.

(** On the path branch a bucket is the slash-free, non-empty segment that
    follows the first character of the path. *)
Lemma extract_bucket_path_inv (url : string) (p : Urllib.ParseResult)
  (b : string) :
  urlparse url = OK p ->
  Urllib.scheme p <> "s3" \/ Urllib.hostname p = None ->
  extract_bucket url = OK b ->
  exists c rest,
    Urllib.path p = String c (b ++ String "/" rest)
    /\ Str.contains "/" b = false /\ b <> EmptyString.
Proof.
  intros H Hbranch.
  unfold extract_bucket.
  rewrite (extract_bucket_path_branch bracketed_host_ok url p H Hbranch).
  destruct (Str.find (Urllib.path p) "/" 1 >? 1) eqn:Hgt; [| discriminate].
  apply Z.gtb_lt in Hgt.
  destruct (path_with_slash (Urllib.path p)) as (c & seg & rest & Hpath & Hseg
                                                 & Hfind); [lia |].
  rewrite Hfind. rewrite Hpath at 1. rewrite slice_segment.
  intros [= <-]. exists c, rest. repeat split; try assumption.
  intros ->. rewrite Hfind in Hgt. simpl in Hgt. lia.
Qed.

(** Where the bucket comes from the path and both functions return,
    bucket and object partition the path: its first character, the
    bucket, a slash, the object. *)
Theorem bucket_and_object_partition_path (url : string)
  (p : Urllib.ParseResult) (b o : string) :
  urlparse url = OK p ->
  Urllib.scheme p <> "s3" \/ Urllib.hostname p = None ->
  extract_bucket url = OK b ->
  get_object url = OK o ->
  exists c, Urllib.path p = String c (b ++ "/" ++ o).
Proof.
  intros H Hbranch Hb Ho.
  destruct (extract_bucket_path_inv url p b H Hbranch Hb)
    as (c & rest & Hpath & Hseg & _).
  exists c. rewrite Hpath. do 2 f_equal.
  unfold get_object in Ho.
  rewrite (get_object_segment bracketed_host_ok url p c b rest H Hpath Hseg)
    in Ho.
  now injection Ho as <-.
Qed.

End BucketFacts.

Lemma bucket_and_object_partition_path_witness :
  exists c,
    "/bucket2/path/obj.tif" = String c ("bucket2" ++ "/" ++ "path/obj.tif").
Proof.
  apply (bucket_and_object_partition_path no_bracketed_host
           "https://host/bucket2/path/obj.tif?versionId=3"
           (Urllib.mkParseResult "https" "host" "/bucket2/path/obj.tif"
              EmptyString "versionId=3" EmptyString)
           "bucket2" "path/obj.tif");
    [reflexivity | left; discriminate | reflexivity | reflexivity].
Defined.

(** ** URLs: the bucket is a name *)

Lemma contains_append (c : ascii) (a b : string) :
  Str.contains c (a ++ b) = Str.contains c a || Str.contains c b.
Proof.
  induction a as [| x a IH]; simpl; [reflexivity |].
  now rewrite IH, orb_assoc.
Qed.

Lemma lower_char_slash (c : ascii) :
  Ascii.eqb (Str.lower_char c) "/" = Ascii.eqb c "/".
Proof. destruct c as [[] [] [] [] [] [] [] []]; vm_compute; reflexivity. Qed.

Lemma contains_slash_lower (s : string) :
  Str.contains "/" (Str.lower s) = Str.contains "/" s.
Proof.
  induction s as [| c s IH]; simpl; [reflexivity |].
  now rewrite lower_char_slash, IH.
Qed.

Lemma partition_parts (d : ascii) (s a b : string) (f : bool) :
  Str.partition d s = (a, f, b) ->
  s = a ++ (if f then String d EmptyString else EmptyString) ++ b.
Proof.
  revert a. induction s as [| x s IH]; intros a; simpl.
  - now intros [= <- <- <-].
  - destruct (Ascii.eqb x d) eqn:Hx.
    + apply Ascii.eqb_eq in Hx. subst x. now intros [= <- <- <-].
    + destruct (Str.partition d s) as [[a' f'] b'].
      intros [= <- <- <-]. simpl. f_equal. now apply IH.
Qed.

Lemma partition_free (c d : ascii) (s a b : string) (f : bool) :
  Str.partition d s = (a, f, b) ->
  Str.contains c s = false ->
  Str.contains c a = false /\ Str.contains c b = false.
Proof.
  intros Hp Hs. rewrite (partition_parts d s a b f Hp) in Hs.
  rewrite !contains_append in Hs.
  apply orb_false_iff in Hs as [Ha Hs]. apply orb_false_iff in Hs as [_ Hb].
  now split.
Qed.

Lemma after_last_free (c d : ascii) (s : string) :
  Str.contains c s = false -> Str.contains c (Str.after_last d s) = false.
Proof.
  induction s as [| x s IH]; [reflexivity |].
  intros H. pose proof H as H'. simpl in H'.
  apply orb_false_iff in H' as [Hx Hs]. simpl Str.after_last.
  destruct (Str.contains d s); [now apply IH |].
  destruct (Ascii.eqb x d); assumption.
Qed.

Lemma span_until_free (p : ascii -> bool) (c : ascii) (s a b : string) :
  p c = true ->
  Str.span_until p s = (a, b) -> Str.contains c a = false.
Proof.
  intros Hc. revert a. induction s as [| x s IH]; intros a; simpl.
  - now intros [= <- <-].
  - destruct (p x) eqn:Hx; [now intros [= <- <-] |].
    destruct (Str.span_until p s) as [a' b'].
    intros [= <- <-]. simpl. rewrite (IH a' eq_refl), orb_false_r.
    apply Ascii.eqb_neq. intros ->. congruence.
Qed.

Lemma lower_not_empty (s : string) :
  s <> EmptyString -> Str.lower s <> EmptyString.
Proof. destruct s; [now intros H | discriminate]. Qed.

(** A hostname is never empty and holds no slash when the network
    location holds none. *)
Lemma hostname_is_a_name (p : Urllib.ParseResult) (h : string) :
  Str.contains "/" (Urllib.netloc p) = false ->
  Urllib.hostname p = Some h ->
  h <> EmptyString /\ Str.contains "/" h = false.
Proof.
  intros Hnet. unfold Urllib.hostname.
  pose proof (after_last_free "/" "@" _ Hnet) as Hinfo.
  set (hostinfo := Str.after_last "@" (Urllib.netloc p)) in *.
  destruct (Str.partition "[" hostinfo) as [[before have_open_br] bracketed]
    eqn:Hbr.
  destruct (partition_free "/" "[" _ _ _ _ Hbr Hinfo) as [_ Hbracketed].
  set (hostname :=
         if have_open_br then fst (fst (Str.partition "]" bracketed))
         else fst (fst (Str.partition ":" hostinfo))).
  assert (Str.contains "/" hostname = false) as Hhost.
  { unfold hostname. destruct have_open_br.
    - destruct (Str.partition "]" bracketed) as [[a f] b] eqn:Hp.
      now destruct (partition_free "/" "]" _ _ _ _ Hp Hbracketed).
    - destruct (Str.partition ":" hostinfo) as [[a f] b] eqn:Hp.
      now destruct (partition_free "/" ":" _ _ _ _ Hp Hinfo). }
  destruct (String.eqb hostname EmptyString) eqn:Hempty; [discriminate |].
  apply String.eqb_neq in Hempty.
  destruct (Str.partition "%" hostname) as [[host percent] zone] eqn:Hz.
  destruct (partition_free "/" "%" _ _ _ _ Hz Hhost) as [Hh Hzone].
  intros [= <-]. split.
  - pose proof (partition_parts "%" _ _ _ _ Hz) as Hparts.
    destruct host; [| discriminate].
    destruct percent; [discriminate |].
    simpl in *. destruct zone; [now elim Hempty | discriminate].
  - rewrite !contains_append, contains_slash_lower, Hh, Hzone.
    now destruct percent.
Qed.

Section BucketName.

Variable bracketed_host_ok : string -> bool.

Lemma split_netloc_free (u n rest : string) :
  Urllib.split_netloc bracketed_host_ok u = OK (n, rest) ->
  Str.contains "/" n = false.
Proof.
  unfold Urllib.split_netloc.
  destruct (Str.startswith u "//"); [| now intros [= <- <-]].
  destruct (Str.span_until Urllib.is_netloc_delim (Str.drop 2 u))
    as [a b] eqn:Hspan.
  pose proof (span_until_free Urllib.is_netloc_delim "/" _ _ _ eq_refl Hspan)
    as Hfree.
  match goal with |- context [if ?c then _ else _] => destruct c end;
    [discriminate |].
  match goal with |- bind ?c _ = _ -> _ => destruct c end; simpl;
    [| discriminate].
  now intros [= <- <-].
Qed.

(** What [urlparse] reports, from the two steps that can be followed on
    a URL given by its shape. *)
Lemma urlparse_from_parts (url sch u n rest : string) :
  Urllib.split_scheme (cleaned url) = (sch, u) ->
  Urllib.split_netloc bracketed_host_ok u = OK (n, rest) ->
  exists p,
    Urllib.urlparse bracketed_host_ok url = OK p
    /\ Urllib.scheme p = sch /\ Urllib.netloc p = n
    /\ Urllib.path p = path_of sch rest.
Proof.
  intros Hscheme Hnetloc.
  unfold Urllib.urlparse, Urllib.urlsplit, path_of. fold (cleaned url).
  rewrite Hscheme, Hnetloc. cbv beta iota delta [bind].
  destruct (Str.partition "#" rest) as [[u1 f1] fr].
  destruct (Str.partition "?" u1) as [[u2 f2] q].
  cbv beta iota delta [bind].
  destruct (Urllib.in_list sch Urllib.uses_params && Str.contains ";" u2);
    [destruct (Urllib._splitparams u2) |]; eexists; now repeat split.
Qed.

Lemma urlparse_netloc_free (url : string) (p : Urllib.ParseResult) :
  Urllib.urlparse bracketed_host_ok url = OK p ->
  Str.contains "/" (Urllib.netloc p) = false.
Proof.
  unfold Urllib.urlparse, Urllib.urlsplit. fold (cleaned url).
  destruct (Urllib.split_scheme (cleaned url)) as [sch u].
  destruct (Urllib.split_netloc bracketed_host_ok u) as [[n r] |] eqn:Hn;
    cbv beta iota delta [bind]; [| discriminate].
  apply split_netloc_free in Hn.
  destruct (Str.partition "#" r) as [[u1 f1] fr].
  destruct (Str.partition "?" u1) as [[u2 f2] q].
  cbv beta iota delta [bind].
  destruct (Urllib.in_list sch Urllib.uses_params && Str.contains ";" u2);
    [destruct (Urllib._splitparams u2) |]; intros [= ?]; now subst p.
Qed.

(** Whatever the URL, a bucket that [_extract_bucket_name_from_url]
    returns is not empty and holds no slash. *)
Theorem bucket_is_a_name (url b : string) :
  _extract_bucket_name_from_url bracketed_host_ok url = OK b ->
  b <> EmptyString /\ Str.contains "/" b = false.
Proof.
  intros Hb.
  destruct (Urllib.urlparse bracketed_host_ok url) as [p |] eqn:H.
  - destruct (String.eqb (Urllib.scheme p) "s3") eqn:Hs3.
    + destruct (Urllib.hostname p) as [h |] eqn:Hh.
      * rewrite (extract_bucket_parsed bracketed_host_ok url p H), Hs3, Hh
          in Hb.
        injection Hb as <-.
        exact (hostname_is_a_name p h (urlparse_netloc_free url p H) Hh).
      * destruct (extract_bucket_path_inv bracketed_host_ok url p b H
                    (or_intror Hh) Hb) as (c & rest & _ & Hfree & Hne).
        now split.
    + apply String.eqb_neq in Hs3.
      destruct (extract_bucket_path_inv bracketed_host_ok url p b H
                  (or_introl Hs3) Hb) as (c & rest & _ & Hfree & Hne).
      now split.
  - unfold _extract_bucket_name_from_url in Hb. rewrite H in Hb.
    discriminate Hb.
Qed.

End BucketName.

Lemma bucket_is_a_name_witness :
  _extract_bucket_name_from_url no_bracketed_host "s3://Bucket1/path/to/obj"
  = OK "bucket1"
  /\ "bucket1" <> EmptyString /\ Str.contains "/" "bucket1" = false.
Proof.
  split; [reflexivity |].
  exact (bucket_is_a_name no_bracketed_host "s3://Bucket1/path/to/obj"
           "bucket1" eq_refl).
Defined.

(** ** URLs given by their shape *)

Lemma bucket_char_facts (c : ascii) :
  is_bucket_char c = true ->
  is_host_char c = true /\ Ascii.eqb c "@" = false
  /\ Ascii.eqb c ":" = false /\ Ascii.eqb c "%" = false
  /\ Str.lower_char c = c.
Proof.
  destruct c as [[] [] [] [] [] [] [] []]; vm_compute;
    intros H; try discriminate H; repeat split.
Qed.

Lemma host_char_facts (c : ascii) :
  is_host_char c = true ->
  Urllib.is_unsafe c = false /\ Urllib.is_netloc_delim c = false
  /\ Ascii.eqb c "[" = false /\ Ascii.eqb c "]" = false.
Proof.
  destruct c as [[] [] [] [] [] [] [] []]; vm_compute;
    intros H; try discriminate H; repeat split.
Qed.

Lemma key_char_facts (c : ascii) :
  is_key_char c = true ->
  Urllib.is_unsafe c = false /\ Ascii.eqb c "#" = false
  /\ Ascii.eqb c "?" = false.
Proof.
  destruct c as [[] [] [] [] [] [] [] []]; vm_compute;
    intros H; try discriminate H; repeat split.
Qed.

Lemma plain_char_facts (c : ascii) :
  is_plain_char c = true ->
  is_key_char c = true /\ Ascii.eqb c ";" = false.
Proof.
  unfold is_plain_char. intros H. apply andb_true_iff in H as [Hk Hs].
  split; [exact Hk |]. now destruct (Ascii.eqb c ";").
Qed.

Lemma segment_char_facts (c : ascii) :
  is_segment_char c = true ->
  is_plain_char c = true /\ Ascii.eqb c "/" = false.
Proof.
  unfold is_segment_char. intros H. apply andb_true_iff in H as [Hk Hs].
  split; [exact Hk |]. now destruct (Ascii.eqb c "/").
Qed.

Lemma forallb_weaken (q q' : ascii -> bool) (s : string) :
  (forall c, q c = true -> q' c = true) ->
  Str.forallb q s = true -> Str.forallb q' s = true.
Proof.
  intros Hq. induction s as [| c s IH]; [reflexivity |].
  simpl. intros H. apply andb_true_iff in H as [Hc Hs].
  now rewrite (Hq c Hc), IH.
Qed.

Lemma forallb_append (q : ascii -> bool) (a b : string) :
  Str.forallb q (a ++ b) = Str.forallb q a && Str.forallb q b.
Proof.
  induction a as [| c a IH]; simpl; [reflexivity |].
  now rewrite IH, andb_assoc.
Qed.

Lemma forallb_free (q : ascii -> bool) (d : ascii) (s : string) :
  (forall c, q c = true -> Ascii.eqb c d = false) ->
  Str.forallb q s = true -> Str.contains d s = false.
Proof.
  intros Hq. induction s as [| c s IH]; [reflexivity |].
  simpl. intros H. apply andb_true_iff in H as [Hc Hs].
  now rewrite (Hq c Hc), IH.
Qed.

Lemma remove_unchanged (q p : ascii -> bool) (s : string) :
  (forall c, q c = true -> p c = false) ->
  Str.forallb q s = true -> Str.remove p s = s.
Proof.
  intros Hq. induction s as [| c s IH]; [reflexivity |].
  simpl. intros H. apply andb_true_iff in H as [Hc Hs].
  now rewrite (Hq c Hc), IH.
Qed.

Lemma remove_append (p : ascii -> bool) (a b : string) :
  Str.remove p (a ++ b) = Str.remove p a ++ Str.remove p b.
Proof.
  induction a as [| c a IH]; simpl; [reflexivity |].
  destruct (p c); simpl; now rewrite IH.
Qed.

Lemma lower_unchanged (q : ascii -> bool) (s : string) :
  (forall c, q c = true -> Str.lower_char c = c) ->
  Str.forallb q s = true -> Str.lower s = s.
Proof.
  intros Hq. induction s as [| c s IH]; [reflexivity |].
  simpl. intros H. apply andb_true_iff in H as [Hc Hs].
  now rewrite (Hq c Hc), IH.
Qed.

Lemma partition_absent (d : ascii) (s : string) :
  Str.contains d s = false -> Str.partition d s = (s, false, EmptyString).
Proof.
  induction s as [| c s IH]; [reflexivity |].
  simpl. intros H. apply orb_false_iff in H as [Hc Hs].
  now rewrite Hc, (IH Hs).
Qed.

Lemma after_last_absent (d : ascii) (s : string) :
  Str.contains d s = false -> Str.after_last d s = s.
Proof.
  destruct s as [| c s]; [reflexivity |].
  simpl. intros H. apply orb_false_iff in H as [Hc Hs].
  now rewrite Hs, Hc.
Qed.

Lemma span_until_segment (p : ascii -> bool) (a : string) (d : ascii)
  (rest : string) :
  Str.forallb (fun c => negb (p c)) a = true ->
  p d = true ->
  Str.span_until p (a ++ String d rest) = (a, String d rest).
Proof.
  intros Ha Hd. induction a as [| c a IH]; simpl.
  - now rewrite Hd.
  - simpl in Ha. apply andb_true_iff in Ha as [Hc Ha].
    apply negb_true_iff in Hc. now rewrite Hc, (IH Ha).
Qed.

Lemma append_empty (s : string) : s ++ EmptyString = s.
Proof. induction s as [| c s IH]; simpl; [reflexivity | now rewrite IH]. Qed.

Lemma prefix_empty (s : string) : String.prefix EmptyString s = true.
Proof. now destruct s. Qed.

(** The network location of [//host/...] for a host of plain host
    characters. *)
Lemma split_netloc_host (ok : string -> bool) (host rest : string) :
  Str.forallb is_host_char host = true ->
  Urllib.split_netloc ok ("//" ++ host ++ String "/" rest)
  = OK (host, String "/" rest).
Proof.
  intros Hhost. unfold Urllib.split_netloc.
  assert (Str.startswith ("//" ++ host ++ String "/" rest) "//" = true) as ->.
  { unfold Str.startswith. simpl.
    change (String.prefix EmptyString (host ++ String "/" rest) = true).
    apply prefix_empty. }
  simpl Str.drop.
  rewrite span_until_segment; [| | reflexivity].
  - rewrite (forallb_free is_host_char "[" host),
      (forallb_free is_host_char "]" host);
      try assumption; try (intros c Hc; now apply host_char_facts).
    reflexivity.
  - apply (forallb_weaken is_host_char); [| assumption].
    intros c Hc. destruct (host_char_facts c Hc) as (_ & -> & _).
    reflexivity.
Qed.

(** The hostname of a network location made of bucket characters is the
    network location. *)
Lemma hostname_of_bucket (p : Urllib.ParseResult) (b : string) :
  Urllib.netloc p = b ->
  b <> EmptyString ->
  Str.forallb is_bucket_char b = true ->
  Urllib.hostname p = Some b.
Proof.
  intros Hnet Hne Hb. unfold Urllib.hostname. rewrite Hnet.
  assert (forall d, (forall c, is_bucket_char c = true -> Ascii.eqb c d = false)
                    -> Str.contains d b = false) as Hfree
    by (intros d Hd; now apply (forallb_free is_bucket_char)).
  rewrite after_last_absent
    by (apply Hfree; intros c Hc; now apply bucket_char_facts).
  rewrite partition_absent.
  - rewrite (partition_absent ":")
      by (apply Hfree; intros c Hc; now apply bucket_char_facts).
    simpl fst. apply String.eqb_neq in Hne. rewrite Hne.
    rewrite (partition_absent "%")
      by (apply Hfree; intros c Hc; now apply bucket_char_facts).
    rewrite (lower_unchanged is_bucket_char b); [| | assumption].
    + simpl. now rewrite append_empty.
    + intros c Hc. now apply bucket_char_facts.
  - apply Hfree. intros c Hc.
    destruct (bucket_char_facts c Hc) as (Hhost & _).
    now apply host_char_facts.
Qed.

Lemma prefix_same_head (a : ascii) (s t : string) :
  String.prefix (String a s) (String a t) = String.prefix s t.
Proof.
  change (String.prefix (String a s) (String a t))
    with (match ascii_dec a a with
          | left _ => String.prefix s t
          | right _ => false
          end).
  destruct (ascii_dec a a) as [_ | Hne]; [reflexivity | now elim Hne].
Qed.

Lemma cleaned_cons (c : ascii) (s : string) :
  Urllib.is_c0_or_space c = false ->
  Urllib.is_unsafe c = false ->
  cleaned (String c s) = String c (Str.remove Urllib.is_unsafe s).
Proof.
  intros Hc Hu. unfold cleaned. cbn [Str.lstrip]. rewrite Hc.
  cbn [Str.remove]. now rewrite Hu.
Qed.

Lemma remove_keep (c : ascii) (s : string) :
  Urllib.is_unsafe c = false ->
  Str.remove Urllib.is_unsafe (String c s)
  = String c (Str.remove Urllib.is_unsafe s).
Proof. intros Hu. cbn [Str.remove]. now rewrite Hu. Qed.

Lemma key_unchanged (key : string) :
  Str.forallb is_key_char key = true ->
  Str.remove Urllib.is_unsafe key = key.
Proof.
  apply remove_unchanged. intros c Hc. now apply key_char_facts.
Qed.

Lemma path_of_key (sch key : string) :
  Urllib.in_list sch Urllib.uses_params = false ->
  Str.forallb is_key_char key = true ->
  path_of sch (String "/" key) = String "/" key.
Proof.
  intros Hsch Hkey. unfold path_of.
  assert (forall d, (forall c, is_key_char c = true -> Ascii.eqb c d = false)
                    -> Str.contains d (String "/" key) = false) as Hfree.
  { intros d Hd. apply (forallb_free is_key_char); [exact Hd |].
    simpl. now rewrite Hkey. }
  rewrite (partition_absent "#")
    by (apply Hfree; intros c Hc; now apply key_char_facts).
  rewrite (partition_absent "?")
    by (apply Hfree; intros c Hc; now apply key_char_facts).
  now rewrite Hsch.
Qed.

Lemma path_of_plain (sch key : string) :
  Str.forallb is_plain_char key = true ->
  path_of sch (String "/" key) = String "/" key.
Proof.
  intros Hkey. unfold path_of.
  assert (Str.forallb is_key_char (String "/" key) = true) as Hk.
  { simpl. apply (forallb_weaken is_plain_char); [| exact Hkey].
    intros c Hc. now apply plain_char_facts. }
  assert (forall d, (forall c, is_key_char c = true -> Ascii.eqb c d = false)
                    -> Str.contains d (String "/" key) = false) as Hfree
    by (intros d Hd; now apply (forallb_free is_key_char)).
  rewrite (partition_absent "#")
    by (apply Hfree; intros c Hc; now apply key_char_facts).
  rewrite (partition_absent "?")
    by (apply Hfree; intros c Hc; now apply key_char_facts).
  assert (Str.contains ";" (String "/" key) = false) as ->.
  { apply (forallb_free is_plain_char).
    - intros c Hc. now apply plain_char_facts.
    - simpl. exact Hkey. }
  now rewrite andb_false_r.
Qed.

Section ShapedUrls.

Variable ok : string -> bool.

(** What [urlparse] reports for [s3://bucket/key]. *)
Lemma urlparse_s3 (b key : string) :
  b <> EmptyString ->
  Str.forallb is_bucket_char b = true ->
  exists p,
    Urllib.urlparse ok ("s3://" ++ b ++ "/" ++ key) = OK p
    /\ Urllib.scheme p = "s3"
    /\ Urllib.hostname p = Some b
    /\ Urllib.path p
       = path_of "s3" (String "/" (Str.remove Urllib.is_unsafe key)).
Proof.
  intros Hne Hb.
  assert (Str.forallb is_host_char b = true) as Hhost.
  { apply (forallb_weaken is_bucket_char); [| exact Hb].
    intros c Hc. now apply bucket_char_facts. }
  destruct (urlparse_from_parts ok ("s3://" ++ b ++ "/" ++ key) "s3"
              ("//" ++ b ++ String "/" (Str.remove Urllib.is_unsafe key))
              b (String "/" (Str.remove Urllib.is_unsafe key)))
    as (p & Hp & Hs & Hn & Hpath).
  - change ("s3://" ++ b ++ "/" ++ key)
      with (String "s" ("3://" ++ b ++ "/" ++ key)).
    rewrite cleaned_cons by reflexivity.
    change ("3://" ++ b ++ "/" ++ key)
      with (String "3" (String ":" (String "/" (String "/"
              (b ++ String "/" key))))).
    rewrite !remove_keep by reflexivity.
    rewrite remove_append, remove_keep by reflexivity.
    rewrite (remove_unchanged is_host_char) by
      (try exact Hhost; intros c Hc; now apply host_char_facts).
    reflexivity.
  - now apply split_netloc_host.
  - exists p. repeat split; try assumption.
    now apply hostname_of_bucket.
Qed.

(** An [s3] URL names its bucket: [_extract_bucket_name_from_url] returns
    [bucket] on [s3://bucket/key] for every bucket name of lower-case
    letters, digits, dots and hyphens, whatever the key.  Hence the URL
    that [_convert_https_to_s3] builds gives back the bucket of the URL it
    was built from. *)
Theorem s3_url_names_its_bucket :
  (forall b key,
      b <> EmptyString ->
      Str.forallb is_bucket_char b = true ->
      _extract_bucket_name_from_url ok ("s3://" ++ b ++ "/" ++ key) = OK b)
  /\ (forall url out b,
         _convert_https_to_s3 ok url = OK out ->
         _extract_bucket_name_from_url ok url = OK b ->
         Str.forallb is_bucket_char b = true ->
         _extract_bucket_name_from_url ok out = OK b).
Proof.
  assert (forall b key,
             b <> EmptyString ->
             Str.forallb is_bucket_char b = true ->
             _extract_bucket_name_from_url ok ("s3://" ++ b ++ "/" ++ key)
             = OK b) as Hs3.
  { intros b key Hne Hb.
    destruct (urlparse_s3 b key Hne Hb) as (p & Hp & Hs & Hh & _).
    now rewrite (extract_bucket_parsed ok _ p Hp), Hs, Hh. }
  split; [exact Hs3 |].
  intros url out b Hout Hbucket Hb.
  unfold _convert_https_to_s3 in Hout.
  destruct (Str.startswith (Str.lower url) "http"); [| discriminate Hout].
  rewrite Hbucket in Hout. simpl bind in Hout.
  destruct (_get_object ok url) as [o |]; [| discriminate Hout].
  simpl bind in Hout. injection Hout as <-.
  apply Hs3; [| exact Hb].
  exact (proj1 (bucket_is_a_name ok url b Hbucket)).
Qed.

(** [_get_object] takes the first segment of the key of an [s3] URL for
    the bucket: on [s3://bucket/key] it raises when the key holds no
    slash, and on [s3://bucket/first/rest] it returns [rest] alone. *)
Theorem get_object_of_s3_url (b key : string) :
  b <> EmptyString ->
  Str.forallb is_bucket_char b = true ->
  Str.forallb is_key_char key = true ->
  (Str.contains "/" key = false ->
   _get_object ok ("s3://" ++ b ++ "/" ++ key) = Raise AssertionError)
  /\ (forall first rest,
         key = first ++ "/" ++ rest ->
         Str.contains "/" first = false ->
         _get_object ok ("s3://" ++ b ++ "/" ++ key) = OK rest).
Proof.
  intros Hne Hb Hkey.
  destruct (urlparse_s3 b key Hne Hb) as (p & Hp & _ & _ & Hpath).
  rewrite (key_unchanged key Hkey) in Hpath.
  rewrite (path_of_key "s3" key eq_refl Hkey) in Hpath.
  split.
  - intros Hnone. rewrite (get_object_parsed ok _ p Hp).
    rewrite find_slash_none; [reflexivity |]. now rewrite Hpath.
  - intros first rest Hshape Hfirst.
    apply (get_object_segment ok _ p "/" first rest Hp);
      [now rewrite Hpath, Hshape | exact Hfirst].
Qed.

(** For a URL [http://host/bucket/key] or [https://host/bucket/key] of
    plain characters, with a non-empty bucket segment, the bucket is
    [bucket], the object is [key], and the converted URL is
    [s3://bucket/key].  As everywhere in this development the strings are
    those of code points below 256; beyond them [urlparse] rejects some
    hosts (see [Urllib]), and the statement does not reach. *)
Theorem http_url_bucket_and_object (sch host b key : string) :
  sch = "http" \/ sch = "https" ->
  Str.forallb is_host_char host = true ->
  b <> EmptyString ->
  Str.forallb is_segment_char b = true ->
  Str.forallb is_plain_char key = true ->
  let url := sch ++ "://" ++ host ++ "/" ++ b ++ "/" ++ key in
  _extract_bucket_name_from_url ok url = OK b
  /\ _get_object ok url = OK key
  /\ _convert_https_to_s3 ok url = OK ("s3://" ++ b ++ "/" ++ key).
Proof.
  intros Hsch Hhost Hne Hb Hkey url.
  assert (Str.forallb is_plain_char (b ++ "/" ++ key) = true) as Hplain.
  { rewrite forallb_append. simpl. rewrite Hkey.
    rewrite (forallb_weaken is_segment_char is_plain_char b); [reflexivity | |
                                                              exact Hb].
    intros c Hc. now apply segment_char_facts. }
  assert (Str.remove Urllib.is_unsafe (host ++ String "/" (b ++ "/" ++ key))
          = host ++ String "/" (b ++ "/" ++ key)) as Hclean.
  { rewrite remove_append, remove_keep by reflexivity.
    rewrite (remove_unchanged is_host_char) by
      (try exact Hhost; intros c Hc; now apply host_char_facts).
    rewrite (remove_unchanged is_plain_char); [reflexivity | | exact Hplain].
    intros c Hc. apply key_char_facts. now apply plain_char_facts. }
  assert (Str.contains "/" b = false) as Hslash.
  { apply (forallb_free is_segment_char); [| exact Hb].
    intros c Hc. now apply segment_char_facts. }
  assert (exists p,
             Urllib.urlparse ok url = OK p
             /\ Urllib.scheme p <> "s3"
             /\ Urllib.path p = "/" ++ b ++ "/" ++ key
             /\ Str.startswith (Str.lower url) "http" = true)
    as (p & Hp & Hscheme & Hpath & Hhttp).
  { destruct Hsch as [-> | ->]; subst url.
    - destruct (urlparse_from_parts ok
                  ("http" ++ "://" ++ host ++ "/" ++ b ++ "/" ++ key) "http"
                  ("//" ++ host ++ String "/" (b ++ "/" ++ key))
                  host (String "/" (b ++ "/" ++ key)))
        as (p & Hp & Hs & _ & Hpath).
      + change ("http" ++ "://" ++ host ++ "/" ++ b ++ "/" ++ key)
          with (String "h" (String "t" (String "t" (String "p" (String ":"
                  (String "/" (String "/"
                     (host ++ String "/" (b ++ "/" ++ key))))))))).
        rewrite cleaned_cons by reflexivity.
        rewrite !remove_keep by reflexivity. rewrite Hclean. reflexivity.
      + now apply split_netloc_host.
      + exists p. split; [exact Hp |]. split; [now rewrite Hs |].
        split; [now rewrite Hpath, (path_of_plain _ _ Hplain) |].
        unfold Str.startswith. simpl Str.lower.
        rewrite !prefix_same_head. apply prefix_empty.
    - destruct (urlparse_from_parts ok
                  ("https" ++ "://" ++ host ++ "/" ++ b ++ "/" ++ key) "https"
                  ("//" ++ host ++ String "/" (b ++ "/" ++ key))
                  host (String "/" (b ++ "/" ++ key)))
        as (p & Hp & Hs & _ & Hpath).
      + change ("https" ++ "://" ++ host ++ "/" ++ b ++ "/" ++ key)
          with (String "h" (String "t" (String "t" (String "p" (String "s"
                  (String ":" (String "/" (String "/"
                     (host ++ String "/" (b ++ "/" ++ key)))))))))).
        rewrite cleaned_cons by reflexivity.
        rewrite !remove_keep by reflexivity. rewrite Hclean. reflexivity.
      + now apply split_netloc_host.
      + exists p. split; [exact Hp |]. split; [now rewrite Hs |].
        split; [now rewrite Hpath, (path_of_plain _ _ Hplain) |].
        unfold Str.startswith. simpl Str.lower.
        rewrite !prefix_same_head. apply prefix_empty. }
  pose proof (extract_bucket_segment ok url p b key Hp (or_introl Hscheme)
                Hpath Hne Hslash) as Hbucket.
  assert (_get_object ok url = OK key) as Hobject.
  { apply (get_object_segment ok url p "/" b key Hp); [exact Hpath |
                                                        exact Hslash]. }
  split; [exact Hbucket |]. split; [exact Hobject |].
  unfold _convert_https_to_s3. now rewrite Hhttp, Hbucket, Hobject.
Qed.

End ShapedUrls.

Lemma s3_url_names_its_bucket_witness :
  _extract_bucket_name_from_url no_bracketed_host
    ("s3://" ++ "my-bucket.01" ++ "/" ++ "a/b[1]?x#y")
  = OK "my-bucket.01"
  /\ _extract_bucket_name_from_url no_bracketed_host
       "s3://bucket2/path/obj.tif"
     = OK "bucket2".
Proof.
  destruct (s3_url_names_its_bucket no_bracketed_host) as [Hs3 Hconvert].
  split.
  - apply Hs3; [discriminate | reflexivity].
  - apply (Hconvert "https://host/bucket2/path/obj.tif"
             "s3://bucket2/path/obj.tif" "bucket2"); reflexivity.
Defined.

Lemma get_object_of_s3_url_witness :
  _get_object no_bracketed_host ("s3://" ++ "bucket1" ++ "/" ++ "obj.tif")
  = Raise AssertionError
  /\ _get_object no_bracketed_host
       ("s3://" ++ "bucket1" ++ "/" ++ "path/to/obj.tif")
     = OK "to/obj.tif".
Proof.
  split.
  - apply (get_object_of_s3_url no_bracketed_host "bucket1" "obj.tif");
      [discriminate | reflexivity | reflexivity | reflexivity].
  - apply (proj2 (get_object_of_s3_url no_bracketed_host "bucket1"
                    "path/to/obj.tif"
                    ltac:(discriminate) eq_refl eq_refl) "path" "to/obj.tif");
      reflexivity.
Defined.

Lemma http_url_bucket_and_object_witness :
  _convert_https_to_s3 no_bracketed_host
    ("http" ++ "://" ++ "user@minio:9000" ++ "/" ++ "Bucket_2" ++ "/"
     ++ "a b/c.tif")
  = OK ("s3://" ++ "Bucket_2" ++ "/" ++ "a b/c.tif").
Proof.
  apply (http_url_bucket_and_object no_bracketed_host "http"
           "user@minio:9000" "Bucket_2" "a b/c.tif");
    [now left | reflexivity | discriminate | reflexivity | reflexivity].
Defined.

(** ** The bucket of a constructed reader *)

Section ReaderBucket.

Variable bracketed_host_ok : string -> bool.
Variable get_credentials_by_bucket : string -> result pyval.
Variable parse_region : string -> result pyval.

(** The bucket of a constructed reader is the bucket of the [href] of the
    first asset of the first item, a string; it is not empty and holds no
    slash.  Later items and later assets play no part. *)
Theorem constructed_reader_bucket (its bnds box extent props : pyval)
  (self : CloudStorageFileReader) :
  __init__ bracketed_host_ok get_credentials_by_bucket parse_region its bnds
    box extent props = OK self ->
  exists item0 later_items asset_id asset_values later_assets url,
    its = PList (item0 :: later_items)
    /\ getitem_str item0 "assets"
       = OK (PDict ((asset_id, asset_values) :: later_assets))
    /\ getitem_str asset_values "href" = OK (PStr url)
    /\ _extract_bucket_name_from_url bracketed_host_ok url = OK (bucket self)
    /\ bucket self <> EmptyString
    /\ Str.contains "/" (bucket self) = false.
Proof.
  intros Hinit.
  destruct (init_unfold bracketed_host_ok get_credentials_by_bucket
              parse_region its bnds box extent props self Hinit)
    as (Hitems & _ & _ & st & Hst & ->).
  destruct (check_items_accepts its Hitems) as (item0 & later & ->).
  destruct (resolve_inv bracketed_host_ok get_credentials_by_bucket
              parse_region _ st Hst)
    as (i0 & assets & asset_values & href & credentials & stored
        & H0 & Hassets & Hnext & Hhref & Hbucket & _).
  simpl in H0. injection H0 as <-.
  destruct assets as [| [asset_id av] later_assets]; [discriminate Hnext |].
  simpl in Hnext. injection Hnext as ->.
  destruct href as [| | | | url | | | | |];
    try (simpl in Hbucket;
         first [ discriminate Hbucket
               | match type of Hbucket with
                 | (if ?c then _ else _) = _ => destruct c
                 end; discriminate Hbucket ]).
  simpl in Hbucket. simpl bucket.
  exists item0, later, asset_id, asset_values, later_assets, url.
  repeat split; try assumption;
    now apply (bucket_is_a_name bracketed_host_ok url (st_bucket st)).
Qed.

End ReaderBucket.

Lemma constructed_reader_bucket_witness :
  exists url,
    _extract_bucket_name_from_url no_bracketed_host url = OK "bucket2"
    /\ "bucket2" <> EmptyString.
Proof.
  destruct (constructed_reader_bucket no_bracketed_host example_credentials
              example_region example_items (PList [PStr "B02"]) example_bbox
              PNone PNone (example_reader PNone PNone) eq_refl)
    as (item0 & later & asset_id & asset_values & later_assets & url
        & _ & _ & _ & Hbucket & Hne & _).
  exists url. now split.
Defined.
